(** * TradeDataResampler: a shallow embedding of [sampler.py]

    The class [TDResampler] wraps a pandas [DataFrame] indexed by time and
    offers five operations on it: [convert_tz], [resample], [apply_cutoff],
    [apply_precision] and [write_csv].  The methods are embedded as
    computations in a state-and-exception monad over the object's fields,
    the heap of Python list objects the caller shares with it, the logger
    and the disk.  The pandas, pytz and dateutil calls the methods make are
    embedded as functions over a table of rows; what only a time zone
    database, a date parser or the file system can answer is a field of
    [Environment]. *)

From Stdlib Require Import ZArith String List Bool Lia.
From stdpp Require Import base option list gmap strings numbers sorting.

Local Open Scope Z_scope.

(** ** What the libraries are asked *)

(** A grid of bin edges on the wall clock, as a pandas offset lays it out:
    [edge k] is the k-th edge and [bin w] the k with
    [edge k <= w < edge (k+1)].  [right_default] tells which side the offset
    closes and labels when [resample] is not told; [super_daily] holds for
    offsets coarser than a day, whose right-closed bins run to the end of the
    edge's day. *)
Record Grid := {
  bin : Z → Z;
  edge : Z → Z;
  right_default : bool;
  super_daily : bool
}.

(** A quoted date as pandas reads it, [Timestamp(text)]: a reading of the
    wall clock when the text names no offset from UTC, an instant when it
    names one. *)
Inductive Timestamp := Naive (w : Z) | Aware (t : Z).

(** Time is counted in microseconds: since 1970-01-01T00:00 for a time
    stamp, since midnight for a time of day. *)
Class Environment := {
  (** [pytz.timezone name] succeeds *)
  tz_known : string → bool;
  (** the instant a wall-clock reading of the zone denotes; [None] where the
      reading is ambiguous or does not exist *)
  tz_localize_wall : string → Z → option Z;
  (** the wall-clock reading of an instant in the zone *)
  wall_clock : string → Z → Z;
  (** the instant of a bin edge given on the wall clock of the zone *)
  bin_instant : string → Z → Z;
  (** [Timestamp(text)] for the quoted date of a query; [None] where the
      text cannot be parsed *)
  parse_datetime : string → option Timestamp;
  (** the offsets other than the day and the weeks *)
  other_offset : string → option Grid;
  (** the operating system lets a file be written at the path *)
  can_write : string → bool
}.

(** The point of the index a quoted date of a query denotes, for an index of
    the given zone: a date without an offset against an index without a
    zone, a date with an offset against an index with a zone.  [None] where
    pandas cannot parse the date or refuses the comparison. *)
Definition date_literal `{Environment} (tzo : option string) (date : string) : option Z :=
  match parse_datetime date, tzo with
  | Some (Naive w), None => Some w
  | Some (Aware t), Some _ => Some t
  | _, _ => None
  end.

(** The arithmetic of the cells: [v_leb] orders them, [v_add] adds,
    [v_div] divides a sum by a count and [v_round] rounds to a number of
    decimal places; [None] is the NaN that numpy's rounding comes to where
    ten to the number of places is no finite float. *)
Class Numeric (V : Type) := {
  v_zero : V;
  v_add : V → V → V;
  v_leb : V → V → bool;
  v_div : V → positive → V;
  v_round : Z → V → option V
}.

(** ** Python values *)

Definition loc := positive.

Inductive Exception :=
  | UnknownTimeZoneError
  | InvalidTimeError
  | TypeError
  | ValueError
  | AttributeError
  | KeyError (key : string)
  | OSError
  | OverflowError
  | SystemExit (code : Z).

(** What a call comes to: it returns, it raises, or ([Stuck]) the model has
    no step to take: a reference to no list object, or a loop that outran
    its bound. *)
Inductive Outcome (A : Type) :=
  | Return (a : A)
  | Raise (e : Exception)
  | Stuck.
Arguments Return {A} a.
Arguments Raise {A} e.
Arguments Stuck {A}.

Inductive AggFn := AggFirst | AggLast | AggMin | AggMax | AggSum | AggMean.

Inductive Side := SideLeft | SideRight.

(** The keyword arguments of [DataFrame.resample] the model reads. *)
Record ResampleParams := {
  closed : option Side;
  label : option Side
}.

Inductive Level := DEBUG | WARNING | ERROR.

Inductive LogRecord :=
  | LogNotAFileExiting (path : string)
  | LogNotAFile (path : string)
  | LogCutoffTime (start_time end_time : Z)
  | LogCutoffStart (start_date : string)
  | LogCutoffEnd (end_date : string)
  | LogConvertingTz (from_tz to_tz : string)
  | LogApplyingPrecision (precision : Z)
  | LogUnknownTimeZoneError
  | LogSomeException
  | LogCallingResample (param_dict : ResampleParams) (ohlc : list (string * AggFn))
  | LogColDiscarded (val : string)
  | LogWriting (columns : list string).

Definition levelname (r : LogRecord) : Level :=
  match r with
  | LogNotAFileExiting _ | LogUnknownTimeZoneError | LogSomeException => ERROR
  | LogNotAFile _ | LogColDiscarded _ => WARNING
  | _ => DEBUG
  end.

(** [list.remove(x)]: the first occurrence goes; [None] is the ValueError of
    a list without [x]. *)
Fixpoint list_remove (x : string) (l : list string) : option (list string) :=
  match l with
  | [] => None
  | y :: l' => if decide (y = x) then Some l' else (y ::.) <$> list_remove x l'
  end.

Section Model.
Context {V : Type} {NV : Numeric V} {ENV : Environment}.

(** ** The table *)

(** A row maps a column to its value; a column without an entry is a missing
    value (NaN).  [df_tz] is the zone of the index: without one the time
    stamps are wall-clock readings, with one they are instants. *)
Record DataFrame := {
  df_tz : option string;
  df_columns : list string;
  df_rows : list (Z * gmap string V)
}.

(** A file: whether it has a header row, the names of the columns the
    index is read from or written to, and the table its text holds. *)
Record CsvFile := {
  csv_header : bool;
  csv_index : list string;
  csv_table : DataFrame
}.

(** ** The object and the world around it *)

Record TDResampler := {
  csv_file : string;
  datetime_col : loc;
  cols : loc;
  df_orig : DataFrame;
  output_header : bool;
  ohlc_dict : option (list (string * AggFn));
  df : DataFrame;
  tz : option string
}.

(** The list objects, the records the logger has taken, the files, and the
    list objects that the [def] statements bound as defaults. *)
Record World := {
  heap : gmap loc (list string);
  logger : list LogRecord;
  disk : gmap string CsvFile;
  default_datetimecols : loc;
  default_cols : loc;
  default_columns : loc
}.

Record State := {
  self : TDResampler;
  world : World
}.

Definition set_heap (h : gmap loc (list string)) (w : World) : World :=
  {| heap := h; logger := logger w; disk := disk w;
     default_datetimecols := default_datetimecols w;
     default_cols := default_cols w; default_columns := default_columns w |}.

Definition add_log (r : LogRecord) (w : World) : World :=
  {| heap := heap w; logger := logger w ++ [r]; disk := disk w;
     default_datetimecols := default_datetimecols w;
     default_cols := default_cols w; default_columns := default_columns w |}.

Definition set_disk (d : gmap string CsvFile) (w : World) : World :=
  {| heap := heap w; logger := logger w; disk := d;
     default_datetimecols := default_datetimecols w;
     default_cols := default_cols w; default_columns := default_columns w |}.

Definition set_df (d : DataFrame) (o : TDResampler) : TDResampler :=
  {| csv_file := csv_file o; datetime_col := datetime_col o; cols := cols o;
     df_orig := df_orig o; output_header := output_header o;
     ohlc_dict := ohlc_dict o; df := d; tz := tz o |}.

Definition set_tz (z : option string) (o : TDResampler) : TDResampler :=
  {| csv_file := csv_file o; datetime_col := datetime_col o; cols := cols o;
     df_orig := df_orig o; output_header := output_header o;
     ohlc_dict := ohlc_dict o; df := df o; tz := z |}.

Definition set_ohlc_dict (d : option (list (string * AggFn))) (o : TDResampler)
    : TDResampler :=
  {| csv_file := csv_file o; datetime_col := datetime_col o; cols := cols o;
     df_orig := df_orig o; output_header := output_header o;
     ohlc_dict := d; df := df o; tz := tz o |}.

(** ** The monad of the methods *)

Definition M (A : Type) : Type := State → State * Outcome A.

#[global] Instance M_ret : MRet M := λ A a st, (st, Return a).

#[global] Instance M_bind : MBind M := λ A B f m st,
  match m st with
  | (st', Return a) => f a st'
  | (st', Raise e) => (st', Raise e)
  | (st', Stuck) => (st', Stuck)
  end.

Definition raise {A} (e : Exception) : M A := λ st, (st, Raise e).

Definition stuck {A} : M A := λ st, (st, Stuck).

Definition gets {A} (f : TDResampler → A) : M A := λ st, (st, Return (f (self st))).

Definition modify_self (f : TDResampler → TDResampler) : M unit :=
  λ st, ({| self := f (self st); world := world st |}, Return tt).

Definition modify_world (f : World → World) : M unit :=
  λ st, ({| self := self st; world := f (world st) |}, Return tt).

Definition log (r : LogRecord) : M unit := modify_world (add_log r).

(** Reading and writing the list object behind a reference. *)
Definition load (a : loc) : M (list string) :=
  λ st, match heap (world st) !! a with
        | Some l => (st, Return l)
        | None => (st, Stuck)
        end.

Definition store (a : loc) (l : list string) : M unit :=
  modify_world (λ w, set_heap (<[a := l]> (heap w)) w).

(** [try: body except UnknownTimeZoneError: h1 except: h2].  What the body
    did to the state before it raised stays done. *)
Definition try_except (body : M unit) (on_unknown on_other : M unit) : M unit :=
  λ st, match body st with
        | (st', Raise UnknownTimeZoneError) => on_unknown st'
        | (st', Raise _) => on_other st'
        | r => r
        end.

(** [for val in a: body val], the way a list iterator runs: it keeps an
    index into the list object and stops when the index has passed the end
    of the list as it is then.  [n] bounds the number of rounds. *)
Fixpoint for_from (n : nat) (a : loc) (i : nat) (body : string → M unit) : M unit :=
  l ← load a;
  match l !! i, n with
  | None, _ => mret tt
  | Some _, O => stuck
  | Some val, S n' => body val;; for_from n' a (S i) body
  end.

Definition for_in (a : loc) (body : string → M unit) : M unit :=
  l ← load a; for_from (length l) a 0 body.

(** ** write_csv *)

(** [columns.remove(val)] *)
Definition columns_remove (c : loc) (val : string) : M unit :=
  l ← load c;
  match list_remove val l with
  | Some l' => store c l'
  | None => raise ValueError
  end.

(** [df[columns]]: every name has to be a column of the table. *)
Definition getitem (columns : list string) (d : DataFrame) : Exception + DataFrame :=
  match list_find (λ c, c ∉ df_columns d) columns with
  | Some (_, c) => inl (KeyError c)
  | None =>
      inr {| df_tz := df_tz d; df_columns := columns;
             df_rows := prod_map id (filter (λ kv, kv.1 ∈ columns)) <$> df_rows d |}
  end.

(** [df.to_csv(outfile, header=...)]: the index goes out under the name
    [set_index] gave it; a path that cannot be written raises OSError. *)
Definition to_csv (outfile : string) : M unit :=
  λ st, if can_write outfile then
          modify_world
            (λ w, set_disk (<[outfile := {| csv_header := output_header (self st);
                                            csv_index := ["DateTime"%string];
                                            csv_table := df (self st) |}]> (disk w)) w) st
        else (st, Raise OSError).

Definition discard_datetime (c : loc) (val : string) : M unit :=
  l ← load c;
  if decide (val ∈ l) then columns_remove c val else mret tt.

Definition discard_unknown (keys : list string) (c : loc) (val : string) : M unit :=
  if decide (val ∈ keys) then mret tt
  else log (LogColDiscarded val);; columns_remove c val.

(** [columns] is the list object the caller passed, or [None] for a call
    that leaves the parameter to its default. *)
Definition write_csv (outfile : string) (columns : option loc) : M unit :=
  λ st,
    let c := default (default_columns (world st)) columns in
    (dt ← gets datetime_col;
     for_in dt (discard_datetime c);;
     d ← gets ohlc_dict;
     keys ← match d with
            | Some d => mret (d.*1)
            | None => raise AttributeError
            end;
     for_in c (discard_unknown keys c);;
     l ← load c;
     cur ← gets df;
     match getitem l cur with
     | inl e => raise e
     | inr d' =>
         modify_self (set_df d');;
         log (LogWriting l);;
         to_csv outfile
     end) st.

(** ** __init__ *)

(** [__check_file] *)
Definition check_file (on_exit : bool) (path : string) (w : World) : World * Outcome unit :=
  if decide (is_Some (disk w !! path)) then (w, Return tt)
  else if on_exit then (add_log (LogNotAFileExiting path) w, Raise (SystemExit 1))
  else (add_log (LogNotAFile path) w, Return tt).

(** [pd.read_csv(path, parse_dates={'DateTime': datetimecols},
    usecols=usecols, ...).set_index('DateTime')].  A name of [usecols] that
    the file has not, or a date column that [usecols] leaves out, is a
    ValueError.  A file with a header and no row is read without its dates
    being parsed, so that [set_index] finds no 'DateTime' and raises
    KeyError.  Otherwise the index is made of the date and time columns,
    with the zone their text carries, and of the data columns those listed
    in [usecols] are read.  A file without a header row, or whose date and
    time columns are not those of [datetimecols], is outside the model. *)
Definition read_csv (path : string) (datetimecols usecols : list string) (w : World)
    : Outcome DataFrame :=
  match disk w !! path with
  | None => Raise OSError
  | Some f =>
      let t := csv_table f in
      let keep := filter (λ c, c ∈ usecols) (df_columns t) in
      if negb (csv_header f) then Stuck
      else if decide (Forall (λ c, c ∈ csv_index f ++ df_columns t) usecols ∧
                      Forall (λ c, c ∈ usecols) datetimecols) then
        if decide (datetimecols = csv_index f) then
          if decide (df_rows t = []) then Raise (KeyError "DateTime")
          else Return {| df_tz := df_tz t; df_columns := keep;
                         df_rows := prod_map id (filter (λ kv, kv.1 ∈ keep)) <$> df_rows t |}
        else Stuck
      else Raise ValueError
  end.

Definition init (path : string) (datetimecols cols : option loc) (w : World)
    : World * Outcome TDResampler :=
  let dt := default (default_datetimecols w) datetimecols in
  let cs := default (default_cols w) cols in
  match check_file true path w with
  | (w', Return _) =>
      match heap w' !! dt, heap w' !! cs with
      | Some dts, Some usecols =>
          match read_csv path dts usecols w' with
          | Return t =>
              (w', Return {| csv_file := path; datetime_col := dt; cols := cs;
                             df_orig := t; output_header := true;
                             ohlc_dict := None; df := t; tz := None |})
          | Raise e => (w', Raise e)
          | Stuck => (w', Stuck)
          end
      | _, _ => (w', Stuck)
      end
  | (w', Raise e) => (w', Raise e)
  | (w', Stuck) => (w', Stuck)
  end.

(** ** convert_tz *)

Record DatetimeIndex := {
  idx_tz : option string;
  idx_values : list Z
}.

Definition index (d : DataFrame) : DatetimeIndex :=
  {| idx_tz := df_tz d; idx_values := (df_rows d).*1 |}.

(** [df.index = ix] *)
Definition set_index (ix : DatetimeIndex) (d : DataFrame) : Exception + DataFrame :=
  if decide (length (idx_values ix) = length (df_rows d)) then
    inr {| df_tz := idx_tz ix; df_columns := df_columns d;
           df_rows := zip (idx_values ix) (df_rows d).*2 |}
  else inl ValueError.

(** [pytz.timezone(name)]; a zone is known by its name. *)
Definition pytz_timezone (name : string) : Exception + string :=
  if tz_known name then inr name else inl UnknownTimeZoneError.

(** [index.tz_localize(zone)]: an index that has a zone already refuses. *)
Definition tz_localize (zone : string) (ix : DatetimeIndex) : Exception + DatetimeIndex :=
  match idx_tz ix with
  | Some _ => inl TypeError
  | None =>
      match mapM (tz_localize_wall zone) (idx_values ix) with
      | Some ts => inr {| idx_tz := Some zone; idx_values := ts |}
      | None => inl InvalidTimeError
      end
  end.

(** [index.tz_convert(zone)]: the instants stay, the zone they are read in
    changes; an index without a zone refuses. *)
Definition tz_convert (zone : string) (ix : DatetimeIndex) : Exception + DatetimeIndex :=
  match idx_tz ix with
  | Some _ => inr {| idx_tz := Some zone; idx_values := idx_values ix |}
  | None => inl TypeError
  end.

Definition lift {A} (r : Exception + A) : M A :=
  match r with
  | inl e => raise e
  | inr a => mret a
  end.

(** The body of the [try]: nothing is assigned before both zones are found
    and the index has been localized and converted. *)
Definition convert_tz_try (from_tz to_tz : string) : M unit :=
  cur ← gets df;
  z1 ← lift (pytz_timezone from_tz);
  ix1 ← lift (tz_localize z1 (index cur));
  z2 ← lift (pytz_timezone to_tz);
  ix2 ← lift (tz_convert z2 ix1);
  d' ← lift (set_index ix2 cur);
  modify_self (set_df d');;
  modify_self (set_tz (Some to_tz)).

Definition convert_tz (from_tz to_tz : string) : M unit :=
  log (LogConvertingTz from_tz to_tz);;
  try_except (convert_tz_try from_tz to_tz)
    (log LogUnknownTimeZoneError)
    (log LogSomeException).

(** ** apply_cutoff *)

Definition day : Z := 86400000000.

(** The wall-clock reading of a point of the index. *)
Definition wall (d : DataFrame) (t : Z) : Z :=
  match df_tz d with
  | Some z => wall_clock z t
  | None => t
  end.

Definition time_of_day (d : DataFrame) (t : Z) : Z := wall d t `mod` day.

Definition filter_rows (P : Z → Prop) `{!∀ t, Decision (P t)} (d : DataFrame) : DataFrame :=
  {| df_tz := df_tz d; df_columns := df_columns d;
     df_rows := filter (λ r, P r.1) (df_rows d) |}.

(** The test of [between_time] with both ends included: the two comparisons
    are joined by "and" when the start is not after the end, by "or" when it
    is. *)
Definition between (s e t : Z) : Prop :=
  if decide (s ≤ e) then s ≤ t ∧ t ≤ e else s ≤ t ∨ t ≤ e.

#[global] Instance between_dec s e t : Decision (between s e t).
Proof. unfold between. destruct (decide (s ≤ e)); apply _. Defined.

Definition between_time (s e : Z) (d : DataFrame) : Exception + DataFrame :=
  if decide ((0 ≤ s < day) ∧ (0 ≤ e < day)) then
    inr (filter_rows (λ t, between s e (time_of_day d t)) d)
  else inl ValueError.

Inductive CmpOp := OpGt | OpLt.

Definition compare_index (op : CmpOp) (bound t : Z) : Prop :=
  match op with
  | OpGt => bound < t
  | OpLt => t < bound
  end.

#[global] Instance compare_index_dec op b t : Decision (compare_index op b t).
Proof. destruct op; simpl; apply _. Defined.

(** [df.query("index <op> '<date>'")]: a date that cannot be parsed is a
    ValueError; a date without an offset against an index with a zone, or
    the other way round, is a TypeError. *)
Definition query_index (op : CmpOp) (date : string) (d : DataFrame) : Exception + DataFrame :=
  match parse_datetime date with
  | None => inl ValueError
  | Some _ =>
      match date_literal (df_tz d) date with
      | Some b => inr (filter_rows (compare_index op b) d)
      | None => inl TypeError
      end
  end.

(** The three [if] statements of [apply_cutoff]; a parameter left at its
    default -1 is [None]. *)
Definition cutoff_time (start_time end_time : option Z) : M unit :=
  match start_time, end_time with
  | Some s, Some e =>
      log (LogCutoffTime s e);;
      cur ← gets df;
      d' ← lift (between_time s e cur);
      modify_self (set_df d')
  | _, _ => mret tt
  end.

Definition cutoff_start (start_date : option string) : M unit :=
  match start_date with
  | Some sd =>
      log (LogCutoffStart sd);;
      cur ← gets df;
      d' ← lift (query_index OpGt sd cur);
      modify_self (set_df d')
  | None => mret tt
  end.

Definition cutoff_end (end_date : option string) : M unit :=
  match end_date with
  | Some ed =>
      log (LogCutoffEnd ed);;
      cur ← gets df;
      d' ← lift (query_index OpLt ed cur);
      modify_self (set_df d')
  | None => mret tt
  end.

Definition apply_cutoff (start_time end_time : option Z) (start_date end_date : option string)
    : M unit :=
  cutoff_time start_time end_time;;
  cutoff_start start_date;;
  cutoff_end end_date.

(** ** apply_precision *)

(** [df.round(decimals=...)]: numpy takes the number of places as a C int
    and refuses one that does not fit; a cell whose rounding is NaN is a
    missing cell afterwards. *)
Definition df_round (decimals : Z) (d : DataFrame) : Exception + DataFrame :=
  if decide (- 2 ^ 31 ≤ decimals < 2 ^ 31) then
    inr {| df_tz := df_tz d; df_columns := df_columns d;
           df_rows := (λ row : Z * gmap string V, (row.1, omap (v_round decimals) row.2))
                      <$> df_rows d |}
  else inl OverflowError.

Definition apply_precision (precision : Z) : M unit :=
  log (LogApplyingPrecision precision);;
  cur ← gets df;
  d' ← lift (df_round precision cur);
  modify_self (set_df d').

(** ** resample *)

Definition week : Z := 7 * day.

Inductive Weekday := MON | TUE | WED | THU | FRI | SAT | SUN.

Definition weekday_number (a : Weekday) : Z :=
  match a with
  | MON => 0 | TUE => 1 | WED => 2 | THU => 3 | FRI => 4 | SAT => 5 | SUN => 6
  end.

(** The weekday of a wall-clock reading; 1970-01-01 was a Thursday. *)
Definition weekday_of (w : Z) : Z := (w `div` day + 3) `mod` 7.

(** The first midnight from 1970-01-01 on that starts the weekday. *)
Definition week_phase (a : Weekday) : Z := (weekday_number a + 4) `mod` 7 * day.

Definition day_grid : Grid :=
  {| bin w := w `div` day; edge k := k * day;
     right_default := false; super_daily := false |}.

(** The weeks anchored on a weekday: every edge is a midnight that starts
    the weekday. *)
Definition week_grid (a : Weekday) : Grid :=
  {| bin w := (w - week_phase a) `div` week; edge k := k * week + week_phase a;
     right_default := true; super_daily := true |}.

Definition anchored_weeks : list (string * Weekday) :=
  [("W", SUN); ("W-MON", MON); ("W-TUE", TUE); ("W-WED", WED);
   ("W-THU", THU); ("W-FRI", FRI); ("W-SAT", SAT); ("W-SUN", SUN)]%string.

(** The offset an alias names; [None] is the ValueError of an alias pandas
    does not know. *)
Definition to_offset (rule : string) : option Grid :=
  if decide (rule = "D"%string) then Some day_grid
  else match list_find (λ p, p.1 = rule) anchored_weeks with
       | Some (_, (_, a)) => Some (week_grid a)
       | None => other_offset rule
       end.

(** What [df.resample(rule, **param_dict)] returns: the table with the way
    to bin it. *)
Record Resampler := {
  rs_obj : DataFrame;
  rs_grid : Grid;
  rs_closed : Side;
  rs_label : Side
}.

Definition side_or_default (g : Grid) (o : option Side) : Side :=
  default (if right_default g then SideRight else SideLeft) o.

Definition df_resample (rule : string) (p : ResampleParams) (d : DataFrame)
    : Exception + Resampler :=
  match to_offset rule with
  | Some g => inr {| rs_obj := d; rs_grid := g;
                     rs_closed := side_or_default g (closed p);
                     rs_label := side_or_default g (label p) |}
  | None => inl ValueError
  end.

(** The bin of a wall-clock reading.  Closed on the left, bin k spans
    [edge k <= w < edge (k+1)]; closed on the right it spans
    [edge k < w <= edge (k+1)], and for an offset coarser than a day from the
    end of the day of [edge k] to the end of the day of [edge (k+1)]. *)
Definition bucket (g : Grid) (cl : Side) (w : Z) : Z :=
  match cl with
  | SideLeft => bin g w
  | SideRight => bin g (if super_daily g then w - day else w - 1)
  end.

Definition bucket_label (g : Grid) (lb : Side) (k : Z) : Z :=
  match lb with
  | SideLeft => edge g k
  | SideRight => edge g (k + 1)
  end.

(** The point of the index at a wall-clock reading. *)
Definition instant (d : DataFrame) (w : Z) : Z :=
  match df_tz d with
  | Some z => bin_instant z w
  | None => w
  end.

Definition bucket_of (r : Resampler) (t : Z) : Z :=
  bucket (rs_grid r) (rs_closed r) (wall (rs_obj r) t).

Definition not_after (r1 r2 : Z * gmap string V) : Prop := r1.1 ≤ r2.1.

#[global] Instance not_after_dec r1 r2 : Decision (not_after r1 r2).
Proof. unfold not_after. apply _. Defined.

(** [sort_index(kind='mergesort')], which [resample] applies to an index
    that is not in the order of time: rows with the same time stamp keep the
    order they had. *)
Fixpoint insert_row (x : Z * gmap string V) (l : list (Z * gmap string V))
    : list (Z * gmap string V) :=
  match l with
  | [] => [x]
  | y :: l' => if decide (not_after x y) then x :: l else y :: insert_row x l'
  end.

Definition sort_index (l : list (Z * gmap string V)) : list (Z * gmap string V) :=
  foldr insert_row [] l.

(** The rows of a bin, in the order of time. *)
Definition bucket_rows (r : Resampler) (k : Z) : list (Z * gmap string V) :=
  filter (λ row, bucket_of r row.1 = k) (sort_index (df_rows (rs_obj r))).

(** The bins run from the bin of the earliest row to the bin of the latest,
    the empty ones between them included. *)
Definition bucket_range (r : Resampler) : list Z :=
  match bucket_of r <$> (df_rows (rs_obj r)).*1 with
  | [] => []
  | k :: ks =>
      let lo := foldr Z.min k ks in
      let hi := foldr Z.max k ks in
      seqZ lo (hi - lo + 1)
  end.

(** The values of a column that are not missing. *)
Definition column_values (c : string) (rows : list (Z * gmap string V)) : list V :=
  omap (λ row, row.2 !! c) rows.

Definition v_min (x y : V) : V := if v_leb y x then y else x.
Definition v_max (x y : V) : V := if v_leb x y then y else x.
Definition v_sum (vs : list V) : V := foldl v_add v_zero vs.

(** The reductions skip the missing values; over no value at all the sum is
    zero and each of the others is missing. *)
Definition aggregate (f : AggFn) (vs : list V) : option V :=
  match f with
  | AggFirst => head vs
  | AggLast => last vs
  | AggMin => match vs with [] => None | v :: vs' => Some (foldl v_min v vs') end
  | AggMax => match vs with [] => None | v :: vs' => Some (foldl v_max v vs') end
  | AggSum => Some (v_sum vs)
  | AggMean => match vs with
               | [] => None
               | _ => Some (v_div (v_sum vs) (Pos.of_nat (length vs)))
               end
  end.

Definition agg_row (spec : list (string * AggFn)) (rows : list (Z * gmap string V))
    : gmap string V :=
  list_to_map (omap (λ cf, (cf.1,.) <$> aggregate cf.2 (column_values cf.1 rows)) spec).

(** [.agg(ohlc_dict)]: one row per bin, one column per key. *)
Definition agg (spec : list (string * AggFn)) (r : Resampler) : Exception + DataFrame :=
  if decide (spec = []) then inl ValueError
  else match list_find (λ c, c ∉ df_columns (rs_obj r)) spec.*1 with
       | Some (_, c) => inl (KeyError c)
       | None =>
           inr {| df_tz := df_tz (rs_obj r); df_columns := spec.*1;
                  df_rows := (λ k, (instant (rs_obj r) (bucket_label (rs_grid r) (rs_label r) k),
                                    agg_row spec (bucket_rows r k)))
                             <$> bucket_range r |}
       end.

(** A row is whole when none of the table's columns is missing in it. *)
Definition whole (columns : list string) (row : gmap string V) : Prop :=
  Forall (λ c, is_Some (row !! c)) columns.

#[global] Instance whole_dec columns row : Decision (whole columns row).
Proof. unfold whole. apply _. Defined.

(** [.dropna(how='any')] *)
Definition dropna_any (d : DataFrame) : DataFrame :=
  {| df_tz := df_tz d; df_columns := df_columns d;
     df_rows := filter (λ r, whole (df_columns d) r.2) (df_rows d) |}.

(** [df.resample(rule, **param_dict).agg(ohlc_dict).dropna(how='any')] *)
Definition resample_agg_dropna (rule : string) (param_dict : ResampleParams)
    (ohlc : list (string * AggFn)) (d : DataFrame) : Exception + DataFrame :=
  match df_resample rule param_dict d with
  | inl e => inl e
  | inr r => match agg ohlc r with
             | inl e => inl e
             | inr a => inr (dropna_any a)
             end
  end.

Definition resample (interval : string) (ohlc : list (string * AggFn))
    (param_dict : ResampleParams) : M DataFrame :=
  modify_self (set_ohlc_dict (Some ohlc));;
  log (LogCallingResample param_dict ohlc);;
  cur ← gets df;
  d' ← (if decide (interval = "W"%string)
        then lift (resample_agg_dropna "W-FRI" param_dict ohlc cur)
        else lift (resample_agg_dropna interval param_dict ohlc cur));
  modify_self (set_df d');;
  gets df.

End Model.

(** ** A sample environment and sample data *)

(** [n / k] rounded to a whole number, a half to the even one. *)
Definition rint_div (n k : Z) : Z :=
  let q := n `div` k in
  let r := n `mod` k in
  if decide (2 * r < k) then q
  else if decide (k < 2 * r) then q + 1
  else if Z.even q then q else q + 1.

(** Whole numbers as cells.  Rounded to decimal places a whole number is
    itself; rounded to tens, hundreds and so on it is the nearest multiple;
    ten to 309 places and more is no finite float. *)
#[global] Instance Z_numeric : Numeric Z :=
  {| v_zero := 0; v_add := Z.add; v_leb := Z.leb; v_div s n := s `div` Z.pos n;
     v_round d v :=
       if decide (-309 < d < 309) then
         Some (if decide (0 ≤ d) then v else rint_div v (10 ^ (- d)) * 10 ^ (- d))
       else None |}.

Definition hour : Z := 3600000000.

(** Three zones at a fixed distance from UTC. *)
Definition sample_zones : list (string * Z) :=
  [("UTC", 0); ("US/Central", -6 * hour); ("US/Eastern", -5 * hour)]%string.

Definition utc_offset (zone : string) : Z :=
  match list_find (λ p, p.1 = zone) sample_zones with
  | Some (_, (_, o)) => o
  | None => 0
  end.

(** The dates the sample environment reads: three of 1970 and the two of
    the script on the wall clock (2018-12-20 is day 17885 and 2019-01-08 day
    17904 after 1970-01-01), and one that names its offset. *)
Definition sample_dates : list (string * Timestamp) :=
  [("1970-01-02", Naive day); ("1970-01-03", Naive (2 * day));
   ("1970-01-05", Naive (4 * day));
   ("12/20/2018", Naive (17885 * day)); ("1/08/2019", Naive (17904 * day));
   ("1970-01-03T00:00-05:00", Aware (2 * day + 5 * hour))]%string.

(** Every path can be written but the root directory. *)
#[global] Instance sample_env : Environment :=
  {| tz_known zone := bool_decide (zone ∈ sample_zones.*1);
     tz_localize_wall zone w := Some (w - utc_offset zone);
     wall_clock zone t := t + utc_offset zone;
     bin_instant zone w := w - utc_offset zone;
     parse_datetime date := snd <$> (snd <$> list_find (λ p, p.1 = date) sample_dates);
     other_offset _ := None;
     can_write path := bool_decide (path ≠ "/"%string) |}.

Definition OHLC_DICT : list (string * AggFn) :=
  [("Open", AggFirst); ("High", AggMax); ("Low", AggMin);
   ("Close", AggLast); ("Up", AggLast); ("Down", AggLast)].

Definition RESAMPLE : ResampleParams :=
  {| closed := Some SideLeft; label := Some SideRight |}.

Definition bar (o h l c u d : Z) : gmap string Z :=
  list_to_map [("Open", o); ("High", h); ("Low", l); ("Close", c); ("Up", u); ("Down", d)].

(** Bars at 09:00 and 09:15 of Thursday 1970-01-01 and at 10:00 of Saturday
    1970-01-03; nothing on the Friday between them. *)
Definition sample_table : DataFrame :=
  {| df_tz := None;
     df_columns := ["Open"; "High"; "Low"; "Close"; "Up"; "Down"];
     df_rows := [(9 * hour, bar 10 12 9 11 5 3);
                 (9 * hour + hour / 4, bar 11 13 10 12 4 2);
                 (2 * day + 10 * hour, bar 20 22 19 21 7 1)] |}.

(** The world as the module leaves it once loaded: the three default lists
    of the [def] statements, an empty log and the input file. *)
Definition sample_world : World :=
  {| heap := list_to_map
       [(1%positive, ["Date"; "Time"]);
        (2%positive, ["Date"; "Time"; "Open"; "High"; "Low"; "Close"; "Up"; "Down"]);
        (3%positive, ["Open"; "High"; "Low"; "Close"; "Up"; "Down"])];
     logger := [];
     disk := {["input.csv" := {| csv_header := true; csv_index := ["Date"; "Time"];
                                 csv_table := sample_table |}]};
     default_datetimecols := 1%positive;
     default_cols := 2%positive;
     default_columns := 3%positive |}.

(** [TDResampler('input.csv')] *)
Definition sample_object : TDResampler :=
  {| csv_file := "input.csv"; datetime_col := 1%positive; cols := 2%positive;
     df_orig := sample_table; output_header := true; ohlc_dict := None;
     df := sample_table; tz := None |}.

Definition sample_state : State := {| self := sample_object; world := sample_world |}.

(** The state after [resample('D', OHLC_DICT, RESAMPLE)]. *)
Definition resampled_state : State := (resample "D" OHLC_DICT RESAMPLE sample_state).1.

(** A state in which the caller holds a list object of its own. *)
Definition with_list {V} (a : loc) (l : list string) (st : @State V) : @State V :=
  {| self := self st; world := set_heap (<[a := l]> (heap (world st))) (world st) |}.

(** Bars on 2018-12-19, twice on 2018-12-21, on 2019-01-04, 2019-01-07 and
    2019-01-09. *)
Definition script_table : DataFrame :=
  {| df_tz := None;
     df_columns := ["Open"; "High"; "Low"; "Close"; "Up"; "Down"];
     df_rows := [(17884 * day + 9 * hour, bar 10 12 9 11 5 3);
                 (17886 * day + 9 * hour, bar 11 13 10 12 4 2);
                 (17886 * day + 10 * hour, bar 12 15 11 14 6 1);
                 (17900 * day + 9 * hour, bar 20 22 19 21 7 1);
                 (17903 * day + 15 * hour, bar 21 23 20 22 3 2);
                 (17905 * day + 9 * hour, bar 30 31 29 30 1 1)] |}.

Definition script_world : World :=
  {| heap := heap sample_world;
     logger := [];
     disk := {["input.csv" := {| csv_header := true; csv_index := ["Date"; "Time"];
                                 csv_table := script_table |}]};
     default_datetimecols := 1%positive;
     default_cols := 2%positive;
     default_columns := 3%positive |}.

(** ** Notions of the properties *)

Section Notions.
Context {V : Type} {NV : Numeric V} {ENV : Environment}.

(** The state [st] differs from [st0] in the log and in the list object at
    [c], which holds [lc], and in nothing else. *)
Definition rewrites (c : loc) (st0 st : @State V) (lc : list string) : Prop :=
  self st = self st0 ∧
  disk (world st) = disk (world st0) ∧
  (default_datetimecols (world st) = default_datetimecols (world st0) ∧
   default_cols (world st) = default_cols (world st0) ∧
   default_columns (world st) = default_columns (world st0)) ∧
  heap (world st) = <[c := lc]> (heap (world st0)).

(** What C10 asks of a call on the list object at [c], with the docstring
    of [write_csv]: no name that is not a key of the aggregation spec is
    left in the object. *)
Definition every_unknown_name_removed (outfile : string) (c : loc) (st : @State V) : Prop :=
  ∀ spec l x,
    ohlc_dict (self st) = Some spec →
    heap (world (write_csv outfile (Some c) st).1) !! c = Some l →
    x ∉ spec.*1 → x ∉ l.

(** The table localized to US/Central and read in US/Eastern. *)
Definition localized_state : State :=
  (convert_tz "US/Central" "US/Eastern" sample_state).1.

(** The times of day from [s] on to [e], both included, on the clock of a
    day: [t] is reached from [s] in no more time than [e] is. *)
Definition on_clock (s e t : Z) : Prop :=
  ∃ d, 0 ≤ d ≤ (e - s) `mod` day ∧ t = (s + d) `mod` day.

(** The resampler that [df.resample] makes of a table, once the offset of
    the rule is known. *)
Definition resampler_of (g : Grid) (p : ResampleParams) (d : @DataFrame V) : @Resampler V :=
  {| rs_obj := d; rs_grid := g;
     rs_closed := side_or_default g (closed p);
     rs_label := side_or_default g (label p) |}.

(** The row that stands for bin [k] in the aggregate. *)
Definition bucket_row (spec : list (string * AggFn)) (r : @Resampler V) (k : Z)
    : Z * gmap string V :=
  (instant (rs_obj r) (bucket_label (rs_grid r) (rs_label r) k),
   agg_row spec (bucket_rows r k)).

(** The bins whose rows are in the output, in their order. *)
Definition kept_buckets (spec : list (string * AggFn)) (r : @Resampler V) : list Z :=
  filter (λ k, whole spec.*1 (agg_row spec (bucket_rows r k))) (bucket_range r).

(** Every column of the spec has an aggregate over the bin that is not
    missing. *)
Definition all_aggregates (spec : list (string * AggFn)) (r : @Resampler V) (k : Z) : Prop :=
  ∀ c f, (c, f) ∈ spec → is_Some (aggregate f (column_values c (bucket_rows r k))).

(** What C1 takes to be the bins of the output: those with a source row
    and with all their aggregates. *)
Definition occupied_and_whole (spec : list (string * AggFn)) (r : @Resampler V) (k : Z) : Prop :=
  bucket_rows r k ≠ [] ∧ all_aggregates spec r k.

Definition sum_free (spec : list (string * AggFn)) : Prop :=
  ∀ c, (c, AggSum) ∉ spec.

(** The method with the rule it hands to pandas made a parameter. *)
Definition resample_with (rule : string) (ohlc : list (string * AggFn))
    (param_dict : ResampleParams) : M (@DataFrame V) :=
  modify_self (set_ohlc_dict (Some ohlc));;
  log (LogCallingResample param_dict ohlc);;
  cur ← gets df;
  d' ← lift (resample_agg_dropna rule param_dict ohlc cur);
  modify_self (set_df d');;
  gets df.

(** A wall-clock reading that is the midnight a Friday starts with. *)
Definition friday_midnight (w : Z) : Prop :=
  w `mod` day = 0 ∧ weekday_of w = weekday_number FRI.

(** What bin [k] of a grid spans, by the side it is closed on: the readings
    from [span_start] on and before [span_end]. *)
Definition span_start (g : Grid) (cl : Side) (k : Z) : Z :=
  match cl with
  | SideLeft => edge g k
  | SideRight => edge g k + (if super_daily g then day else 1)
  end.

Definition span_end (g : Grid) (cl : Side) (k : Z) : Z :=
  span_start g cl (k + 1).

(** What C4 asks of a call on a table that has a zone: afterwards the
    table is read in [to_tz], its instants the same. *)
Definition reexpressed_in (to_tz : string) (st st' : @State V) : Prop :=
  df_tz (df (self st')) = Some to_tz ∧
  df_rows (df (self st')) = df_rows (df (self st)).

End Notions.

(** ** The script and further notions *)

Section Script.
Context {V : Type} {NV : Numeric V} {ENV : Environment}.

(** The lines under [if __name__ == "__main__"]. *)
Definition main (w : @World V) : @World V * Outcome unit :=
  match init "input.csv" None None w with
  | (w', Return o) =>
      let r := (convert_tz "US/Central" "US/Eastern";;
                resample "D" OHLC_DICT RESAMPLE;;
                apply_cutoff None None (Some "12/20/2018"%string) (Some "1/08/2019"%string);;
                apply_precision 2;;
                write_csv "out.csv" None) {| self := o; world := w' |} in
      (world r.1, r.2)
  | (w', Raise e) => (w', Raise e)
  | (w', Stuck) => (w', Stuck)
  end.

(** The default lists hold what the [def] statements gave them. *)
Definition defaults_intact (w : @World V) : Prop :=
  heap w !! default_datetimecols w = Some ["Date"; "Time"]%string ∧
  heap w !! default_cols w
    = Some ["Date"; "Time"; "Open"; "High"; "Low"; "Close"; "Up"; "Down"]%string ∧
  heap w !! default_columns w
    = Some ["Open"; "High"; "Low"; "Close"; "Up"; "Down"]%string.

(** The state [st] with the list object at [c] holding [l] and with a
    warning logged for each of the names [ws]. *)
Definition put (c : loc) (l : list string) (ws : list string) (st : @State V) : @State V :=
  {| self := self st;
     world := {| heap := <[c := l]> (heap (world st));
                 logger := logger (world st) ++ (LogColDiscarded <$> ws);
                 disk := disk (world st);
                 default_datetimecols := default_datetimecols (world st);
                 default_cols := default_cols (world st);
                 default_columns := default_columns (world st) |} |}.

(** The state [st] once the table [d] has been projected on [l] and written
    to [outfile]. *)
Definition exported (outfile : string) (d : @DataFrame V) (l : list string) (st : @State V)
    : @State V :=
  {| self := set_df d (self st);
     world := set_disk (<[outfile := {| csv_header := output_header (self st);
                                        csv_index := ["DateTime"%string];
                                        csv_table := d |}]> (disk (world st)))
                       (add_log (LogWriting l) (world st)) |}.

(** The state [st] once the table [d] has been projected on [l] and
    assigned to [self.df], before it is written. *)
Definition projected (d : @DataFrame V) (l : list string) (st : @State V) : @State V :=
  {| self := set_df d (self st);
     world := add_log (LogWriting l) (world st) |}.

(** What [write_csv] comes to once its two loops have left the list [l] at
    [c] and logged the warnings [ws]: the projection raises, or the table is
    projected and then written, or projected and refused by the file
    system. *)
Definition write_csv_outcome (outfile : string) (c : loc) (l ws : list string)
    (st : @State V) : @State V * Outcome unit :=
  match getitem l (df (self st)) with
  | inl e => (put c l ws st, Raise e)
  | inr d' =>
      if can_write outfile then (exported outfile d' l (put c l ws st), Return tt)
      else (projected d' l (put c l ws st), Raise OSError)
  end.

(** One round of the first loop of [write_csv], on the list alone. *)
Definition remove_present (l : list string) (val : string) : list string :=
  if decide (val ∈ l) then default l (list_remove val l) else l.

Definition strip_datetime (dts l : list string) : list string :=
  foldl remove_present l dts.

(** What the second loop of [write_csv] makes of a list without
    repetitions: a key stays; a name that is not a key goes, and the name
    after it stays without being looked at. *)
Fixpoint skip_unknown (keys l : list string) : list string :=
  match l with
  | [] => []
  | x :: l' =>
      if decide (x ∈ keys) then x :: skip_unknown keys l'
      else match l' with
           | [] => []
           | y :: l'' => y :: skip_unknown keys l''
           end
  end.

(** The names the second loop warns about, in the order of the warnings. *)
Fixpoint warned_unknown (keys l : list string) : list string :=
  match l with
  | [] => []
  | x :: l' =>
      if decide (x ∈ keys) then warned_unknown keys l'
      else x :: match l' with
                | [] => []
                | y :: l'' => warned_unknown keys l''
                end
  end.

(** No two names in a row are both unknown. *)
Fixpoint no_adjacent_unknown (keys l : list string) : Prop :=
  match l with
  | [] => True
  | x :: l' =>
      match l' with
      | [] => True
      | y :: _ => (x ∈ keys ∨ y ∈ keys) ∧ no_adjacent_unknown keys l'
      end
  end.

(** What [read_csv] makes of the table of a file. *)
Definition read_table (usecols : list string) (t : @DataFrame V) : @DataFrame V :=
  {| df_tz := df_tz t;
     df_columns := filter (λ c, c ∈ usecols) (df_columns t);
     df_rows := prod_map id (filter (λ kv, kv.1 ∈ filter (λ c, c ∈ usecols) (df_columns t)))
                <$> df_rows t |}.

(** The conversion the script asks for can be made of the table [d]: both
    zones are known, the table has no zone yet and every time stamp of it is
    a reading of the clock of [from_tz]. *)
Definition convertible (from_tz to_tz : string) (d : @DataFrame V) : Prop :=
  tz_known from_tz = true ∧ tz_known to_tz = true ∧
  df_tz d = None ∧
  is_Some (mapM (tz_localize_wall from_tz) (df_rows d).*1).

(** The file can be read by [__init__] with its default lists and has the
    columns of the aggregation spec of the script. *)
Definition script_input (f : @CsvFile V) : Prop :=
  csv_header f = true ∧
  csv_index f = ["Date"; "Time"]%string ∧
  df_rows (csv_table f) ≠ [] ∧
  ∀ c, c ∈ OHLC_DICT.*1 → c ∈ df_columns (csv_table f).

(** The zone the object records is the zone of the index of its table. *)
Definition tz_consistent (o : @TDResampler V) : Prop := tz o = df_tz (df o).

(** No cell of the table is missing. *)
Definition no_missing (d : @DataFrame V) : Prop :=
  Forall (λ row, whole (df_columns d) row.2) (df_rows d).

End Script.

(** ** Notions of the cutoff *)

Section CutoffNotions.
Context {V : Type} {ENV : Environment}.

(** The two times of day can be used: each is a time of a day, where both
    are given. *)
Definition times_usable (start_time end_time : option Z) : Prop :=
  match start_time, end_time with
  | Some s, Some e => (0 ≤ s < day) ∧ (0 ≤ e < day)
  | _, _ => True
  end.

(** What the filter on the time of day lets through, read on the clock of
    the zone [tzo]. *)
Definition keeps_time (start_time end_time : option Z) (tzo : option string) (t : Z) : Prop :=
  match start_time, end_time with
  | Some s, Some e => between s e (from_option (λ z, wall_clock z t) t tzo `mod` day)
  | _, _ => True
  end.

Definition keeps_after (bound : option Z) (t : Z) : Prop :=
  match bound with
  | Some b => b < t
  | None => True
  end.

Definition keeps_before (bound : option Z) (t : Z) : Prop :=
  match bound with
  | Some b => t < b
  | None => True
  end.

#[global] Instance times_usable_dec t1 t2 : Decision (times_usable t1 t2).
Proof. unfold times_usable. destruct t1, t2; apply _. Defined.

#[global] Instance keeps_time_dec t1 t2 tzo t : Decision (keeps_time t1 t2 tzo t).
Proof. unfold keeps_time. destruct t1, t2; apply _. Defined.

#[global] Instance keeps_after_dec b t : Decision (keeps_after b t).
Proof. unfold keeps_after. destruct b; apply _. Defined.

#[global] Instance keeps_before_dec b t : Decision (keeps_before b t).
Proof. unfold keeps_before. destruct b; apply _. Defined.

(** The error of a query on a date that gives no bound. *)
Definition query_error (date : string) : Exception :=
  match parse_datetime date with
  | None => ValueError
  | Some _ => TypeError
  end.

(** The bound a date stands for against an index of the zone [tzo]: a date
    that is not given sets no bound; [None] is the date pandas cannot
    parse or cannot compare with the index. *)
Definition read_date (tzo : option string) (date : option string) : option (option Z) :=
  match date with
  | None => Some None
  | Some s => Some <$> date_literal tzo s
  end.

(** The state [st'] has a table trimmed from the table of [st], some rows
    gone and nothing else changed, and differs from [st] otherwise in the log
    alone. *)
Definition trimmed (st st' : @State V) : Prop :=
  self st' = set_df (df (self st')) (self st) ∧
  df_rows (df (self st')) `sublist_of` df_rows (df (self st)) ∧
  df_columns (df (self st')) = df_columns (df (self st)) ∧
  df_tz (df (self st')) = df_tz (df (self st)) ∧
  heap (world st') = heap (world st) ∧
  disk (world st') = disk (world st) ∧
  default_datetimecols (world st') = default_datetimecols (world st) ∧
  default_cols (world st') = default_cols (world st) ∧
  default_columns (world st') = default_columns (world st).

End CutoffNotions.

(** ** Notions of the frame *)

Section FrameNotions.
Context {V : Type}.

(** From [st] to [st'] the list objects, the disk, the default lists and
    the fields of the object that are set once, in [__init__], are the
    same. *)
Definition same_frame (st st' : @State V) : Prop :=
  heap (world st') = heap (world st) ∧
  disk (world st') = disk (world st) ∧
  (default_datetimecols (world st') = default_datetimecols (world st) ∧
   default_cols (world st') = default_cols (world st) ∧
   default_columns (world st') = default_columns (world st)) ∧
  (csv_file (self st') = csv_file (self st) ∧
   datetime_col (self st') = datetime_col (self st) ∧
   cols (self st') = cols (self st) ∧
   df_orig (self st') = df_orig (self st) ∧
   output_header (self st') = output_header (self st)).

(** From [st] to [st'] the zone the object records and the zone of the
    index of its table are the same. *)
Definition keeps_tz (st st' : @State V) : Prop :=
  tz (self st') = tz (self st) ∧
  df_tz (df (self st')) = df_tz (df (self st)).

(** From [st] to [st'] the fields of the object that [__init__] sets and no
    method is meant to set again are the same; for the two lists of column
    names this is the list object the field refers to. *)
Definition keeps_init_fields (st st' : @State V) : Prop :=
  csv_file (self st') = csv_file (self st) ∧
  datetime_col (self st') = datetime_col (self st) ∧
  cols (self st') = cols (self st) ∧
  df_orig (self st') = df_orig (self st) ∧
  output_header (self st') = output_header (self st).

(** From [st] to [st'] the list object at [a] holds the same names. *)
Definition keeps_list (a : loc) (st st' : @State V) : Prop :=
  heap (world st') !! a = heap (world st) !! a.

End FrameNotions.

(** * Properties *)

(** ** Lists and the monad *)

Lemma list_remove_elem x l : x ∈ l → is_Some (list_remove x l).
Proof.
  induction l as [|y l IH]; simpl.
  - intros H. by apply elem_of_nil in H.
  - intros H. destruct (decide (y = x)); [by eexists|].
    apply elem_of_cons in H as [->|H]; [done|].
    destruct (IH H) as [l' ->]. by eexists.
Qed.

Lemma list_remove_sublist x l l' : list_remove x l = Some l' → l' `sublist_of` l.
Proof.
  revert l'. induction l as [|y l IH]; simpl; intros l' H; [done|].
  destruct (decide (y = x)).
  - injection H as <-. by apply sublist_cons.
  - destruct (list_remove x l) as [l0|]; [|done].
    injection H as <-. apply sublist_skip. by apply IH.
Qed.

Lemma list_remove_length x l l' : list_remove x l = Some l' → length l = S (length l').
Proof.
  revert l'. induction l as [|y l IH]; simpl; intros l' H; [done|].
  destruct (decide (y = x)).
  - by injection H as <-.
  - destruct (list_remove x l) as [l0|]; [|done].
    injection H as <-. simpl. f_equal. by apply IH.
Qed.

Lemma list_remove_only x l l' y :
  list_remove x l = Some l' → y ∈ l → y ∉ l' → y = x.
Proof.
  revert l'. induction l as [|z l IH]; simpl; intros l' H Hy Hn.
  - by apply elem_of_nil in Hy.
  - destruct (decide (z = x)) as [->|Hz].
    + injection H as <-. apply elem_of_cons in Hy as [->|Hy]; done.
    + destruct (list_remove x l) as [l0|]; [|done].
      injection H as <-. apply elem_of_cons in Hy as [->|Hy].
      * exfalso. apply Hn. apply elem_of_cons. by left.
      * apply (IH l0); [done|done|]. intros Hin. apply Hn, elem_of_cons. by right.
Qed.

Lemma list_remove_NoDup x l l' : NoDup l → list_remove x l = Some l' → x ∉ l'.
Proof.
  revert l'. induction l as [|z l IH]; simpl; intros l' Hnd H; [done|].
  apply NoDup_cons in Hnd as [Hz Hnd].
  destruct (decide (z = x)) as [->|Hzx].
  - by injection H as <-.
  - destruct (list_remove x l) as [l0|]; [|done].
    injection H as <-. intros Hin. apply elem_of_cons in Hin as [->|Hin]; [done|].
    by apply (IH l0).
Qed.

(** One step of a computation: the binds and the plain operations are
    unfolded as far as they go. *)
Tactic Notation "run" :=
  cbv beta iota delta [mbind M_bind mret M_ret lift raise gets modify_self log]; simpl.
Tactic Notation "run" "in" hyp(H) :=
  cbv beta iota delta [mbind M_bind mret M_ret lift raise gets modify_self log] in H; simpl in H.

Section WriteCsv.
Context {V : Type} {ENV : Environment}.
Implicit Types (st : @State V) (l : list string).

Lemma bind_Return {A B} (m : M A) (f : A → M B) st st' a :
  m st = (st', Return a) → (m ≫= f) st = f a st'.
Proof. intros H. unfold mbind, M_bind. by rewrite H. Qed.

Lemma bind_Raise {A B} (m : M A) (f : A → M B) st st' e :
  m st = (st', Raise e) → (m ≫= f) st = (st', Raise e).
Proof. intros H. unfold mbind, M_bind. by rewrite H. Qed.

Lemma load_Some a st l : heap (world st) !! a = Some l → load a st = (st, Return l).
Proof. intros H. unfold load. by rewrite H. Qed.

Lemma rewrites_lookup c st0 st lc :
  rewrites c st0 st lc → heap (world st) !! c = Some lc.
Proof. intros (_ & _ & _ & H). rewrite H. apply lookup_insert_eq. Qed.

Lemma rewrites_refl c st l : heap (world st) !! c = Some l → rewrites c st st l.
Proof. intros H. repeat split. symmetry. by apply insert_id. Qed.

Lemma columns_remove_spec c val st0 st lc :
  rewrites c st0 st lc → val ∈ lc →
  ∃ st' lc', columns_remove c val st = (st', Return tt) ∧
             list_remove val lc = Some lc' ∧ rewrites c st0 st' lc'.
Proof.
  intros Hrw Hin. pose proof (rewrites_lookup _ _ _ _ Hrw) as Hc.
  destruct (list_remove_elem _ _ Hin) as [lc' Hrm].
  unfold columns_remove. rewrite (bind_Return _ _ _ _ _ (load_Some _ _ _ Hc)), Hrm.
  eexists _, lc'. split; [reflexivity|]. split; [done|].
  destruct Hrw as (Hs & Hd & (Hf1 & Hf2 & Hf3) & Hh). repeat split; simpl; try done.
  rewrite Hh. apply insert_insert_eq.
Qed.

Lemma log_rewrites c st0 st lc r :
  rewrites c st0 st lc →
  ∃ st', log r st = (st', Return tt) ∧ rewrites c st0 st' lc.
Proof.
  intros (Hs & Hd & (Hf1 & Hf2 & Hf3) & Hh).
  eexists. split; [reflexivity|]. by repeat split.
Qed.

(** A loop whose rounds keep an invariant and do not lengthen the list they
    run over comes to its end within the bound, with the invariant and with
    the index past the end of the list. *)
Lemma for_from_inv (I : nat → State → Prop) (a : loc) (body : string → M unit) :
  (∀ i st l v, I i st → heap (world st) !! a = Some l → l !! i = Some v →
     ∃ st' l', body v st = (st', Return tt) ∧ I (S i) st' ∧
               heap (world st') !! a = Some l' ∧ (length l' ≤ length l)%nat) →
  ∀ n i st l, I i st → heap (world st) !! a = Some l → (length l - i ≤ n)%nat →
     ∃ st' j l', for_from n a i body st = (st', Return tt) ∧ I j st' ∧
                 heap (world st') !! a = Some l' ∧ (length l' ≤ j)%nat.
Proof.
  intros Hstep n. induction n as [|n IH]; intros i st l HI Ha Hn.
  - exists st, i, l. split; [|split; [done|split; [done|lia]]]. simpl.
    rewrite (bind_Return _ _ _ _ _ (load_Some _ _ _ Ha)).
    rewrite (lookup_ge_None_2 l i) by lia. done.
  - simpl. rewrite (bind_Return _ _ _ _ _ (load_Some _ _ _ Ha)).
    destruct (l !! i) as [v|] eqn:Hv.
    + destruct (Hstep i st l v HI Ha Hv) as (st' & l' & Hb & HI' & Ha' & Hlen).
      rewrite (bind_Return _ _ _ _ _ Hb).
      apply (IH (S i) st' l'); [done|done|lia].
    + exists st, i, l. apply lookup_ge_None in Hv. done.
Qed.

Lemma for_in_inv (I : nat → State → Prop) (a : loc) (body : string → M unit) st l :
  (∀ i st l v, I i st → heap (world st) !! a = Some l → l !! i = Some v →
     ∃ st' l', body v st = (st', Return tt) ∧ I (S i) st' ∧
               heap (world st') !! a = Some l' ∧ (length l' ≤ length l)%nat) →
  I 0%nat st → heap (world st) !! a = Some l →
  ∃ st' j l', for_in a body st = (st', Return tt) ∧ I j st' ∧
              heap (world st') !! a = Some l' ∧ (length l' ≤ j)%nat.
Proof.
  intros Hstep HI Ha. unfold for_in.
  rewrite (bind_Return _ _ _ _ _ (load_Some _ _ _ Ha)).
  apply (for_from_inv I a body Hstep _ _ _ l); [done|done|lia].
Qed.

(** The list at [a] after a round that rewrote the list at [c]. *)
Lemma rewrites_other c a st0 st st' lc lc' l :
  rewrites c st0 st lc → rewrites c st0 st' lc' → lc' `sublist_of` lc →
  heap (world st) !! a = Some l →
  ∃ l', heap (world st') !! a = Some l' ∧ (length l' ≤ length l)%nat.
Proof.
  intros (_ & _ & _ & Hh) (_ & _ & _ & Hh') Hsub Ha.
  rewrite Hh in Ha. rewrite Hh'. destruct (decide (c = a)) as [->|Hne].
  - rewrite lookup_insert_eq in Ha. injection Ha as <-.
    exists lc'. rewrite lookup_insert_eq. split; [done|]. by apply sublist_length.
  - rewrite lookup_insert_ne in Ha by done. exists l.
    rewrite lookup_insert_ne by done. done.
Qed.

(** The first loop: [for val in self.datetime_col]. *)
Lemma datetime_loop c dt st l0 dts :
  heap (world st) !! c = Some l0 → heap (world st) !! dt = Some dts →
  ∃ st1 l1, for_in dt (discard_datetime c) st = (st1, Return tt) ∧
    rewrites c st st1 l1 ∧ l1 `sublist_of` l0 ∧
    (∀ x, x ∈ l0 → x ∉ l1 → x ∈ dts) ∧
    (NoDup l0 → c ≠ dt → ∀ x, x ∈ dts → x ∉ l1).
Proof.
  intros Hc Hdt.
  set (I := λ (i : nat) (s : @State V), ∃ lc,
         rewrites c st s lc ∧ lc `sublist_of` l0 ∧
         (∀ x, x ∈ l0 → x ∉ lc → x ∈ dts) ∧
         (NoDup l0 → c ≠ dt → ∀ x, x ∈ take i dts → x ∉ lc)).
  destruct (for_in_inv I dt (discard_datetime c) st dts) as (st1 & j & l' & Hrun & HI & Hl' & Hj).
  - intros i s l v (lc & Hrw & Hsub & Hrem & Hnd) Ha Hv.
    assert (Hvd : v ∈ dts).
    { destruct Hrw as (_ & _ & _ & Hh). rewrite Hh in Ha.
      destruct (decide (c = dt)) as [->|Hne].
      - rewrite lookup_insert_eq in Ha. injection Ha as <-.
        rewrite Hc in Hdt. injection Hdt as <-.
        eapply elem_of_sublist; [|done]. by eapply list_elem_of_lookup_2.
      - rewrite lookup_insert_ne in Ha by done. rewrite Hdt in Ha.
        injection Ha as <-. by eapply list_elem_of_lookup_2. }
    assert (Htake : c ≠ dt → take (S i) dts = take i dts ++ [v]).
    { intros Hne. apply take_S_r. destruct Hrw as (_ & _ & _ & Hh).
      rewrite Hh, lookup_insert_ne, Hdt in Ha by done. by injection Ha as <-. }
    unfold discard_datetime.
    rewrite (bind_Return _ _ _ _ _ (load_Some _ _ _ (rewrites_lookup _ _ _ _ Hrw))).
    destruct (decide (v ∈ lc)) as [Hin|Hnin].
    + destruct (columns_remove_spec c v st s lc Hrw Hin) as (s' & lc' & Hrun & Hrm & Hrw').
      pose proof (list_remove_sublist _ _ _ Hrm) as Hsub'.
      destruct (rewrites_other c dt st s s' lc lc' l Hrw Hrw' Hsub' Ha) as (l' & Ha' & Hlen).
      exists s', l'. split; [done|]. split; [|done].
      exists lc'. split; [done|]. split; [by etrans|]. split.
      * intros x Hx Hnx. destruct (decide (x ∈ lc)) as [Hxl|Hxl]; [|by apply Hrem].
        by rewrite (list_remove_only _ _ _ _ Hrm Hxl Hnx).
      * intros Hnd0 Hne x Hx. rewrite (Htake Hne) in Hx.
        apply elem_of_app in Hx as [Hx|Hx].
        -- intros Hxl. apply (Hnd Hnd0 Hne x Hx). by eapply elem_of_sublist.
        -- apply list_elem_of_singleton in Hx as ->.
           eapply list_remove_NoDup; [|done]. by eapply sublist_NoDup.
    + exists s, l. split; [done|]. split; [|done].
      exists lc. split; [done|]. split; [done|]. split; [done|].
      intros Hnd0 Hne x Hx. rewrite (Htake Hne) in Hx.
      apply elem_of_app in Hx as [Hx|Hx]; [by apply Hnd|].
      by apply list_elem_of_singleton in Hx as ->.
  - exists l0. split; [by apply rewrites_refl|]. split; [done|]. split; [done|].
    intros _ _ x Hx. simpl in Hx. by apply elem_of_nil in Hx.
  - done.
  - destruct HI as (l1 & Hrw & Hsub & Hrem & Hnd).
    exists st1, l1. split; [done|]. split; [done|]. split; [done|]. split; [done|].
    intros Hnd0 Hne x Hx. apply (Hnd Hnd0 Hne).
    destruct Hrw as (_ & _ & _ & Hh).
    rewrite Hh, lookup_insert_ne, Hdt in Hl' by done. injection Hl' as <-.
    by rewrite take_ge by lia.
Qed.

(** The second loop: [for val in columns]. *)
Lemma unknown_loop c keys st0 st1 l1 :
  rewrites c st0 st1 l1 →
  ∃ st2 l2, for_in c (discard_unknown keys c) st1 = (st2, Return tt) ∧
    rewrites c st0 st2 l2 ∧ l2 `sublist_of` l1 ∧
    (∀ x, x ∈ l1 → x ∉ l2 → x ∉ keys).
Proof.
  intros Hrw1.
  set (I := λ (i : nat) (s : @State V), ∃ lc,
         rewrites c st0 s lc ∧ lc `sublist_of` l1 ∧
         (∀ x, x ∈ l1 → x ∉ lc → x ∉ keys)).
  destruct (for_in_inv I c (discard_unknown keys c) st1 l1) as (st2 & j & l' & Hrun & HI & _).
  - intros i s l v (lc & Hrw & Hsub & Hrem) Ha Hv.
    rewrite (rewrites_lookup _ _ _ _ Hrw) in Ha. injection Ha as <-.
    unfold discard_unknown. destruct (decide (v ∈ keys)) as [Hk|Hk].
    + exists s, lc. split; [done|]. split; [by exists lc|].
      split; [by eapply rewrites_lookup|done].
    + destruct (log_rewrites c st0 s lc (LogColDiscarded v) Hrw) as (s' & Hlog & Hrw').
      rewrite (bind_Return _ _ _ _ _ Hlog).
      assert (Hin : v ∈ lc) by (by eapply list_elem_of_lookup_2).
      destruct (columns_remove_spec c v st0 s' lc Hrw' Hin) as (s'' & lc' & Hrun & Hrm & Hrw'').
      pose proof (list_remove_sublist _ _ _ Hrm) as Hsub'.
      exists s'', lc'. split; [done|]. split.
      * exists lc'. split; [done|]. split; [by etrans|].
        intros x Hx Hnx. destruct (decide (x ∈ lc)) as [Hxl|Hxl]; [|by apply Hrem].
        by rewrite (list_remove_only _ _ _ _ Hrm Hxl Hnx).
      * split; [by eapply rewrites_lookup|]. by apply sublist_length.
  - exists l1. done.
  - by eapply rewrites_lookup.
  - destruct HI as (l2 & Hrw & Hsub & Hrem). by exists st2, l2.
Qed.

(** ** write_csv *)

Lemma write_csv_None outfile columns st l0 dts :
  heap (world st) !! default (default_columns (world st)) columns = Some l0 →
  heap (world st) !! datetime_col (self st) = Some dts →
  ohlc_dict (self st) = None →
  (write_csv outfile columns st).2 = Raise AttributeError.
Proof.
  intros Hc Hdt Hnone. unfold write_csv. cbv zeta.
  rewrite (bind_Return (gets datetime_col) _ st st _ eq_refl).
  destruct (datetime_loop _ _ _ _ _ Hc Hdt) as (st1 & l1 & Hrun & Hrw & _).
  rewrite (bind_Return _ _ _ _ _ Hrun).
  rewrite (bind_Return (gets ohlc_dict) _ st1 st1 _ eq_refl).
  destruct Hrw as (-> & _). rewrite Hnone. done.
Qed.

Lemma write_csv_Some outfile columns st l0 dts spec :
  heap (world st) !! default (default_columns (world st)) columns = Some l0 →
  heap (world st) !! datetime_col (self st) = Some dts →
  ohlc_dict (self st) = Some spec →
  ∃ st' r l2, write_csv outfile columns st = (st', r) ∧
    heap (world st') = <[default (default_columns (world st)) columns := l2]> (heap (world st)) ∧
    default_columns (world st') = default_columns (world st) ∧
    l2 `sublist_of` l0 ∧
    (∀ x, x ∈ l0 → x ∉ l2 → x ∈ dts ∨ x ∉ spec.*1) ∧
    (NoDup l0 → default (default_columns (world st)) columns ≠ datetime_col (self st) →
     ∀ x, x ∈ dts → x ∉ l2) ∧
    ((r = Return tt ∧ df_columns (df (self st')) = l2) ∨
     (r = Raise OSError ∧ can_write outfile = false) ∨
     (∃ k, r = Raise (KeyError k) ∧ k ∈ l2 ∧ k ∉ df_columns (df (self st)))).
Proof.
  intros Hc Hdt Hspec. unfold write_csv. cbv zeta.
  set (c := default (default_columns (world st)) columns) in *.
  rewrite (bind_Return (gets datetime_col) _ st st _ eq_refl).
  destruct (datetime_loop _ _ _ _ _ Hc Hdt) as (st1 & l1 & Hrun1 & Hrw1 & Hsub1 & Hrem1 & Hnd1).
  rewrite (bind_Return _ _ _ _ _ Hrun1).
  rewrite (bind_Return (gets ohlc_dict) _ st1 st1 _ eq_refl).
  assert (Hself1 : self st1 = self st) by apply Hrw1.
  rewrite Hself1, Hspec.
  rewrite (bind_Return (mret (spec.*1)) _ st1 st1 _ eq_refl).
  destruct (unknown_loop c (spec.*1) st st1 l1 Hrw1) as (st2 & l2 & Hrun2 & Hrw2 & Hsub2 & Hrem2).
  rewrite (bind_Return _ _ _ _ _ Hrun2).
  rewrite (bind_Return _ _ _ _ _ (load_Some _ _ _ (rewrites_lookup _ _ _ _ Hrw2))).
  rewrite (bind_Return (gets df) _ st2 st2 _ eq_refl).
  destruct Hrw2 as (Hself2 & Hdisk2 & (_ & _ & Hdef2) & Hheap2).
  assert (Hsub : l2 `sublist_of` l0) by (by etrans).
  assert (Hrem : ∀ x, x ∈ l0 → x ∉ l2 → x ∈ dts ∨ x ∉ spec.*1).
  { intros x Hx Hnx. destruct (decide (x ∈ l1)) as [Hx1|Hx1].
    - right. by apply Hrem2.
    - left. by apply Hrem1. }
  assert (Hnd : NoDup l0 → c ≠ datetime_col (self st) → ∀ x, x ∈ dts → x ∉ l2).
  { intros Hnd0 Hne x Hx Hx2. apply (Hnd1 Hnd0 Hne x Hx). by eapply elem_of_sublist. }
  unfold getitem. rewrite Hself2.
  destruct (list_find (λ c0, c0 ∉ df_columns (df (self st))) l2) as [[i k]|] eqn:Hfind.
  - apply list_find_Some in Hfind as (Hik & Hk & _).
    exists st2, (Raise (KeyError k)), l2. split; [done|]. do 5 (split; [done|]).
    right. right. exists k. split; [done|]. split; [by eapply list_elem_of_lookup_2|done].
  - run. unfold to_csv. destruct (can_write outfile) eqn:Hw.
    + eexists _, (Return tt), l2. split; [reflexivity|]. simpl. do 5 (split; [done|]).
      by left.
    + eexists _, (Raise OSError), l2. split; [reflexivity|]. simpl. do 5 (split; [done|]).
      right. by left.
Qed.

Lemma resample_state interval ohlc p {NV : Numeric V} {ENV' : Environment} st :
  ohlc_dict (self (resample interval ohlc p st).1) = Some ohlc ∧
  datetime_col (self (resample interval ohlc p st).1) = datetime_col (self st) ∧
  world (resample interval ohlc p st).1 = add_log (LogCallingResample p ohlc) (world st).
Proof.
  unfold resample.
  rewrite (bind_Return (modify_self _) _ st _ _ eq_refl).
  rewrite (bind_Return (log _) _ _ _ _ eq_refl).
  rewrite (bind_Return (gets df) _ _ _ _ eq_refl).
  destruct (decide (interval = "W"%string));
    match goal with |- context [lift ?x] => destruct x as [exc|d2] end; done.
Qed.

End WriteCsv.

Section WriteCsvCalls.
Context {V : Type} {ENV : Environment}.
Implicit Types (st : @State V) (l : list string).

(** C9: [write_csv] has to come after [resample].  On an object whose
    [ohlc_dict] is still the [None] that [__init__] gave it, the step
    [self.ohlc_dict.keys()] raises AttributeError; once [resample] has been
    called, whatever it came to, [write_csv] does not fail that way. *)
Theorem write_csv_requires_resample outfile columns st l0 dts :
  heap (world st) !! default (default_columns (world st)) columns = Some l0 →
  heap (world st) !! datetime_col (self st) = Some dts →
  (∀ path dtc cs w w' (o : @TDResampler V),
     init path dtc cs w = (w', Return o) → ohlc_dict o = None) ∧
  (ohlc_dict (self st) = None →
   (write_csv outfile columns st).2 = Raise AttributeError) ∧
  (∀ (NV : Numeric V) (ENV : Environment) interval ohlc p,
     (write_csv outfile columns (resample interval ohlc p st).1).2 ≠ Raise AttributeError).
Proof.
  intros Hc Hdt. split; [|split].
  - intros path dtc cs w w' o. unfold init, check_file.
    destruct (decide (is_Some (disk w !! path))); [|done].
    destruct (heap w !! default (default_datetimecols w) dtc) as [l|]; [|done].
    destruct (heap w !! default (default_cols w) cs) as [l'|]; [|done].
    destruct (read_csv path l l' w); [|done|done].
    intros H. by injection H as _ <-.
  - by eapply write_csv_None.
  - intros NV ENV' interval ohlc p.
    destruct (resample_state interval ohlc p st) as (Hspec & Hdtc & Hw).
    destruct (write_csv_Some outfile columns (resample interval ohlc p st).1 l0 dts ohlc)
      as (st' & r & l2 & Hrun & _ & _ & _ & _ & _ & [[-> _]|[[-> _]|(k & -> & _)]]).
    + by rewrite Hw.
    + by rewrite Hdtc, Hw.
    + done.
    + by rewrite Hrun.
    + by rewrite Hrun.
    + by rewrite Hrun.
Qed.

(** What does hold of the list [write_csv] is handed: it rewrites the list
    object it was passed, or the shared default, which a later call that
    leaves the parameter out finds as this call left it.  The object ends up
    holding a sub-list of what it held; only names of the date and time
    columns and names that are not keys of the aggregation spec have gone
    from it; from a list without repetitions that is not the object's own
    list of date and time columns all names of date and time columns have
    gone; and the table is projected on what the object holds then. *)
Theorem write_csv_rewrites_callers_list outfile columns st l0 dts spec :
  heap (world st) !! default (default_columns (world st)) columns = Some l0 →
  heap (world st) !! datetime_col (self st) = Some dts →
  ohlc_dict (self st) = Some spec →
  ∃ l2,
    (write_csv outfile columns st).2 ≠ Stuck ∧
    heap (world (write_csv outfile columns st).1)
      = <[default (default_columns (world st)) columns := l2]> (heap (world st)) ∧
    (∀ outfile' st', default_columns (world st') = default_columns (world st) →
       write_csv outfile' None st' = write_csv outfile' (Some (default_columns (world st))) st') ∧
    default_columns (world (write_csv outfile columns st).1) = default_columns (world st) ∧
    l2 `sublist_of` l0 ∧
    (∀ x, x ∈ l0 → x ∉ l2 → x ∈ dts ∨ x ∉ spec.*1) ∧
    (NoDup l0 → default (default_columns (world st)) columns ≠ datetime_col (self st) →
     ∀ x, x ∈ dts → x ∉ l2) ∧
    ((write_csv outfile columns st).2 = Return tt →
     df_columns (df (self (write_csv outfile columns st).1)) = l2).
Proof.
  intros Hc Hdt Hspec.
  destruct (write_csv_Some outfile columns st l0 dts spec Hc Hdt Hspec)
    as (st' & r & l2 & Hrun & Hheap & Hdef & Hsub & Hrem & Hnd & Hr).
  exists l2. rewrite Hrun. simpl. split; [|split; [done|split; [|split; [done|]]]].
  - by destruct Hr as [[-> _]|[[-> _]|(k & -> & _)]].
  - intros outfile' st0 Hst0. unfold write_csv. simpl. by rewrite Hst0.
  - do 3 (split; [done|]). intros ->. by destruct Hr as [[_ ?]|[[? _]|(k & ? & _)]].
Qed.

End WriteCsvCalls.

Section ConvertTz.
Context {V : Type} {ENV : Environment}.
Implicit Types (st : @State V).

(** The [try] either raises and leaves the state as it found it, or returns
    with the index localized to [from_tz] and read in [to_tz]. *)
Lemma convert_tz_try_cases from_tz to_tz st :
  (∃ e, convert_tz_try from_tz to_tz st = (st, Raise e) ∧
        (tz_known from_tz = false → e = UnknownTimeZoneError) ∧
        (tz_known from_tz = true → is_Some (df_tz (df (self st))) → e = TypeError)) ∨
  (∃ ts, tz_known from_tz = true ∧ tz_known to_tz = true ∧
         df_tz (df (self st)) = None ∧
         mapM (tz_localize_wall from_tz) (df_rows (df (self st))).*1 = Some ts ∧
         convert_tz_try from_tz to_tz st =
           ({| self := set_tz (Some to_tz)
                         (set_df {| df_tz := Some to_tz;
                                    df_columns := df_columns (df (self st));
                                    df_rows := zip ts (df_rows (df (self st))).*2 |}
                                 (self st));
               world := world st |}, Return tt)).
Proof.
  unfold convert_tz_try, pytz_timezone, tz_localize, tz_convert, set_index, index.
  run. destruct (tz_known from_tz) eqn:Hfrom; run.
  2:{ left. exists UnknownTimeZoneError. split; [reflexivity|]. split; [done|done]. }
  destruct (df_tz (df (self st))) as [z|] eqn:Htz; run.
  { left. exists TypeError. split; [reflexivity|]. split; [done|done]. }
  destruct (mapM (tz_localize_wall from_tz) (df_rows (df (self st))).*1) as [ts|] eqn:Hts; run.
  2:{ left. exists InvalidTimeError. split; [reflexivity|]. split; [done|]. by intros _ [? ?]. }
  destruct (tz_known to_tz) eqn:Hto; run.
  2:{ left. exists UnknownTimeZoneError. split; [reflexivity|]. split; [done|]. by intros _ [? ?]. }
  apply length_mapM in Hts as Hlen. rewrite length_fmap in Hlen.
  destruct (decide (length ts = length (df_rows (df (self st))))) as [_|Hne];
    [|by rewrite Hlen in Hne].
  right. exists ts. do 4 (split; [done|]). reflexivity.
Qed.

Lemma convert_tz_unfold from_tz to_tz st :
  convert_tz from_tz to_tz st
  = try_except (convert_tz_try from_tz to_tz)
      (log LogUnknownTimeZoneError) (log LogSomeException)
      (log (LogConvertingTz from_tz to_tz) st).1.
Proof. reflexivity. Qed.

Lemma try_except_Raise (body : M unit) st st' e :
  body st = (st', Raise e) →
  ∃ rec, levelname rec = ERROR ∧
    (e = UnknownTimeZoneError → rec = LogUnknownTimeZoneError) ∧
    (e ≠ UnknownTimeZoneError → rec = LogSomeException) ∧
    try_except body (log LogUnknownTimeZoneError) (log LogSomeException) st
    = ({| self := self st'; world := add_log rec (world st') |}, Return tt).
Proof.
  intros Hrun. unfold try_except. rewrite Hrun.
  destruct e;
    [exists LogUnknownTimeZoneError|exists LogSomeException ..];
    (split; [done|split; [done|split; [done|reflexivity]]]).
Qed.

(** C5: a zone that pytz does not know, like any other failure of the
    conversion, is not fatal: [convert_tz] returns, and when the [try] has
    raised the object is as it was, its table and its zone with it, and the
    world holds one ERROR record more and is otherwise as the logging of the
    call left it. *)
Theorem convert_tz_failure_is_skipped from_tz to_tz st :
  (convert_tz from_tz to_tz st).2 = Return tt ∧
  (∀ e, (convert_tz_try from_tz to_tz (log (LogConvertingTz from_tz to_tz) st).1).2 = Raise e →
     self (convert_tz from_tz to_tz st).1 = self st ∧
     ∃ rec, levelname rec = ERROR ∧
       world (convert_tz from_tz to_tz st).1
         = add_log rec (add_log (LogConvertingTz from_tz to_tz) (world st))) ∧
  (tz_known from_tz = false ∨ tz_known to_tz = false →
     ∃ e, (convert_tz_try from_tz to_tz (log (LogConvertingTz from_tz to_tz) st).1).2 = Raise e) ∧
  (tz_known from_tz = false →
     world (convert_tz from_tz to_tz st).1
       = add_log LogUnknownTimeZoneError (add_log (LogConvertingTz from_tz to_tz) (world st))).
Proof.
  rewrite convert_tz_unfold.
  set (st0 := (log (LogConvertingTz from_tz to_tz) st).1).
  destruct (convert_tz_try_cases from_tz to_tz st0)
    as [(e & Hrun & Hunk & _)|(ts & Hfrom & Hto & _ & _ & Hrun)].
  - destruct (try_except_Raise _ _ _ _ Hrun) as (rec & Hlvl & Hrec & _ & ->).
    rewrite Hrun. simpl. split; [done|]. split; [|split].
    + intros _ _. split; [done|]. by exists rec.
    + intros _. by exists e.
    + intros Hfrom. by rewrite (Hrec (Hunk Hfrom)).
  - unfold try_except. rewrite Hrun. simpl. split; [done|]. split; [done|]. split.
    + intros [H|H]; congruence.
    + congruence.
Qed.

(** C4, as amended: a table that has a zone already is left as it is.  The
    localization is tried all the same, the index refuses it, and the
    failure is logged; it is the table without a zone that is localized to
    [from_tz] and then read in [to_tz]. *)
Theorem convert_tz_refuses_localized_table from_tz to_tz st :
  (∀ z, df_tz (df (self st)) = Some z →
     (convert_tz from_tz to_tz st).2 = Return tt ∧
     self (convert_tz from_tz to_tz st).1 = self st ∧
     world (convert_tz from_tz to_tz st).1
       = add_log (if tz_known from_tz then LogSomeException else LogUnknownTimeZoneError)
                 (add_log (LogConvertingTz from_tz to_tz) (world st))) ∧
  (∀ ts, df_tz (df (self st)) = None →
     tz_known from_tz = true → tz_known to_tz = true →
     mapM (tz_localize_wall from_tz) (df_rows (df (self st))).*1 = Some ts →
     (convert_tz from_tz to_tz st).2 = Return tt ∧
     tz (self (convert_tz from_tz to_tz st).1) = Some to_tz ∧
     df (self (convert_tz from_tz to_tz st).1)
       = {| df_tz := Some to_tz; df_columns := df_columns (df (self st));
            df_rows := zip ts (df_rows (df (self st))).*2 |}).
Proof.
  rewrite convert_tz_unfold.
  set (st0 := (log (LogConvertingTz from_tz to_tz) st).1).
  destruct (convert_tz_try_cases from_tz to_tz st0)
    as [(e & Hrun & Hunk & Hloc)|(ts' & Hfrom & Hto & Htz & Hts & Hrun)].
  - destruct (try_except_Raise _ _ _ _ Hrun) as (rec & Hlvl & Hrec1 & Hrec2 & ->).
    simpl. split.
    + intros z Hz. split; [done|]. split; [done|].
      destruct (tz_known from_tz) eqn:Hfrom.
      * rewrite Hrec2; [done|]. rewrite (Hloc eq_refl); [done|]. simpl. by rewrite Hz.
      * rewrite Hrec1; [done|]. by apply Hunk.
    + intros ts Htz Hfrom Hto Hts. exfalso.
      unfold convert_tz_try, pytz_timezone, tz_localize, tz_convert, set_index, index in Hrun.
      run in Hrun. rewrite Hfrom in Hrun. run in Hrun. rewrite Htz in Hrun. run in Hrun.
      rewrite Hts in Hrun. run in Hrun. rewrite Hto in Hrun. run in Hrun.
      apply length_mapM in Hts. rewrite length_fmap in Hts.
      destruct (decide (length ts = length (df_rows (df (self st))))); [|done].
      discriminate Hrun.
  - unfold try_except. rewrite Hrun. simpl. split.
    + intros z Hz. simpl in Htz. congruence.
    + intros ts _ _ _ Hts2. simpl in Hts. rewrite Hts2 in Hts. by injection Hts as <-.
Qed.

End ConvertTz.

Section Cutoff.
Context {V : Type} {ENV : Environment}.
Implicit Types (st : @State V).

Lemma between_on_clock s e t :
  0 ≤ s < day → 0 ≤ e < day → 0 ≤ t < day →
  between s e t ↔ on_clock s e t.
Proof.
  intros Hs He Ht. unfold between, on_clock.
  destruct (decide (s ≤ e)) as [Hse|Hse].
  - rewrite (Z.mod_small (e - s) day) by lia. split.
    + intros [H1 H2]. exists (t - s). split; [lia|].
      replace (s + (t - s)) with t by lia. by rewrite Z.mod_small.
    + intros (d & Hd & ->). rewrite Z.mod_small by lia. lia.
  - replace ((e - s) `mod` day) with (e - s + day).
    2:{ rewrite <- (Z_mod_plus_full (e - s) 1 day). rewrite Z.mod_small; lia. }
    split.
    + intros [H|H].
      * exists (t - s). split; [lia|].
        replace (s + (t - s)) with t by lia. by rewrite Z.mod_small.
      * destruct (decide (s ≤ t)) as [Hst|Hst].
        -- exists (t - s). split; [lia|].
           replace (s + (t - s)) with t by lia. by rewrite Z.mod_small.
        -- exists (t - s + day). split; [lia|].
           replace (s + (t - s + day)) with (t + 1 * day) by lia.
           rewrite Z_mod_plus_full. by rewrite Z.mod_small.
    + intros (d & Hd & ->). destruct (decide (s + d < day)) as [Hlt|Hge].
      * left. rewrite Z.mod_small by lia. lia.
      * right. replace (s + d) with (s + d - day + 1 * day) by lia.
        rewrite Z_mod_plus_full. rewrite Z.mod_small by lia. lia.
Qed.

Lemma time_of_day_bound (d : @DataFrame V) t : 0 ≤ time_of_day d t < day.
Proof. unfold time_of_day. apply Z.mod_pos_bound. done. Qed.

Lemma cutoff_time_Some st s e :
  0 ≤ s < day → 0 ≤ e < day →
  cutoff_time (Some s) (Some e) st
  = ({| self := set_df (filter_rows (λ t, between s e (time_of_day (df (self st)) t))
                                    (df (self st))) (self st);
        world := add_log (LogCutoffTime s e) (world st) |}, Return tt).
Proof.
  intros Hs He. unfold cutoff_time, between_time. run.
  destruct (decide ((0 ≤ s < day) ∧ (0 ≤ e < day))) as [_|Hn]; [done|].
  exfalso. by apply Hn.
Qed.

(** The filter on the time of day leaves the zone of the index alone. *)
Lemma cutoff_time_tz st st1 start_time end_time :
  cutoff_time start_time end_time st = (st1, Return tt) →
  df_tz (df (self st1)) = df_tz (df (self st)).
Proof.
  unfold cutoff_time, between_time.
  destruct start_time as [s|], end_time as [e|]; run;
    try (intros H; by injection H as <-).
  destruct (decide ((0 ≤ s < day) ∧ (0 ≤ e < day))); run; [|done].
  intros H. by injection H as <-.
Qed.

Lemma apply_cutoff_time_only st st1 start_time end_time :
  apply_cutoff start_time end_time None None st = (st1, Return tt) →
  cutoff_time start_time end_time st = (st1, Return tt).
Proof.
  unfold apply_cutoff. run.
  destruct (cutoff_time start_time end_time st) as [st' [[]|e|]]; run; [|done|done].
  intros H. by injection H as <-.
Qed.

(** C7: with both times given the rows kept are those whose time of day, on
    the clock of a day, lies from [start_time] to [end_time], both ends
    included: between the two when the start is not after the end.  With
    only one of them given nothing is filtered by the time of day. *)
Theorem time_cutoff_includes_both_ends st s e :
  0 ≤ s < day → 0 ≤ e < day →
  (apply_cutoff (Some s) (Some e) None None st).2 = Return tt ∧
  df_rows (df (self (apply_cutoff (Some s) (Some e) None None st).1))
    = filter (λ row, between s e (time_of_day (df (self st)) row.1)) (df_rows (df (self st))) ∧
  (∀ row, row ∈ df_rows (df (self (apply_cutoff (Some s) (Some e) None None st).1)) ↔
          row ∈ df_rows (df (self st)) ∧ on_clock s e (time_of_day (df (self st)) row.1)) ∧
  (s ≤ e →
   ∀ row, row ∈ df_rows (df (self (apply_cutoff (Some s) (Some e) None None st).1)) ↔
          row ∈ df_rows (df (self st)) ∧ s ≤ time_of_day (df (self st)) row.1 ≤ e) ∧
  (∀ start_date end_date,
     apply_cutoff (Some s) None start_date end_date st
       = apply_cutoff None None start_date end_date st ∧
     apply_cutoff None (Some e) start_date end_date st
       = apply_cutoff None None start_date end_date st) ∧
  apply_cutoff None None None None st = (st, Return tt).
Proof.
  intros Hs He.
  assert (Hrun : apply_cutoff (Some s) (Some e) None None st
                 = ({| self := set_df (filter_rows (λ t, between s e (time_of_day (df (self st)) t))
                                                   (df (self st))) (self st);
                       world := add_log (LogCutoffTime s e) (world st) |}, Return tt)).
  { unfold apply_cutoff. by rewrite (bind_Return _ _ _ _ _ (cutoff_time_Some st s e Hs He)). }
  rewrite Hrun. simpl. split; [done|]. split; [done|]. split; [|split; [|split]].
  - intros row. rewrite list_elem_of_filter.
    rewrite (between_on_clock s e _ Hs He (time_of_day_bound _ _)). tauto.
  - intros Hse row. rewrite list_elem_of_filter. unfold between.
    destruct (decide (s ≤ e)); [tauto|done].
  - done.
  - done.
Qed.

Lemma query_index_Some op date (d : @DataFrame V) b :
  date_literal (df_tz d) date = Some b →
  query_index op date d = inr (filter_rows (compare_index op b) d).
Proof.
  unfold query_index, date_literal.
  destruct (parse_datetime date) as [[w|t]|], (df_tz d); try done; by intros [= ->].
Qed.

Lemma query_index_None op date (d : @DataFrame V) :
  date_literal (df_tz d) date = None →
  query_index op date d = inl (query_error date).
Proof.
  unfold query_index, query_error, date_literal.
  by destruct (parse_datetime date) as [[w|t]|], (df_tz d).
Qed.

(** C6: with both dates given the rows kept are those later than
    [start_date] and earlier than [end_date]; a row at one of the two dates
    itself is not among them. *)
Theorem date_cutoff_excludes_bounds st start_time end_time sd ed b1 b2 st1 :
  apply_cutoff start_time end_time None None st = (st1, Return tt) →
  date_literal (df_tz (df (self st))) sd = Some b1 →
  date_literal (df_tz (df (self st))) ed = Some b2 →
  (apply_cutoff start_time end_time (Some sd) (Some ed) st).2 = Return tt ∧
  df_rows (df (self (apply_cutoff start_time end_time (Some sd) (Some ed) st).1))
    = filter (λ row, b1 < row.1 ∧ row.1 < b2) (df_rows (df (self st1))) ∧
  (∀ row, row ∈ df_rows (df (self (apply_cutoff start_time end_time (Some sd) (Some ed) st).1)) →
          row.1 ≠ b1 ∧ row.1 ≠ b2).
Proof.
  intros Htime Hb1 Hb2. apply apply_cutoff_time_only in Htime.
  pose proof (cutoff_time_tz _ _ _ _ Htime) as Htz.
  assert (Hrun : ∃ w, apply_cutoff start_time end_time (Some sd) (Some ed) st
                 = ({| self := set_df (filter_rows (compare_index OpLt b2)
                                         (filter_rows (compare_index OpGt b1) (df (self st1))))
                                      (self st1);
                       world := w |}, Return tt)).
  { unfold apply_cutoff. rewrite (bind_Return _ _ _ _ _ Htime).
    rewrite <- Htz in Hb1, Hb2. unfold cutoff_start, cutoff_end. run.
    rewrite (query_index_Some OpGt sd _ b1 Hb1). run.
    rewrite (query_index_Some OpLt ed (filter_rows (compare_index OpGt b1) (df (self st1)))
               b2 Hb2). run. by eexists. }
  destruct Hrun as (w & ->). simpl. split; [done|].
  split.
  - rewrite list_filter_filter. apply list_filter_iff. intros row. simpl. lia.
  - intros row Hrow. apply list_elem_of_filter in Hrow as [Hlt Hrow].
    apply list_elem_of_filter in Hrow as [Hgt _]. lia.
Qed.

End Cutoff.

Section Resample.
Context {V : Type} {NV : Numeric V} {ENV : Environment}.
Implicit Types (st : @State V) (d : @DataFrame V) (r : @Resampler V)
  (spec : list (string * AggFn)) (rows : list (Z * gmap string V)).

Lemma filter_fmap_comm {A B} (f : A → B) (P : B → Prop) `{!∀ b, Decision (P b)}
    (l : list A) :
  filter P (f <$> l) = f <$> filter (λ a, P (f a)) l.
Proof.
  induction l as [|a l IH]; [done|]. rewrite fmap_cons, !filter_cons.
  destruct (decide (P (f a))); by rewrite IH.
Qed.

Lemma agg_row_cons c f spec rows :
  agg_row ((c, f) :: spec) rows
  = match aggregate f (column_values c rows) with
    | Some v => <[c := v]> (agg_row spec rows)
    | None => agg_row spec rows
    end.
Proof. unfold agg_row. simpl. by destruct (aggregate f (column_values c rows)). Qed.

Lemma agg_row_None spec rows c : c ∉ spec.*1 → agg_row spec rows !! c = None.
Proof.
  induction spec as [|[c0 f0] spec IH]; intros Hc; [done|].
  rewrite fmap_cons in Hc. apply not_elem_of_cons in Hc as [Hne Hc]. simpl in Hne.
  rewrite agg_row_cons. destruct (aggregate f0 (column_values c0 rows)).
  - rewrite lookup_insert_ne by done. by apply IH.
  - by apply IH.
Qed.

Lemma agg_row_lookup spec rows c f :
  NoDup spec.*1 → (c, f) ∈ spec →
  agg_row spec rows !! c = aggregate f (column_values c rows).
Proof.
  induction spec as [|[c0 f0] spec IH]; intros Hnd Hin.
  - by apply elem_of_nil in Hin.
  - rewrite fmap_cons in Hnd. apply NoDup_cons in Hnd as [Hc0 Hnd]. simpl in Hc0.
    rewrite agg_row_cons. apply elem_of_cons in Hin as [Heq|Hin].
    + injection Heq as -> ->.
      destruct (aggregate f0 (column_values c0 rows)) eqn:Hagg.
      * by rewrite lookup_insert_eq.
      * by apply agg_row_None.
    + assert (c ≠ c0).
      { intros ->. apply Hc0. apply list_elem_of_fmap. by exists (c0, f). }
      destruct (aggregate f0 (column_values c0 rows)).
      * rewrite lookup_insert_ne by done. by apply IH.
      * by apply IH.
Qed.

Lemma whole_agg_row spec rows :
  NoDup spec.*1 →
  whole spec.*1 (agg_row spec rows) ↔
  ∀ c f, (c, f) ∈ spec → is_Some (aggregate f (column_values c rows)).
Proof.
  intros Hnd. unfold whole. rewrite Forall_forall. split.
  - intros H c f Hin. rewrite <- (agg_row_lookup spec rows c f Hnd Hin).
    apply H. apply list_elem_of_fmap. by exists (c, f).
  - intros H c Hc. apply list_elem_of_fmap in Hc as ([c' f] & -> & Hin). simpl.
    rewrite (agg_row_lookup spec rows c' f Hnd Hin). by apply H.
Qed.

Lemma foldr_min_spec k ks :
  (∀ x, x ∈ k :: ks → foldr Z.min k ks ≤ x) ∧ foldr Z.min k ks ∈ k :: ks.
Proof.
  induction ks as [|y ks [IH1 IH2]]; simpl.
  - split; [|by apply elem_of_cons; left].
    intros x Hx. apply list_elem_of_singleton in Hx. lia.
  - split.
    + intros x Hx. apply elem_of_cons in Hx as [->|Hx].
      * specialize (IH1 k ltac:(by apply elem_of_cons; left)). lia.
      * apply elem_of_cons in Hx as [->|Hx]; [lia|].
        specialize (IH1 x ltac:(by apply elem_of_cons; right)). lia.
    + destruct (Z.min_spec y (foldr Z.min k ks)) as [[_ ->]|[_ ->]].
      * apply elem_of_cons. right. apply elem_of_cons. by left.
      * apply elem_of_cons in IH2 as [->|IH2]; [by apply elem_of_cons; left|].
        apply elem_of_cons. right. apply elem_of_cons. by right.
Qed.

Lemma foldr_max_spec k ks :
  (∀ x, x ∈ k :: ks → x ≤ foldr Z.max k ks) ∧ foldr Z.max k ks ∈ k :: ks.
Proof.
  induction ks as [|y ks [IH1 IH2]]; simpl.
  - split; [|by apply elem_of_cons; left].
    intros x Hx. apply list_elem_of_singleton in Hx. lia.
  - split.
    + intros x Hx. apply elem_of_cons in Hx as [->|Hx].
      * specialize (IH1 k ltac:(by apply elem_of_cons; left)). lia.
      * apply elem_of_cons in Hx as [->|Hx]; [lia|].
        specialize (IH1 x ltac:(by apply elem_of_cons; right)). lia.
    + destruct (Z.max_spec y (foldr Z.max k ks)) as [[_ ->]|[_ ->]].
      * apply elem_of_cons in IH2 as [->|IH2]; [by apply elem_of_cons; left|].
        apply elem_of_cons. right. apply elem_of_cons. by right.
      * apply elem_of_cons. right. apply elem_of_cons. by left.
Qed.

(** The bins of the aggregate are those from the bin of one row to the bin
    of another. *)
Lemma elem_of_bucket_range r k :
  k ∈ bucket_range r ↔
  ∃ t1 t2, t1 ∈ (df_rows (rs_obj r)).*1 ∧ t2 ∈ (df_rows (rs_obj r)).*1 ∧
           bucket_of r t1 ≤ k ≤ bucket_of r t2.
Proof.
  unfold bucket_range.
  destruct (bucket_of r <$> (df_rows (rs_obj r)).*1) as [|k0 ks] eqn:Hks.
  - apply fmap_nil_inv in Hks. rewrite Hks. split.
    + intros H. by apply elem_of_nil in H.
    + intros (t1 & _ & H & _). by apply elem_of_nil in H.
  - destruct (foldr_min_spec k0 ks) as [Hlo1 Hlo2].
    destruct (foldr_max_spec k0 ks) as [Hhi1 Hhi2].
    cbv zeta. rewrite elem_of_seqZ. split.
    + intros Hk. rewrite <- Hks in Hlo2, Hhi2.
      apply list_elem_of_fmap in Hlo2 as (t1 & Ht1 & Hin1).
      apply list_elem_of_fmap in Hhi2 as (t2 & Ht2 & Hin2).
      exists t1, t2. split; [done|]. split; [done|]. rewrite <- Ht1, <- Ht2. lia.
    + intros (t1 & t2 & Hin1 & Hin2 & Hk).
      assert (H1 : bucket_of r t1 ∈ bucket_of r <$> (df_rows (rs_obj r)).*1)
        by (apply list_elem_of_fmap; by exists t1).
      assert (H2 : bucket_of r t2 ∈ bucket_of r <$> (df_rows (rs_obj r)).*1)
        by (apply list_elem_of_fmap; by exists t2).
      rewrite Hks in H1, H2. specialize (Hlo1 _ H1). specialize (Hhi1 _ H2). lia.
Qed.

Lemma insert_row_Permutation (x : Z * gmap string V) rows :
  insert_row x rows ≡ₚ x :: rows.
Proof.
  induction rows as [|y rows IH]; simpl; [done|].
  destruct (decide (not_after x y)); [done|].
  rewrite IH. apply Permutation_swap.
Qed.

Lemma sort_index_Permutation rows : sort_index rows ≡ₚ rows.
Proof.
  induction rows as [|x rows IH]; simpl; [done|].
  by rewrite insert_row_Permutation, IH.
Qed.

Lemma elem_of_bucket_rows r k row :
  row ∈ bucket_rows r k ↔ row ∈ df_rows (rs_obj r) ∧ bucket_of r row.1 = k.
Proof.
  unfold bucket_rows. rewrite list_elem_of_filter.
  rewrite (sort_index_Permutation (df_rows (rs_obj r))). tauto.
Qed.

Lemma bucket_rows_in_range r k : bucket_rows r k ≠ [] → k ∈ bucket_range r.
Proof.
  intros Hne. destruct (bucket_rows r k) as [|row rows] eqn:Hrows; [done|].
  assert (Hrow : row ∈ bucket_rows r k) by (rewrite Hrows; apply elem_of_cons; by left).
  apply elem_of_bucket_rows in Hrow as [Hin Hk]. apply elem_of_bucket_range.
  exists row.1, row.1. split; [|split; [|lia]]; apply list_elem_of_fmap; by exists row.
Qed.

(** Every reduction but the sum is missing over no value. *)
Lemma aggregate_nil f : f ≠ AggSum → aggregate f (@nil V) = None.
Proof. by destruct f. Qed.

Lemma all_aggregates_occupied spec r k :
  spec ≠ [] → sum_free spec → all_aggregates spec r k → bucket_rows r k ≠ [].
Proof.
  intros Hne Hsf Hall Hnil. destruct spec as [|[c f] spec]; [done|].
  assert (Hin : (c, f) ∈ (c, f) :: spec) by (apply elem_of_cons; by left).
  specialize (Hall c f Hin). rewrite Hnil in Hall. simpl in Hall.
  rewrite aggregate_nil in Hall; [by destruct Hall|].
  intros ->. by apply (Hsf c).
Qed.

(** The chain of pandas calls returns when the rule names an offset and the
    spec is not empty and names columns of the table; the rows it returns
    are the rows of the bins kept. *)
Lemma resample_agg_dropna_rows rule p spec d g :
  to_offset rule = Some g → spec ≠ [] → spec.*1 ⊆ df_columns d →
  ∃ out, resample_agg_dropna rule p spec d = inr out ∧
    df_tz out = df_tz d ∧ df_columns out = spec.*1 ∧
    df_rows out = bucket_row spec (resampler_of g p d) <$> kept_buckets spec (resampler_of g p d).
Proof.
  intros Hg Hne Hcols. unfold resample_agg_dropna, df_resample. rewrite Hg.
  fold (resampler_of g p d). unfold agg.
  destruct (decide (spec = [])) as [|_]; [done|].
  destruct (list_find _ spec.*1) as [[i c]|] eqn:Hfind.
  { apply list_find_Some in Hfind as (Hi & Hc & _). exfalso. apply Hc, Hcols.
    by eapply list_elem_of_lookup_2. }
  eexists. split; [reflexivity|]. split; [done|]. split; [done|].
  unfold dropna_any, kept_buckets, bucket_row. cbn [df_rows df_columns].
  by rewrite filter_fmap_comm.
Qed.

Lemma resample_unfold interval ohlc p st :
  resample interval ohlc p st
  = resample_with (if decide (interval = "W"%string) then "W-FRI"%string else interval)
      ohlc p st.
Proof. unfold resample, resample_with. by destruct (decide (interval = "W"%string)). Qed.

Lemma resample_with_Return rule ohlc p st out :
  resample_agg_dropna rule p ohlc (df (self st)) = inr out →
  (resample_with rule ohlc p st).2 = Return out ∧
  df (self (resample_with rule ohlc p st).1) = out.
Proof. intros H. unfold resample_with. run. rewrite H. done. Qed.

Lemma resample_with_Return_inv rule ohlc p st out :
  (resample_with rule ohlc p st).2 = Return out →
  resample_agg_dropna rule p ohlc (df (self st)) = inr out.
Proof.
  unfold resample_with. run.
  destruct (resample_agg_dropna rule p ohlc (df (self st))) as [e|d']; run; [done|].
  intros H. by injection H as <-.
Qed.

(** Whatever the chain returns, its rows are labelled by edges of the grid
    of the rule. *)
Lemma resample_agg_dropna_labels rule p spec d out :
  resample_agg_dropna rule p spec d = inr out →
  ∃ g, to_offset rule = Some g ∧
    ∀ t, t ∈ (df_rows out).*1 → ∃ k, t = instant d (edge g k).
Proof.
  unfold resample_agg_dropna, df_resample.
  destruct (to_offset rule) as [g|]; [|done]. fold (resampler_of g p d). unfold agg.
  destruct (decide (spec = [])); [done|].
  destruct (list_find _ spec.*1); [by destruct p0|].
  intros H. injection H as <-. exists g. split; [done|].
  intros t Ht. apply list_elem_of_fmap in Ht as (row & -> & Hrow).
  unfold dropna_any in Hrow. cbn [df_rows df_columns] in Hrow.
  apply list_elem_of_filter in Hrow as [_ Hrow].
  apply list_elem_of_fmap in Hrow as (k & -> & _). simpl.
  unfold bucket_label. destruct (side_or_default g (label p)); by eexists.
Qed.

Lemma week_grid_edge a k :
  edge (week_grid a) k `mod` day = 0 ∧
  weekday_of (edge (week_grid a) k) = weekday_number a.
Proof.
  unfold weekday_of. simpl. unfold week_phase, week.
  set (n := (weekday_number a + 4) `mod` 7).
  replace (k * (7 * day) + n * day) with ((7 * k + n) * day) by lia.
  rewrite Z.mod_mul by done. rewrite Z.div_mul by done. split; [done|].
  replace (7 * k + n + 3) with (n + 3 + k * 7) by lia. rewrite Z_mod_plus_full.
  unfold n. by destruct a.
Qed.

Lemma week_grid_span a cl w :
  span_start (week_grid a) cl (bucket (week_grid a) cl w) ≤ w
  < span_end (week_grid a) cl (bucket (week_grid a) cl w).
Proof.
  unfold span_end, span_start, bucket. simpl.
  assert (Hweek : 0 < week) by done.
  destruct cl.
  - pose proof (Z.div_mod (w - week_phase a) week ltac:(lia)) as Hdm.
    pose proof (Z.mod_pos_bound (w - week_phase a) week Hweek) as Hb.
    set (q := (w - week_phase a) `div` week) in *. lia.
  - pose proof (Z.div_mod (w - day - week_phase a) week ltac:(lia)) as Hdm.
    pose proof (Z.mod_pos_bound (w - day - week_phase a) week Hweek) as Hb.
    set (q := (w - day - week_phase a) `div` week) in *. lia.
Qed.

(** C2, as amended: called with the token "W", [resample] hands pandas the
    rule "W-FRI", the weeks anchored on Friday, where pandas reads "W"
    itself as the weeks anchored on Sunday; any other token, those of the
    weeks anchored on another day among them, it hands on as it is.  Of the
    weeks anchored on Friday every bin edge is the midnight that starts a
    Friday; a bin closed on the left spans from one edge up to the next, a
    bin closed on the right from the end of the Friday of one edge through
    the Friday of the next; and every row of the output carries an edge as
    its time stamp. *)
Theorem weekly_resample_anchors_on_friday ohlc p st :
  resample "W" ohlc p st = resample_with "W-FRI" ohlc p st ∧
  (∀ interval, interval ≠ "W"%string →
     resample interval ohlc p st = resample_with interval ohlc p st) ∧
  to_offset "W-FRI" = Some (week_grid FRI) ∧
  to_offset "W" = Some (week_grid SUN) ∧
  (∀ k, friday_midnight (edge (week_grid FRI) k)) ∧
  (∀ cl w,
     span_start (week_grid FRI) cl (bucket (week_grid FRI) cl w) ≤ w
     < span_end (week_grid FRI) cl (bucket (week_grid FRI) cl w)) ∧
  (∀ out t, (resample "W" ohlc p st).2 = Return out → t ∈ (df_rows out).*1 →
     ∃ w, friday_midnight w ∧ t = instant (df (self st)) w).
Proof.
  split; [by rewrite resample_unfold|]. split.
  { intros interval Hne. rewrite resample_unfold.
    by destruct (decide (interval = "W"%string)). }
  split; [done|]. split; [done|]. split; [intros k; apply week_grid_edge|].
  split; [apply week_grid_span|].
  intros out t Hout Ht. rewrite resample_unfold in Hout. simpl in Hout.
  apply resample_with_Return_inv in Hout.
  apply resample_agg_dropna_labels in Hout as (g & Hg & Hlab).
  assert (g = week_grid FRI) as -> by (by injection Hg as <-).
  destruct (Hlab t Ht) as (k & ->). exists (edge (week_grid FRI) k).
  split; [apply week_grid_edge|done].
Qed.

(** C1, as amended: when the rule names an offset and the aggregation spec,
    not empty, names columns of the table, [resample] returns the rows of
    the bins kept.  A bin is kept if and only if it lies from the bin of one
    source row to the bin of another and every column of the spec has an
    aggregate over it that is not missing; one missing aggregate drops the
    bin.  For a spec without a sum the bins kept are those with at least one
    source row and with all their aggregates. *)
Theorem resample_keeps_whole_buckets interval p spec st g :
  to_offset (if decide (interval = "W"%string) then "W-FRI"%string else interval) = Some g →
  spec ≠ [] → NoDup spec.*1 → spec.*1 ⊆ df_columns (df (self st)) →
  ∃ out,
    (resample interval spec p st).2 = Return out ∧
    df (self (resample interval spec p st).1) = out ∧
    df_rows out = bucket_row spec (resampler_of g p (df (self st)))
                  <$> kept_buckets spec (resampler_of g p (df (self st))) ∧
    (∀ k, k ∈ kept_buckets spec (resampler_of g p (df (self st))) ↔
          k ∈ bucket_range (resampler_of g p (df (self st))) ∧
          all_aggregates spec (resampler_of g p (df (self st))) k) ∧
    (∀ k, k ∈ bucket_range (resampler_of g p (df (self st))) ↔
          ∃ t1 t2, t1 ∈ (df_rows (df (self st))).*1 ∧ t2 ∈ (df_rows (df (self st))).*1 ∧
                   bucket_of (resampler_of g p (df (self st))) t1 ≤ k
                   ≤ bucket_of (resampler_of g p (df (self st))) t2) ∧
    (sum_free spec →
     ∀ k, k ∈ kept_buckets spec (resampler_of g p (df (self st))) ↔
          occupied_and_whole spec (resampler_of g p (df (self st))) k).
Proof.
  intros Hg Hne Hnd Hcols.
  destruct (resample_agg_dropna_rows _ p spec (df (self st)) g Hg Hne Hcols)
    as (out & Hrun & _ & _ & Hrows).
  exists out. rewrite resample_unfold.
  destruct (resample_with_Return _ spec p st out Hrun) as [-> ->].
  split; [done|]. split; [done|]. split; [done|].
  assert (Hkept : ∀ k, k ∈ kept_buckets spec (resampler_of g p (df (self st))) ↔
            k ∈ bucket_range (resampler_of g p (df (self st))) ∧
            all_aggregates spec (resampler_of g p (df (self st))) k).
  { intros k. unfold kept_buckets, all_aggregates. rewrite list_elem_of_filter.
    rewrite (whole_agg_row spec _ Hnd). tauto. }
  split; [done|]. split; [intros k; apply elem_of_bucket_range|].
  intros Hsf k. rewrite Hkept. unfold occupied_and_whole. split.
  - intros [_ Hall]. split; [|done]. by eapply all_aggregates_occupied.
  - intros [Hocc Hall]. split; [|done]. by apply bucket_rows_in_range.
Qed.

End Resample.

(** ** The sample run *)

(** [TDResampler('input.csv')] in the sample world makes the sample object
    and leaves the world as it was. *)
Example init_sample :
  init "input.csv" None None sample_world = (sample_world, Return sample_object).
Proof. vm_compute. reflexivity. Qed.

(** On the object as [TDResampler('input.csv')] makes it, and on it after
    [resample('D', OHLC_DICT, RESAMPLE)]. *)
Example write_csv_requires_resample_witness :
  (write_csv "out.csv" None sample_state).2 = Raise AttributeError ∧
  (write_csv "out.csv" None resampled_state).2 ≠ Raise AttributeError.
Proof.
  destruct (write_csv_requires_resample "out.csv" None sample_state
              ["Open"; "High"; "Low"; "Close"; "Up"; "Down"] ["Date"; "Time"])
    as (_ & H1 & H2); [reflexivity|reflexivity|].
  split; [apply H1; reflexivity|apply (H2 _ _ "D" OHLC_DICT RESAMPLE)].
Defined.

(** C3, where the code falls short of it: of two unknown names in a row the
    loop discards the first and steps over the second, which stays in the
    list; the projection on the list then raises KeyError and nothing is
    written. *)
Theorem write_csv_steps_over_unknown_name :
  let st := with_list 4%positive ["Foo"; "Bar"; "Open"] resampled_state in
  let r := write_csv "out.csv" (Some 4%positive) st in
  ("Bar" ∉ OHLC_DICT.*1) ∧
  r.2 = Raise (KeyError "Bar") ∧
  heap (world r.1) !! 4%positive = Some ["Bar"; "Open"] ∧
  logger (world r.1) = logger (world st) ++ [LogColDiscarded "Foo"] ∧
  disk (world r.1) !! "out.csv" = None.
Proof.
  cbv zeta. split; [compute_done|].
  repeat split; vm_compute; reflexivity.
Qed.

(** The call that leaves [columns] out rewrites the default list. *)
Example write_csv_rewrites_callers_list_witness :
  ∃ l2,
    (write_csv "out.csv" None resampled_state).2 ≠ Stuck ∧
    heap (world (write_csv "out.csv" None resampled_state).1)
      = <[3%positive := l2]> (heap (world resampled_state)) ∧
    l2 `sublist_of` ["Open"; "High"; "Low"; "Close"; "Up"; "Down"].
Proof.
  destruct (write_csv_rewrites_callers_list "out.csv" None resampled_state
              ["Open"; "High"; "Low"; "Close"; "Up"; "Down"] ["Date"; "Time"] OHLC_DICT)
    as (l2 & H1 & H2 & _ & _ & H3 & _); [reflexivity|reflexivity|reflexivity|].
  exists l2. split; [exact H1|]. split; [exact H2|exact H3].
Defined.

(** C10, where the code falls short of it: the list is rewritten in place,
    but not every name that is no key of the aggregation spec is removed
    from it.  Of "Volume" and "Ticks", two such names in a row, the loop
    removes the first, with a warning, and steps over the second: "Ticks" is
    still in the caller's list after the call, which raises KeyError on
    it. *)
Theorem write_csv_leaves_unknown_name :
  let st := with_list 4%positive ["Up"; "Volume"; "Ticks"; "Down"] resampled_state in
  let r := write_csv "out.csv" (Some 4%positive) st in
  ("Volume" ∉ OHLC_DICT.*1) ∧ ("Ticks" ∉ OHLC_DICT.*1) ∧
  heap (world r.1) !! 4%positive = Some ["Up"; "Ticks"; "Down"] ∧
  logger (world r.1) = logger (world st) ++ [LogColDiscarded "Volume"] ∧
  r.2 = Raise (KeyError "Ticks") ∧
  ¬ every_unknown_name_removed "out.csv" 4%positive st.
Proof.
  cbv zeta. split; [compute_done|]. split; [compute_done|].
  split; [vm_compute; reflexivity|]. split; [vm_compute; reflexivity|].
  split; [vm_compute; reflexivity|].
  intros H.
  apply (H OHLC_DICT ["Up"; "Ticks"; "Down"] "Ticks"); [reflexivity|reflexivity| |].
  - compute_done.
  - compute_done.
Qed.

(** A token other than "W" goes to pandas as it is. *)
Example weekly_resample_anchors_on_friday_witness :
  resample "W-MON" OHLC_DICT RESAMPLE sample_state
  = resample_with "W-MON" OHLC_DICT RESAMPLE sample_state.
Proof.
  destruct (weekly_resample_anchors_on_friday OHLC_DICT RESAMPLE sample_state)
    as (_ & H & _).
  apply H. discriminate.
Defined.

(** C2 as stated fails: "W-MON" asks for weeks too, and the weeks it gets
    end on Monday; the one row of the output is stamped Monday 1970-01-05,
    not a Friday. *)
Lemma resample_anchored_week_keeps_its_anchor :
  to_offset "W-MON" = Some (week_grid MON) ∧
  (df_rows (df (self (resample "W-MON" OHLC_DICT {| closed := None; label := None |}
                        sample_state).1))).*1 = [4 * day] ∧
  weekday_of (4 * day) = weekday_number MON ∧
  ¬ friday_midnight (4 * day).
Proof.
  split; [reflexivity|]. split; [vm_compute; reflexivity|]. split; [reflexivity|].
  intros [_ H]. vm_compute in H. discriminate H.
Qed.

(** The sample run of the module: the two bars of Thursday make the row
    stamped Friday 00:00, the bar of Saturday the row stamped Sunday 00:00,
    and the Friday without a bar makes none. *)
Example resample_daily_sample :
  (λ row : Z * gmap string Z, (row.1, row.2 !! "Open", row.2 !! "High",
                               row.2 !! "Low", row.2 !! "Close"))
    <$> df_rows (df (self resampled_state))
  = [(day, Some 10, Some 13, Some 9, Some 12);
     (3 * day, Some 20, Some 22, Some 19, Some 21)].
Proof. vm_compute. reflexivity. Qed.

(** Two calls that leave [columns] to its default, after a resample on
    "Open" and "Close" alone: the first leaves the default list as
    ["Open"; "Low"; "Close"; "Down"] and raises KeyError, the second starts
    from that list. *)
Example write_csv_default_persists :
  let st0 := (resample "D" [("Open", AggFirst); ("Close", AggLast)] RESAMPLE sample_state).1 in
  let r1 := write_csv "out.csv" None st0 in
  let r2 := write_csv "out.csv" None r1.1 in
  r1.2 = Raise (KeyError "Low") ∧
  heap (world r1.1) !! 3%positive = Some ["Open"; "Low"; "Close"; "Down"] ∧
  r2.2 = Return tt ∧
  heap (world r2.1) !! 3%positive = Some ["Open"; "Close"].
Proof. cbv zeta. repeat split; vm_compute; reflexivity. Qed.

(** None of the six columns of the OHLC spec is summed. *)
Lemma OHLC_DICT_sum_free : sum_free OHLC_DICT.
Proof.
  intros c H. unfold OHLC_DICT in H.
  repeat (apply elem_of_cons in H as [H|H]; [discriminate H|]).
  by apply elem_of_nil in H.
Defined.

(** The daily bars of the sample under the OHLC spec, which has no sum. *)
Example resample_keeps_whole_buckets_witness :
  ∃ out,
    (resample "D" OHLC_DICT RESAMPLE sample_state).2 = Return out ∧
    ∀ k, k ∈ kept_buckets OHLC_DICT (resampler_of day_grid RESAMPLE sample_table) ↔
         occupied_and_whole OHLC_DICT (resampler_of day_grid RESAMPLE sample_table) k.
Proof.
  destruct (resample_keeps_whole_buckets "D" RESAMPLE OHLC_DICT sample_state day_grid)
    as (out & H1 & _ & _ & _ & _ & H2).
  - reflexivity.
  - discriminate.
  - apply (bool_decide_unpack _). vm_compute. exact I.
  - apply (bool_decide_unpack _). vm_compute. exact I.
  - exists out. split; [exact H1|]. apply H2. exact OHLC_DICT_sum_free.
Defined.

(** C1 as stated fails: under a sum the Friday, on which the sample has no
    bar, has a row in the output all the same, with the sum 0. *)
Lemma resample_sum_keeps_empty_bucket :
  (λ row : Z * gmap string Z, (row.1, map_to_list row.2))
    <$> df_rows (df (self (resample "D" [("Up", AggSum)] RESAMPLE sample_state).1))
  = [(day, [("Up", 9)]); (2 * day, [("Up", 0)]); (3 * day, [("Up", 7)])] ∧
  bucket_rows (resampler_of day_grid RESAMPLE sample_table) 1 = [] ∧
  ¬ (1 ∈ kept_buckets [("Up", AggSum)] (resampler_of day_grid RESAMPLE sample_table) ↔
     occupied_and_whole [("Up", AggSum)] (resampler_of day_grid RESAMPLE sample_table) 1).
Proof.
  split; [vm_compute; reflexivity|]. split; [vm_compute; reflexivity|].
  intros [H _].
  assert (Hk : 1 ∈ kept_buckets [("Up", AggSum)] (resampler_of day_grid RESAMPLE sample_table)).
  { apply (bool_decide_unpack _). vm_compute. exact I. }
  destruct (H Hk) as [Hocc _]. apply Hocc. vm_compute. reflexivity.
Qed.

(** A second conversion of the table that has a zone changes nothing. *)
Example convert_tz_refuses_localized_table_witness :
  self (convert_tz "US/Eastern" "UTC" localized_state).1 = self localized_state.
Proof.
  destruct (convert_tz_refuses_localized_table "US/Eastern" "UTC" localized_state)
    as (H & _).
  destruct (H "US/Eastern") as (_ & H2 & _); [reflexivity|exact H2].
Defined.

(** C4 as stated fails: the table read in US/Eastern is not read in UTC
    after [convert_tz('US/Eastern', 'UTC')]. *)
Lemma convert_tz_leaves_localized_table :
  df_tz (df (self localized_state)) = Some "US/Eastern" ∧
  ¬ reexpressed_in "UTC" localized_state
      (convert_tz "US/Eastern" "UTC" localized_state).1.
Proof.
  split; [reflexivity|]. intros [H _]. vm_compute in H. discriminate H.
Qed.

(** A zone pytz does not know. *)
Example convert_tz_failure_is_skipped_witness :
  self (convert_tz "Mars/Olympus" "UTC" sample_state).1 = self sample_state.
Proof.
  destruct (convert_tz_failure_is_skipped "Mars/Olympus" "UTC" sample_state)
    as (_ & H & _).
  destruct (H UnknownTimeZoneError) as (H2 & _); [reflexivity|exact H2].
Defined.

(** The sample between 1970-01-03 and 1970-01-05. *)
Example date_cutoff_excludes_bounds_witness :
  df_rows (df (self (apply_cutoff None None (Some "1970-01-03") (Some "1970-01-05")
                       sample_state).1))
  = filter (λ row, 2 * day < row.1 ∧ row.1 < 4 * day) (df_rows sample_table).
Proof.
  destruct (date_cutoff_excludes_bounds sample_state None None
              "1970-01-03" "1970-01-05" (2 * day) (4 * day) sample_state)
    as (_ & H & _); [reflexivity|reflexivity|reflexivity|exact H].
Defined.

(** The sample from 09:00 to 09:15: the bars at the two ends stay. *)
Example time_cutoff_includes_both_ends_witness :
  (df_rows (df (self (apply_cutoff (Some (9 * hour)) (Some (9 * hour + hour / 4)) None None
                        sample_state).1))).*1
  = [9 * hour; 9 * hour + hour / 4].
Proof.
  destruct (time_cutoff_includes_both_ends sample_state (9 * hour) (9 * hour + hour / 4))
    as (_ & H & _); [done|done|].
  rewrite H. vm_compute. reflexivity.
Defined.

(** * Further properties *)

(** ** write_csv, the two loops exactly *)

Section WriteCsvExact.
Context {V : Type} {ENV : Environment}.
Implicit Types (st s : @State V) (l : list string).

Lemma put_put c l1 ws1 l2 ws2 st :
  put c l2 ws2 (put c l1 ws1 st) = put c l2 (ws1 ++ ws2) st.
Proof.
  unfold put. simpl. rewrite insert_insert_eq, fmap_app, app_assoc. done.
Qed.

Lemma put_id c l st : heap (world st) !! c = Some l → put c l [] st = st.
Proof.
  intros H. destruct st as [o [h lg dk d1 d2 d3]]. unfold put. simpl in *.
  rewrite insert_id by done. by rewrite app_nil_r.
Qed.

Lemma put_lookup c l ws st : heap (world (put c l ws st)) !! c = Some l.
Proof. simpl. apply lookup_insert_eq. Qed.

Lemma put_lookup_ne c a l ws st :
  c ≠ a → heap (world (put c l ws st)) !! a = heap (world st) !! a.
Proof. intros H. simpl. by apply lookup_insert_ne. Qed.

Lemma store_put c l st : store c l st = (put c l [] st, Return tt).
Proof.
  destruct st as [o [h lg dk d1 d2 d3]]. unfold store, modify_world, put. simpl.
  by rewrite app_nil_r.
Qed.

Lemma log_put c l v st :
  heap (world st) !! c = Some l →
  log (LogColDiscarded v) st = (put c l [v] st, Return tt).
Proof.
  intros H. destruct st as [o [h lg dk d1 d2 d3]]. unfold log, modify_world, put.
  simpl in *. by rewrite insert_id.
Qed.

Lemma columns_remove_put c val st l l' :
  heap (world st) !! c = Some l → list_remove val l = Some l' →
  columns_remove c val st = (put c l' [] st, Return tt).
Proof.
  intros Hc Hrm. unfold columns_remove.
  rewrite (bind_Return _ _ _ _ _ (load_Some _ _ _ Hc)), Hrm. apply store_put.
Qed.

Lemma list_remove_middle x pre rest :
  x ∉ pre → list_remove x (pre ++ x :: rest) = Some (pre ++ rest).
Proof.
  induction pre as [|y pre IH]; intros Hx; simpl.
  - by rewrite decide_True.
  - apply not_elem_of_cons in Hx as [Hne Hx].
    rewrite decide_False by done. by rewrite IH.
Qed.

Lemma for_from_done n a i (body : string → M unit) st l :
  heap (world st) !! a = Some l → (length l ≤ i)%nat →
  for_from n a i body st = (st, Return tt).
Proof.
  intros Ha Hi. destruct n; simpl;
    rewrite (bind_Return _ _ _ _ _ (load_Some _ _ _ Ha));
    by rewrite lookup_ge_None_2.
Qed.

(** The first loop, run over a list object other than the one it rewrites. *)
Lemma datetime_from_exact c dt dts n :
  c ≠ dt →
  ∀ i lc s,
    heap (world s) !! c = Some lc → heap (world s) !! dt = Some dts →
    (length dts - i ≤ n)%nat →
    for_from n dt i (discard_datetime c) s
    = (put c (foldl remove_present lc (drop i dts)) [] s, Return tt).
Proof.
  intros Hne. induction n as [|n IH]; intros i lc s Hc Hdt Hn.
  - simpl. rewrite (bind_Return _ _ _ _ _ (load_Some _ _ _ Hdt)).
    rewrite (lookup_ge_None_2 dts i) by lia. rewrite drop_ge by lia. simpl.
    by rewrite (put_id c lc).
  - simpl. rewrite (bind_Return _ _ _ _ _ (load_Some _ _ _ Hdt)).
    destruct (dts !! i) as [v|] eqn:Hv.
    2:{ apply lookup_ge_None in Hv. rewrite drop_ge by lia. simpl.
        by rewrite (put_id c lc). }
    rewrite (drop_S _ _ _ Hv). simpl.
    assert (Hbody : discard_datetime c v s = (put c (remove_present lc v) [] s, Return tt)).
    { unfold discard_datetime, remove_present.
      rewrite (bind_Return _ _ _ _ _ (load_Some _ _ _ Hc)).
      destruct (decide (v ∈ lc)) as [Hin|Hin].
      - destruct (list_remove_elem _ _ Hin) as [lc' Hrm]. rewrite Hrm. simpl.
        by apply (columns_remove_put c v s lc).
      - by rewrite (put_id c lc). }
    rewrite (bind_Return _ _ _ _ _ Hbody).
    rewrite (IH (S i) (remove_present lc v)).
    + by rewrite put_put.
    + apply put_lookup.
    + by rewrite put_lookup_ne.
    + lia.
Qed.

(** The second loop, on a list without repetitions: [pre] is what the
    iterator has passed, [rest] what is ahead of it. *)
Lemma unknown_from_exact c keys n :
  ∀ pre rest s,
    heap (world s) !! c = Some (pre ++ rest) → NoDup (pre ++ rest) →
    (length rest ≤ n)%nat →
    for_from n c (length pre) (discard_unknown keys c) s
    = (put c (pre ++ skip_unknown keys rest) (warned_unknown keys rest) s, Return tt).
Proof.
  induction n as [|n IH]; intros pre rest s Hc Hnd Hn.
  - destruct rest; [|simpl in Hn; lia]. simpl.
    rewrite (bind_Return _ _ _ _ _ (load_Some _ _ _ Hc)).
    rewrite lookup_ge_None_2 by (rewrite length_app; simpl; lia).
    by rewrite (put_id c (pre ++ [])).
  - simpl. rewrite (bind_Return _ _ _ _ _ (load_Some _ _ _ Hc)).
    destruct rest as [|x rest].
    { rewrite lookup_ge_None_2 by (rewrite length_app; simpl; lia).
      simpl. by rewrite (put_id c (pre ++ [])). }
    rewrite (list_lookup_middle pre rest x (length pre) eq_refl).
    assert (Hcons : ∀ y r, pre ++ y :: r = (pre ++ [y]) ++ r)
      by (intros; by rewrite <- app_assoc).
    assert (Hlen : ∀ y, S (length pre) = length (pre ++ [y]))
      by (intros; rewrite length_app; simpl; lia).
    destruct (decide (x ∈ keys)) as [Hk|Hk].
    + assert (Hbody : discard_unknown keys c x s = (s, Return tt))
        by (unfold discard_unknown; by rewrite decide_True).
      rewrite (bind_Return _ _ _ _ _ Hbody).
      rewrite (Hlen x). rewrite (IH (pre ++ [x]) rest s).
      * simpl. rewrite !decide_True by done. by rewrite <- Hcons.
      * by rewrite <- Hcons.
      * by rewrite <- Hcons.
      * simpl in Hn. lia.
    + assert (Hx : x ∉ pre).
      { apply NoDup_app in Hnd as (_ & Hnd & _). intros Hin.
        apply (Hnd x Hin). apply elem_of_cons. by left. }
      assert (Hbody : discard_unknown keys c x s = (put c (pre ++ rest) [x] s, Return tt)).
      { unfold discard_unknown. rewrite decide_False by done.
        rewrite (bind_Return _ _ _ _ _ (log_put c _ x s Hc)).
        rewrite (columns_remove_put c x _ _ _ (put_lookup _ _ _ _)
                   (list_remove_middle x pre rest Hx)).
        by rewrite put_put. }
      rewrite (bind_Return _ _ _ _ _ Hbody). simpl. rewrite !decide_False by done.
      assert (Hnd' : NoDup (pre ++ rest)).
      { apply NoDup_app in Hnd as (H1 & H2 & H3). apply NoDup_cons in H3 as [_ H3].
        apply NoDup_app. split; [done|]. split; [|done].
        intros z Hz Hz'. apply (H2 z Hz). apply elem_of_cons. by right. }
      destruct rest as [|y rest].
      * apply (for_from_done _ _ _ _ _ (pre ++ [])); [apply put_lookup|].
        rewrite length_app. simpl. lia.
      * rewrite (Hlen y). rewrite (IH (pre ++ [y]) rest).
        -- rewrite put_put. by rewrite <- Hcons.
        -- rewrite put_lookup. by rewrite <- Hcons.
        -- by rewrite <- Hcons.
        -- simpl in Hn. lia.
Qed.

Lemma list_filter_all {A} (P : A → Prop) `{!∀ x, Decision (P x)} (l : list A) :
  (∀ x, x ∈ l → P x) → filter P l = l.
Proof.
  induction l as [|x l IH]; intros Hall; [done|]. rewrite filter_cons.
  rewrite decide_True by (apply Hall, elem_of_cons; by left).
  rewrite IH; [done|]. intros y Hy. apply Hall, elem_of_cons. by right.
Qed.

Lemma list_remove_filter x l :
  NoDup l → x ∈ l → list_remove x l = Some (filter (λ y, y ≠ x) l).
Proof.
  induction l as [|y l IH]; intros Hnd Hin; [by apply elem_of_nil in Hin|].
  apply NoDup_cons in Hnd as [Hy Hnd]. simpl. rewrite filter_cons.
  destruct (decide (y = x)) as [->|Hne].
  - rewrite decide_False by (by intros H; apply H).
    f_equal. symmetry. apply list_filter_all. intros z Hz ->. done.
  - rewrite decide_True by done.
    apply elem_of_cons in Hin as [->|Hin]; [done|]. by rewrite (IH Hnd Hin).
Qed.

Lemma remove_present_filter l v :
  NoDup l → remove_present l v = filter (λ y, y ≠ v) l.
Proof.
  intros Hnd. unfold remove_present. destruct (decide (v ∈ l)) as [Hin|Hin].
  - by rewrite (list_remove_filter v l Hnd Hin).
  - symmetry. apply list_filter_all. intros z Hz ->. done.
Qed.

(** From a list without repetitions the first loop takes every name of a
    date or time column and nothing else. *)
Lemma strip_datetime_filter dts l :
  NoDup l → strip_datetime dts l = filter (λ x, x ∉ dts) l.
Proof.
  unfold strip_datetime. revert l. induction dts as [|v dts IH]; intros l Hnd; simpl.
  - symmetry. apply list_filter_all. intros z _ Hz. by apply elem_of_nil in Hz.
  - rewrite (remove_present_filter l v Hnd).
    rewrite IH by (by apply NoDup_filter). rewrite list_filter_filter.
    apply list_filter_iff. intros x. rewrite not_elem_of_cons. tauto.
Qed.

Lemma skip_unknown_no_adjacent keys l :
  no_adjacent_unknown keys l →
  skip_unknown keys l = filter (λ x, x ∈ keys) l ∧
  warned_unknown keys l = filter (λ x, x ∉ keys) l.
Proof.
  assert (Hin : ∀ x (l' : list string), x ∈ keys →
            filter (λ x, x ∈ keys) (x :: l') = x :: filter (λ x, x ∈ keys) l' ∧
            filter (λ x, x ∉ keys) (x :: l') = filter (λ x, x ∉ keys) l').
  { intros x l' Hx. rewrite !filter_cons.
    rewrite (decide_True (P := x ∈ keys)) by done.
    by rewrite (decide_False (P := x ∉ keys)) by (intros H; by apply H). }
  assert (Hout : ∀ x (l' : list string), x ∉ keys →
            filter (λ x, x ∈ keys) (x :: l') = filter (λ x, x ∈ keys) l' ∧
            filter (λ x, x ∉ keys) (x :: l') = x :: filter (λ x, x ∉ keys) l').
  { intros x l' Hx. rewrite !filter_cons.
    rewrite (decide_False (P := x ∈ keys)) by done.
    by rewrite (decide_True (P := x ∉ keys)) by done. }
  induction l as [|x l IH]; intros Hadj; [done|].
  destruct l as [|y l].
  - simpl. destruct (decide (x ∈ keys)) as [Hx|Hx].
    + by destruct (Hin x [] Hx) as [-> ->].
    + by destruct (Hout x [] Hx) as [-> ->].
  - destruct Hadj as [Hxy Hadj]. destruct (IH Hadj) as [IH1 IH2].
    change (skip_unknown keys (x :: y :: l))
      with (if decide (x ∈ keys) then x :: skip_unknown keys (y :: l)
            else y :: skip_unknown keys l).
    change (warned_unknown keys (x :: y :: l))
      with (if decide (x ∈ keys) then warned_unknown keys (y :: l)
            else x :: warned_unknown keys l).
    destruct (decide (x ∈ keys)) as [Hx|Hx].
    + destruct (Hin x (y :: l) Hx) as [-> ->]. by rewrite IH1, IH2.
    + destruct (Hout x (y :: l) Hx) as [-> ->].
      destruct Hxy as [Hx'|Hy]; [done|].
      destruct (Hin y l Hy) as [E1 E2]. rewrite E1 in IH1 |- *. rewrite E2 in IH2 |- *.
      simpl in IH1, IH2. rewrite decide_True in IH1, IH2 by done.
      injection IH1 as IH1. by rewrite IH1, IH2.
Qed.

Lemma write_csv_run outfile columns st l0 dts spec :
  default (default_columns (world st)) columns ≠ datetime_col (self st) →
  heap (world st) !! default (default_columns (world st)) columns = Some l0 →
  heap (world st) !! datetime_col (self st) = Some dts →
  NoDup l0 →
  ohlc_dict (self st) = Some spec →
  write_csv outfile columns st
  = write_csv_outcome outfile (default (default_columns (world st)) columns)
      (skip_unknown spec.*1 (filter (λ x, x ∉ dts) l0))
      (warned_unknown spec.*1 (filter (λ x, x ∉ dts) l0)) st.
Proof.
  intros Hne Hc Hdt Hnd Hspec. rewrite <- (strip_datetime_filter dts l0 Hnd).
  unfold write_csv, write_csv_outcome. cbv zeta.
  set (c := default (default_columns (world st)) columns) in *.
  rewrite (bind_Return (gets datetime_col) _ st st _ eq_refl).
  assert (Hrun1 : for_in (datetime_col (self st)) (discard_datetime c) st
                  = (put c (strip_datetime dts l0) [] st, Return tt)).
  { unfold for_in. rewrite (bind_Return _ _ _ _ _ (load_Some _ _ _ Hdt)).
    by rewrite (datetime_from_exact c _ dts (length dts) Hne 0%nat l0 st Hc Hdt) by lia. }
  rewrite (bind_Return _ _ _ _ _ Hrun1).
  rewrite (bind_Return (gets ohlc_dict) _ _ _ _ eq_refl). simpl self. rewrite Hspec.
  rewrite (bind_Return (mret (spec.*1)) _ _ _ _ eq_refl).
  assert (Hnd1 : NoDup (strip_datetime dts l0)).
  { rewrite strip_datetime_filter by done. by apply NoDup_filter. }
  assert (Hrun2 : for_in c (discard_unknown spec.*1 c) (put c (strip_datetime dts l0) [] st)
                  = (put c (skip_unknown spec.*1 (strip_datetime dts l0))
                       (warned_unknown spec.*1 (strip_datetime dts l0)) st, Return tt)).
  { unfold for_in. rewrite (bind_Return _ _ _ _ _ (load_Some _ _ _ (put_lookup _ _ _ _))).
    rewrite (unknown_from_exact c spec.*1 _ [] (strip_datetime dts l0));
      [by rewrite put_put|apply put_lookup|done|done]. }
  rewrite (bind_Return _ _ _ _ _ Hrun2).
  rewrite (bind_Return _ _ _ _ _ (load_Some _ _ _ (put_lookup _ _ _ _))).
  rewrite (bind_Return (gets df) _ _ _ _ eq_refl).
  change (self (put c _ _ st)) with (self st).
  destruct (getitem _ (df (self st))); [done|].
  run. unfold to_csv. by destruct (can_write outfile).
Qed.

(** X1: on a list without repetitions, other than the object's own list of
    date and time columns, [write_csv] is known exactly.  The first loop
    takes out the names of the date and time columns; of what is left the
    second loop keeps every key of the aggregation spec, takes out each
    name it visits that is not a key, with a warning, and steps over the
    name after it.  Then the projection of the table on the list raises and
    the object is as it was; or the table is projected, assigned to
    [self.df] and written; or it is projected and assigned, and the write
    raises OSError on a path that cannot be written. *)
Theorem write_csv_exact outfile columns st l0 dts spec :
  default (default_columns (world st)) columns ≠ datetime_col (self st) →
  heap (world st) !! default (default_columns (world st)) columns = Some l0 →
  heap (world st) !! datetime_col (self st) = Some dts →
  NoDup l0 →
  ohlc_dict (self st) = Some spec →
  write_csv outfile columns st
  = match getitem (skip_unknown spec.*1 (filter (λ x, x ∉ dts) l0)) (df (self st)) with
    | inl e =>
        (put (default (default_columns (world st)) columns)
             (skip_unknown spec.*1 (filter (λ x, x ∉ dts) l0))
             (warned_unknown spec.*1 (filter (λ x, x ∉ dts) l0)) st, Raise e)
    | inr d' =>
        if can_write outfile then
          (exported outfile d' (skip_unknown spec.*1 (filter (λ x, x ∉ dts) l0))
             (put (default (default_columns (world st)) columns)
                  (skip_unknown spec.*1 (filter (λ x, x ∉ dts) l0))
                  (warned_unknown spec.*1 (filter (λ x, x ∉ dts) l0)) st), Return tt)
        else
          (projected d' (skip_unknown spec.*1 (filter (λ x, x ∉ dts) l0))
             (put (default (default_columns (world st)) columns)
                  (skip_unknown spec.*1 (filter (λ x, x ∉ dts) l0))
                  (warned_unknown spec.*1 (filter (λ x, x ∉ dts) l0)) st), Raise OSError)
    end.
Proof. apply write_csv_run. Qed.

(** X2: when, on top of that, no two names in a row are unknown, the keys
    in the list are columns of the table and the path can be written, the
    export goes through as the docstring has it: every name that is not a
    key is discarded with a warning, and the table is projected on the keys
    of the list, in their order, and written. *)
Theorem write_csv_discards_unknown_names outfile columns st l0 dts spec :
  default (default_columns (world st)) columns ≠ datetime_col (self st) →
  heap (world st) !! default (default_columns (world st)) columns = Some l0 →
  heap (world st) !! datetime_col (self st) = Some dts →
  NoDup l0 →
  ohlc_dict (self st) = Some spec →
  no_adjacent_unknown spec.*1 (filter (λ x, x ∉ dts) l0) →
  (∀ x, x ∈ l0 → x ∈ spec.*1 → x ∈ df_columns (df (self st))) →
  can_write outfile = true →
  (write_csv outfile columns st).2 = Return tt ∧
  heap (world (write_csv outfile columns st).1)
    !! default (default_columns (world st)) columns
    = Some (filter (λ x, x ∈ spec.*1) (filter (λ x, x ∉ dts) l0)) ∧
  df_columns (df (self (write_csv outfile columns st).1))
    = filter (λ x, x ∈ spec.*1) (filter (λ x, x ∉ dts) l0) ∧
  logger (world (write_csv outfile columns st).1)
    = logger (world st)
      ++ (LogColDiscarded <$> filter (λ x, x ∉ spec.*1) (filter (λ x, x ∉ dts) l0))
      ++ [LogWriting (filter (λ x, x ∈ spec.*1) (filter (λ x, x ∉ dts) l0))] ∧
  (csv_table <$> disk (world (write_csv outfile columns st).1) !! outfile)
    = Some (df (self (write_csv outfile columns st).1)).
Proof.
  intros Hne Hc Hdt Hnd Hspec Hadj Hcols Hw.
  rewrite (write_csv_run outfile columns st l0 dts spec Hne Hc Hdt Hnd Hspec).
  unfold write_csv_outcome. rewrite Hw.
  destruct (skip_unknown_no_adjacent _ _ Hadj) as [-> ->].
  set (L := filter (λ x, x ∈ spec.*1) (filter (λ x, x ∉ dts) l0)).
  unfold getitem.
  destruct (list_find (λ c0, c0 ∉ df_columns (df (self st))) L) as [[i k]|] eqn:Hfind.
  { apply list_find_Some in Hfind as (Hik & Hk & _). exfalso. apply Hk.
    apply list_elem_of_lookup_2 in Hik. unfold L in Hik.
    apply list_elem_of_filter in Hik as [Hkey Hik].
    apply list_elem_of_filter in Hik as [_ Hik]. by apply Hcols. }
  simpl. split; [done|]. split; [apply lookup_insert_eq|]. split; [done|].
  split; [by rewrite <- app_assoc|]. by rewrite lookup_insert_eq.
Qed.

End WriteCsvExact.

(** ** write_csv, what a call leaves behind *)

Section WriteCsvEffect.
Context {V : Type} {ENV : Environment}.
Implicit Types (st s : @State V) (d : @DataFrame V) (l : list string).

Lemma getitem_inr l d d' :
  getitem l d = inr d' →
  df_columns d' = l ∧ df_tz d' = df_tz d ∧
  (df_rows d').*1 = (df_rows d).*1 ∧
  (∀ x, x ∈ l → x ∈ df_columns d) ∧
  (∀ i t row, df_rows d !! i = Some (t, row) →
     ∃ row', df_rows d' !! i = Some (t, row') ∧
             ∀ x, x ∈ l → row' !! x = row !! x).
Proof.
  unfold getitem.
  destruct (list_find (λ c, c ∉ df_columns d) l) as [[i k]|] eqn:Hfind; [done|].
  intros H. injection H as <-. simpl. split; [done|]. split; [done|]. split.
  - rewrite <- list_fmap_compose. apply list_fmap_ext. by intros i [t row] _.
  - split.
    + intros x Hx. apply list_find_None in Hfind. rewrite Forall_forall in Hfind.
      specialize (Hfind x Hx). by apply dec_stable.
    + intros i t row Hi. rewrite list_lookup_fmap, Hi. simpl. eexists. split; [done|].
      intros x Hx. destruct (row !! x) as [v|] eqn:Hrow.
      * apply map_lookup_filter_Some. done.
      * apply map_lookup_filter_None. left. done.
Qed.

Lemma getitem_inl l d e : getitem l d = inl e → ∃ k, e = KeyError k.
Proof.
  unfold getitem. destruct (list_find (λ c, c ∉ df_columns d) l) as [[i k]|]; [|done].
  intros H. injection H as <-. by exists k.
Qed.

Lemma write_csv_effect outfile columns st l0 dts :
  heap (world st) !! default (default_columns (world st)) columns = Some l0 →
  heap (world st) !! datetime_col (self st) = Some dts →
  ∃ st2 l2,
    rewrites (default (default_columns (world st)) columns) st st2 l2 ∧
    l2 `sublist_of` l0 ∧
    write_csv outfile columns st
    = match ohlc_dict (self st) with
      | None => (st2, Raise AttributeError)
      | Some _ =>
          match getitem l2 (df (self st)) with
          | inl e => (st2, Raise e)
          | inr d' =>
              if can_write outfile then (exported outfile d' l2 st2, Return tt)
              else (projected d' l2 st2, Raise OSError)
          end
      end.
Proof.
  intros Hc Hdt. unfold write_csv. cbv zeta.
  set (c := default (default_columns (world st)) columns) in *.
  rewrite (bind_Return (gets datetime_col) _ st st _ eq_refl).
  destruct (datetime_loop _ _ _ _ _ Hc Hdt) as (st1 & l1 & Hrun1 & Hrw1 & Hsub1 & _).
  rewrite (bind_Return _ _ _ _ _ Hrun1).
  rewrite (bind_Return (gets ohlc_dict) _ st1 st1 _ eq_refl).
  assert (Hself1 : self st1 = self st) by apply Hrw1. rewrite Hself1.
  destruct (ohlc_dict (self st)) as [spec|] eqn:Hspec.
  2:{ exists st1, l1. done. }
  rewrite (bind_Return (mret (spec.*1)) _ st1 st1 _ eq_refl).
  destruct (unknown_loop c (spec.*1) st st1 l1 Hrw1)
    as (st2 & l2 & Hrun2 & Hrw2 & Hsub2 & _).
  rewrite (bind_Return _ _ _ _ _ Hrun2).
  rewrite (bind_Return _ _ _ _ _ (load_Some _ _ _ (rewrites_lookup _ _ _ _ Hrw2))).
  rewrite (bind_Return (gets df) _ st2 st2 _ eq_refl).
  assert (Hself2 : self st2 = self st) by apply Hrw2. rewrite Hself2.
  exists st2, l2. split; [done|]. split; [by etrans|].
  destruct (getitem l2 (df (self st))); [done|].
  unfold exported, projected. run. unfold to_csv, modify_world. simpl.
  rewrite Hself2. by destruct (can_write outfile).
Qed.

(** X3: [write_csv] writes when it returns and only then, and a call that
    does not return has left every file as it was, though it may have
    rewritten the caller's list.  Such a call has left the object as it was
    too, its table included, unless what it raised is the OSError of a path
    that cannot be written: the table was projected and assigned to
    [self.df] before the write was tried, and stays so.  A call that returns
    has put under [outfile], other files untouched, the table it leaves in
    the object with the object's header flag; that table has the index and
    the zone of the table before and, in each row, the cells of the columns
    that the caller's list holds in the end. *)
Theorem write_csv_writes_when_it_returns outfile columns st l0 dts :
  heap (world st) !! default (default_columns (world st)) columns = Some l0 →
  heap (world st) !! datetime_col (self st) = Some dts →
  ((write_csv outfile columns st).2 ≠ Return tt →
     disk (world (write_csv outfile columns st).1) = disk (world st) ∧
     ((write_csv outfile columns st).2 ≠ Raise OSError →
        self (write_csv outfile columns st).1 = self st) ∧
     ((write_csv outfile columns st).2 = Raise OSError →
        can_write outfile = false ∧
        self (write_csv outfile columns st).1
          = set_df (df (self (write_csv outfile columns st).1)) (self st) ∧
        heap (world (write_csv outfile columns st).1)
          !! default (default_columns (world st)) columns
          = Some (df_columns (df (self (write_csv outfile columns st).1))) ∧
        (df_rows (df (self (write_csv outfile columns st).1))).*1
          = (df_rows (df (self st))).*1)) ∧
  ((write_csv outfile columns st).2 = Return tt →
     can_write outfile = true ∧
     self (write_csv outfile columns st).1
       = set_df (df (self (write_csv outfile columns st).1)) (self st) ∧
     disk (world (write_csv outfile columns st).1)
       = <[outfile := {| csv_header := output_header (self st);
                         csv_index := ["DateTime"%string];
                         csv_table := df (self (write_csv outfile columns st).1) |}]>
           (disk (world st)) ∧
     heap (world (write_csv outfile columns st).1)
       !! default (default_columns (world st)) columns
       = Some (df_columns (df (self (write_csv outfile columns st).1))) ∧
     df_tz (df (self (write_csv outfile columns st).1)) = df_tz (df (self st)) ∧
     (df_rows (df (self (write_csv outfile columns st).1))).*1
       = (df_rows (df (self st))).*1 ∧
     (∀ i t row, df_rows (df (self st)) !! i = Some (t, row) →
        ∃ row', df_rows (df (self (write_csv outfile columns st).1)) !! i = Some (t, row') ∧
                ∀ x, x ∈ df_columns (df (self (write_csv outfile columns st).1)) →
                     row' !! x = row !! x)).
Proof.
  intros Hc Hdt.
  destruct (write_csv_effect outfile columns st l0 dts Hc Hdt)
    as (st2 & l2 & (Hself & Hdisk & _ & Hheap) & _ & ->).
  destruct (ohlc_dict (self st)); [|by split].
  destruct (getitem l2 (df (self st))) as [e|d'] eqn:Hget.
  { destruct (getitem_inl _ _ _ Hget) as [k ->]. by split. }
  destruct (getitem_inr _ _ _ Hget) as (Hcols & Htz & Hidx & _ & Hrows).
  destruct (can_write outfile); simpl.
  - split; [done|]. intros _. rewrite Hself, Hdisk, Hheap, Hcols.
    split; [done|]. split; [done|]. split; [done|].
    split; [apply lookup_insert_eq|]. done.
  - split; [|done]. intros _. rewrite Hself, Hdisk, Hheap, Hcols.
    split; [done|]. split; [done|]. intros _.
    split; [done|]. split; [done|]. split; [apply lookup_insert_eq|done].
Qed.

End WriteCsvEffect.

(** ** resample, failures and the shape of the output *)

Section ResampleMore.
Context {V : Type} {NV : Numeric V} {ENV : Environment}.
Implicit Types (st : @State V) (d : @DataFrame V) (spec : list (string * AggFn)).

Lemma resample_agg_dropna_inv rule p spec d out :
  resample_agg_dropna rule p spec d = inr out →
  ∃ g, to_offset rule = Some g ∧
    out = dropna_any
            {| df_tz := df_tz d; df_columns := spec.*1;
               df_rows := bucket_row spec (resampler_of g p d)
                          <$> bucket_range (resampler_of g p d) |}.
Proof.
  unfold resample_agg_dropna, df_resample.
  destruct (to_offset rule) as [g|]; [|done]. fold (resampler_of g p d). unfold agg.
  destruct (decide (spec = [])); [done|].
  destruct (list_find _ spec.*1) as [[i c]|]; [done|].
  intros H. injection H as <-. by exists g.
Qed.

Lemma resample_with_Raise rule ohlc p st e :
  resample_agg_dropna rule p ohlc (df (self st)) = inl e →
  resample_with rule ohlc p st
  = ({| self := set_ohlc_dict (Some ohlc) (self st);
        world := add_log (LogCallingResample p ohlc) (world st) |}, Raise e).
Proof. intros H. unfold resample_with. run. by rewrite H. Qed.

Lemma resample_with_Return_state rule ohlc p st out :
  resample_agg_dropna rule p ohlc (df (self st)) = inr out →
  resample_with rule ohlc p st
  = ({| self := set_df out (set_ohlc_dict (Some ohlc) (self st));
        world := add_log (LogCallingResample p ohlc) (world st) |}, Return out).
Proof. intros H. unfold resample_with. run. by rewrite H. Qed.

(** X4: [resample] stores the aggregation spec before it calls pandas.  When
    the call raises, the object holds the new spec beside the old table; a
    rule pandas does not know raises ValueError, a key of the spec that is
    no column of the table KeyError.  Raising or not, the call has logged
    one record and touched neither the lists nor the disk. *)
Theorem resample_failure_keeps_table interval ohlc p st :
  (∀ e, (resample interval ohlc p st).2 = Raise e →
     self (resample interval ohlc p st).1 = set_ohlc_dict (Some ohlc) (self st)) ∧
  (to_offset (if decide (interval = "W"%string) then "W-FRI"%string else interval) = None →
     (resample interval ohlc p st).2 = Raise ValueError) ∧
  (∀ g c, to_offset (if decide (interval = "W"%string) then "W-FRI"%string else interval)
          = Some g →
     c ∈ ohlc.*1 → c ∉ df_columns (df (self st)) →
     ∃ k, (resample interval ohlc p st).2 = Raise (KeyError k) ∧
          k ∈ ohlc.*1 ∧ k ∉ df_columns (df (self st))) ∧
  (resample interval ohlc p st).2 ≠ Stuck ∧
  world (resample interval ohlc p st).1 = add_log (LogCallingResample p ohlc) (world st).
Proof.
  rewrite resample_unfold.
  set (rule := if decide (interval = "W"%string) then "W-FRI"%string else interval).
  destruct (resample_agg_dropna rule p ohlc (df (self st))) as [e|out] eqn:Hrun.
  - rewrite (resample_with_Raise _ _ _ _ _ Hrun). simpl.
    split; [done|]. split; [|split; [|done]].
    + intros Hg. unfold resample_agg_dropna, df_resample in Hrun. rewrite Hg in Hrun.
      by injection Hrun as <-.
    + intros g c Hg Hc Hnc. unfold resample_agg_dropna, df_resample in Hrun.
      rewrite Hg in Hrun. unfold agg in Hrun. simpl in Hrun.
      destruct (decide (ohlc = [])) as [->|_]; [by apply elem_of_nil in Hc|].
      destruct (list_find _ ohlc.*1) as [[i k]|] eqn:Hfind; [|done].
      injection Hrun as <-. apply list_find_Some in Hfind as (Hik & Hk & _).
      exists k. split; [done|]. split; [by eapply list_elem_of_lookup_2|done].
  - rewrite (resample_with_Return_state _ _ _ _ _ Hrun). simpl.
    split; [done|]. split; [|split; [|done]].
    + intros Hg. apply resample_agg_dropna_inv in Hrun as (g & Hg' & _). congruence.
    + intros g c Hg Hc Hnc. exfalso.
      unfold resample_agg_dropna, df_resample in Hrun. rewrite Hg in Hrun.
      unfold agg in Hrun. simpl in Hrun.
      destruct (decide (ohlc = [])); [done|].
      destruct (list_find _ ohlc.*1) as [[i k]|] eqn:Hfind; [done|].
      apply list_find_None in Hfind. rewrite Forall_forall in Hfind.
      by apply (Hfind c Hc).
Qed.

(** X5: the table [resample] returns is the table it leaves in the object.
    Its columns are the keys of the spec in their order, its zone is the
    zone of the table before, and no cell of it is missing. *)
Theorem resample_output_has_no_missing_cell interval ohlc p st out :
  (resample interval ohlc p st).2 = Return out →
  self (resample interval ohlc p st).1 = set_df out (set_ohlc_dict (Some ohlc) (self st)) ∧
  df_columns out = ohlc.*1 ∧
  df_tz out = df_tz (df (self st)) ∧
  no_missing out.
Proof.
  rewrite resample_unfold. intros Hout.
  pose proof (resample_with_Return_inv _ _ _ _ _ Hout) as Hrun.
  rewrite (resample_with_Return_state _ _ _ _ _ Hrun). simpl. split; [done|].
  apply resample_agg_dropna_inv in Hrun as (g & _ & ->). simpl.
  split; [done|]. split; [done|].
  unfold no_missing. simpl. apply Forall_forall. intros row Hrow.
  by apply list_elem_of_filter in Hrow as [Hrow _].
Qed.

Lemma seq_sorted a k : StronglySorted lt (seq a k).
Proof.
  revert a. induction k as [|k IH]; intros a; simpl; constructor; [apply IH|].
  apply Forall_forall. intros x Hx. apply elem_of_seq in Hx. lia.
Qed.

Lemma seqZ_sorted m n : StronglySorted Z.lt (seqZ m n).
Proof.
  unfold seqZ. apply (StronglySorted_fmap _ lt); [|apply seq_sorted].
  intros x y Hxy. lia.
Qed.

Lemma StronglySorted_sublist {A} (R : relation A) (l1 l2 : list A) :
  l1 `sublist_of` l2 → StronglySorted R l2 → StronglySorted R l1.
Proof.
  induction 1 as [|x l1 l2 Hsub IH|x l1 l2 Hsub IH]; intros Hs; [done|..].
  - apply StronglySorted_inv in Hs as [Hs Hall]. constructor; [by apply IH|].
    rewrite Forall_forall in *. intros y Hy. apply Hall. by eapply elem_of_sublist.
  - apply StronglySorted_inv in Hs as [Hs _]. by apply IH.
Qed.

Lemma bucket_range_sorted (r : @Resampler V) : StronglySorted Z.lt (bucket_range r).
Proof.
  unfold bucket_range. destruct (bucket_of r <$> _); [constructor|apply seqZ_sorted].
Qed.

Lemma edge_increasing g k k' :
  g = day_grid ∨ (∃ a, g = week_grid a) → k < k' → edge g k < edge g k'.
Proof.
  intros [->|[a ->]] Hk; simpl; unfold week, day; lia.
Qed.

(** X6: under the daily rule and under the weekly rules, on a table without
    a zone, the time stamps of the output go up strictly from row to row: the
    output is in the order of time and no time stamp comes twice. *)
Theorem resample_index_increases interval ohlc p st g out :
  to_offset (if decide (interval = "W"%string) then "W-FRI"%string else interval) = Some g →
  g = day_grid ∨ (∃ a, g = week_grid a) →
  df_tz (df (self st)) = None →
  (resample interval ohlc p st).2 = Return out →
  StronglySorted Z.lt (df_rows out).*1.
Proof.
  intros Hg Hshape Htz. rewrite resample_unfold. intros Hout.
  apply resample_with_Return_inv in Hout.
  apply resample_agg_dropna_inv in Hout as (g' & Hg' & ->).
  assert (g' = g) as -> by congruence.
  unfold dropna_any. cbn [df_rows df_columns].
  eapply StronglySorted_sublist.
  { apply (fmap_sublist fst). apply sublist_filter. }
  rewrite <- list_fmap_compose.
  apply (StronglySorted_fmap _ Z.lt); [|apply bucket_range_sorted].
  intros k k' Hk. unfold bucket_row, instant. simpl. rewrite Htz.
  unfold bucket_label. destruct (side_or_default g (label p));
    apply edge_increasing; (done || lia).
Qed.

End ResampleMore.

(** ** apply_cutoff, the filters together *)

Section CutoffMore.
Context {V : Type} {ENV : Environment}.
Implicit Types (st : @State V) (d : @DataFrame V).

Lemma trimmed_refl st : trimmed st st.
Proof. unfold trimmed. by destruct st as [[] ?]. Qed.

Lemma trimmed_trans st1 st2 st3 : trimmed st1 st2 → trimmed st2 st3 → trimmed st1 st3.
Proof.
  intros (Hs & Hr & Hc & Ht & Hh & Hd & H1 & H2 & H3)
         (Hs' & Hr' & Hc' & Ht' & Hh' & Hd' & H1' & H2' & H3').
  unfold trimmed. split; [by rewrite Hs', Hs|]. split; [by etrans|].
  repeat split; congruence.
Qed.

Lemma trimmed_log st r : trimmed st {| self := self st; world := add_log r (world st) |}.
Proof. unfold trimmed. simpl. by destruct st as [[] ?]. Qed.

Lemma trimmed_filter st (P : Z → Prop) `{!∀ t, Decision (P t)} r :
  trimmed st {| self := set_df (filter_rows P (df (self st))) (self st);
                world := add_log r (world st) |}.
Proof.
  unfold trimmed. simpl. split; [done|]. split; [apply sublist_filter|done].
Qed.

Lemma time_of_day_tz d t :
  time_of_day d t = from_option (λ z, wall_clock z t) t (df_tz d) `mod` day.
Proof. unfold time_of_day, wall. by destruct (df_tz d). Qed.

Lemma cutoff_time_step t1 t2 st :
  times_usable t1 t2 →
  ∃ st', cutoff_time t1 t2 st = (st', Return tt) ∧ trimmed st st' ∧
    df_rows (df (self st'))
    = filter (λ row, keeps_time t1 t2 (df_tz (df (self st))) row.1) (df_rows (df (self st))).
Proof.
  intros Hok.
  assert (Hskip : ∀ l : list (Z * gmap string V), l = filter (λ _, True) l)
    by (intros l; symmetry; by apply list_filter_all).
  destruct t1 as [s|], t2 as [e|];
    try (exists st; split; [done|]; split; [apply trimmed_refl|apply Hskip]).
  destruct Hok as [Hs He]. rewrite (cutoff_time_Some st s e Hs He).
  eexists. split; [done|]. split; [apply trimmed_filter|]. simpl.
  apply list_filter_iff. intros row. by rewrite time_of_day_tz.
Qed.

Lemma cutoff_time_fail s e st :
  ¬ times_usable (Some s) (Some e) →
  cutoff_time (Some s) (Some e) st
  = ({| self := self st; world := add_log (LogCutoffTime s e) (world st) |}, Raise ValueError).
Proof.
  intros Hn. unfold cutoff_time, between_time. run.
  by destruct (decide ((0 ≤ s < day) ∧ (0 ≤ e < day))).
Qed.

Lemma cutoff_start_step sd st b :
  read_date (df_tz (df (self st))) sd = Some b →
  ∃ st', cutoff_start sd st = (st', Return tt) ∧ trimmed st st' ∧
    df_rows (df (self st')) = filter (λ row, keeps_after b row.1) (df_rows (df (self st))).
Proof.
  intros Hb. destruct sd as [s|]; simpl in Hb.
  - destruct (date_literal (df_tz (df (self st))) s) as [v|] eqn:Hlit; [|done].
    injection Hb as <-. unfold cutoff_start. run.
    rewrite (query_index_Some _ _ _ _ Hlit). run.
    eexists. split; [done|]. split; [apply trimmed_filter|done].
  - injection Hb as <-. exists st. split; [done|]. split; [apply trimmed_refl|].
    symmetry. by apply list_filter_all.
Qed.

Lemma cutoff_end_step ed st b :
  read_date (df_tz (df (self st))) ed = Some b →
  ∃ st', cutoff_end ed st = (st', Return tt) ∧ trimmed st st' ∧
    df_rows (df (self st')) = filter (λ row, keeps_before b row.1) (df_rows (df (self st))).
Proof.
  intros Hb. destruct ed as [s|]; simpl in Hb.
  - destruct (date_literal (df_tz (df (self st))) s) as [v|] eqn:Hlit; [|done].
    injection Hb as <-. unfold cutoff_end. run.
    rewrite (query_index_Some _ _ _ _ Hlit). run.
    eexists. split; [done|]. split; [apply trimmed_filter|done].
  - injection Hb as <-. exists st. split; [done|]. split; [apply trimmed_refl|].
    symmetry. by apply list_filter_all.
Qed.

Lemma cutoff_start_fail s st :
  read_date (df_tz (df (self st))) (Some s) = None →
  cutoff_start (Some s) st
  = ({| self := self st; world := add_log (LogCutoffStart s) (world st) |},
     Raise (query_error s)).
Proof.
  simpl. intros Hb. unfold cutoff_start. run.
  destruct (date_literal (df_tz (df (self st))) s) eqn:Hlit; [done|].
  by rewrite (query_index_None _ _ _ Hlit).
Qed.

Lemma cutoff_end_fail s st :
  read_date (df_tz (df (self st))) (Some s) = None →
  cutoff_end (Some s) st
  = ({| self := self st; world := add_log (LogCutoffEnd s) (world st) |},
     Raise (query_error s)).
Proof.
  simpl. intros Hb. unfold cutoff_end. run.
  destruct (date_literal (df_tz (df (self st))) s) eqn:Hlit; [done|].
  by rewrite (query_index_None _ _ _ Hlit).
Qed.

Lemma apply_cutoff_run start_time end_time start_date end_date st b1 b2 :
  times_usable start_time end_time →
  read_date (df_tz (df (self st))) start_date = Some b1 →
  read_date (df_tz (df (self st))) end_date = Some b2 →
  (apply_cutoff start_time end_time start_date end_date st).2 = Return tt ∧
  trimmed st (apply_cutoff start_time end_time start_date end_date st).1 ∧
  df_rows (df (self (apply_cutoff start_time end_time start_date end_date st).1))
  = filter (λ row, keeps_time start_time end_time (df_tz (df (self st))) row.1 ∧
                   keeps_after b1 row.1 ∧ keeps_before b2 row.1)
           (df_rows (df (self st))).
Proof.
  intros Hok Hb1 Hb2. unfold apply_cutoff.
  destruct (cutoff_time_step start_time end_time st Hok) as (st1 & Hrun1 & Htr1 & Hrows1).
  rewrite (bind_Return _ _ _ _ _ Hrun1).
  assert (Htz1 : df_tz (df (self st1)) = df_tz (df (self st))) by apply Htr1.
  rewrite <- Htz1 in Hb1, Hb2.
  destruct (cutoff_start_step start_date st1 b1 Hb1) as (st2 & Hrun2 & Htr2 & Hrows2).
  rewrite (bind_Return _ _ _ _ _ Hrun2).
  assert (Htz2 : df_tz (df (self st2)) = df_tz (df (self st1))) by apply Htr2.
  rewrite <- Htz2 in Hb2.
  destruct (cutoff_end_step end_date st2 b2 Hb2) as (st3 & Hrun3 & Htr3 & Hrows3).
  rewrite Hrun3. simpl. split; [done|].
  split; [eapply trimmed_trans; [|done]; by eapply trimmed_trans|].
  rewrite Hrows3, Hrows2, Hrows1, !list_filter_filter.
  apply list_filter_iff. intros row. tauto.
Qed.

(** X7: the filters of [apply_cutoff] work together as one filter.  When the
    times, if both are given, are times of a day and pandas can read the
    dates that are given, the call returns; the rows it keeps, in their
    order, are those that pass the test of the time of day, lie after the
    start date and lie before the end date, a test that is not asked for
    passing every row; columns, zone, lists and disk stay as they were. *)
Theorem apply_cutoff_intersects start_time end_time start_date end_date st b1 b2 :
  times_usable start_time end_time →
  read_date (df_tz (df (self st))) start_date = Some b1 →
  read_date (df_tz (df (self st))) end_date = Some b2 →
  (apply_cutoff start_time end_time start_date end_date st).2 = Return tt ∧
  trimmed st (apply_cutoff start_time end_time start_date end_date st).1 ∧
  df_rows (df (self (apply_cutoff start_time end_time start_date end_date st).1))
  = filter (λ row, keeps_time start_time end_time (df_tz (df (self st))) row.1 ∧
                   keeps_after b1 row.1 ∧ keeps_before b2 row.1)
           (df_rows (df (self st))).
Proof. apply apply_cutoff_run. Qed.

Lemma cutoff_time_any t1 t2 st : trimmed st (cutoff_time t1 t2 st).1.
Proof.
  destruct (decide (times_usable t1 t2)) as [Hok|Hn].
  - by destruct (cutoff_time_step t1 t2 st Hok) as (st' & -> & Htr & _).
  - destruct t1 as [s|], t2 as [e|]; try (by exfalso; apply Hn).
    rewrite (cutoff_time_fail s e st Hn). apply trimmed_log.
Qed.

Lemma cutoff_start_any sd st : trimmed st (cutoff_start sd st).1.
Proof.
  destruct (read_date (df_tz (df (self st))) sd) as [b|] eqn:Hb.
  - by destruct (cutoff_start_step sd st b Hb) as (st' & -> & Htr & _).
  - destruct sd as [s|]; [|done]. rewrite (cutoff_start_fail s st Hb). apply trimmed_log.
Qed.

Lemma cutoff_end_any ed st : trimmed st (cutoff_end ed st).1.
Proof.
  destruct (read_date (df_tz (df (self st))) ed) as [b|] eqn:Hb.
  - by destruct (cutoff_end_step ed st b Hb) as (st' & -> & Htr & _).
  - destruct ed as [s|]; [|done]. rewrite (cutoff_end_fail s st Hb). apply trimmed_log.
Qed.

Lemma trimmed_bind {A B} (m : M A) (f : A → M B) st :
  trimmed st (m st).1 → (∀ a s, trimmed s (f a s).1) → trimmed st ((m ≫= f) st).1.
Proof.
  intros Hm Hf. unfold mbind, M_bind. destruct (m st) as [s [a|e|]]; simpl in *; [|done..].
  eapply trimmed_trans; [done|apply Hf].
Qed.

(** X8: returning or raising, [apply_cutoff] only ever takes rows away: the
    rows left are rows of the table before, in their order; the columns and
    the zone of the table, the other fields of the object, the lists and the
    disk are as they were. *)
Theorem apply_cutoff_only_removes_rows start_time end_time start_date end_date st :
  trimmed st (apply_cutoff start_time end_time start_date end_date st).1.
Proof.
  unfold apply_cutoff. apply trimmed_bind; [apply cutoff_time_any|].
  intros _ s. apply trimmed_bind; [apply cutoff_start_any|].
  intros _ s'. apply cutoff_end_any.
Qed.

(** X9: [apply_cutoff] is not undone by a failure.  Times that are no times
    of a day raise ValueError before anything is filtered.  An end date that
    gives no bound raises after the filter on the time of day and the filter
    on the start date have been applied, and they stay applied: ValueError
    when pandas cannot parse the date, TypeError when the date and the index
    do not agree on having a zone. *)
Theorem apply_cutoff_fails_halfway start_time end_time start_date end_date st b1 :
  times_usable start_time end_time →
  read_date (df_tz (df (self st))) start_date = Some b1 →
  date_literal (df_tz (df (self st))) end_date = None →
  (parse_datetime end_date = None →
     (apply_cutoff start_time end_time start_date (Some end_date) st).2 = Raise ValueError) ∧
  (is_Some (parse_datetime end_date) →
     (apply_cutoff start_time end_time start_date (Some end_date) st).2 = Raise TypeError) ∧
  df_rows (df (self (apply_cutoff start_time end_time start_date (Some end_date) st).1))
  = filter (λ row, keeps_time start_time end_time (df_tz (df (self st))) row.1 ∧
                   keeps_after b1 row.1)
           (df_rows (df (self st))) ∧
  (∀ s e sd ed, ¬ times_usable (Some s) (Some e) →
     (apply_cutoff (Some s) (Some e) sd ed st).2 = Raise ValueError ∧
     self (apply_cutoff (Some s) (Some e) sd ed st).1 = self st).
Proof.
  intros Hok Hb1 Hlit.
  assert (Hb2 : read_date (df_tz (df (self st))) (Some end_date) = None)
    by (simpl; by rewrite Hlit).
  assert (Hrun : ∃ st2,
    apply_cutoff start_time end_time start_date (Some end_date) st
    = ({| self := self st2; world := add_log (LogCutoffEnd end_date) (world st2) |},
       Raise (query_error end_date)) ∧
    df_rows (df (self st2))
    = filter (λ row, keeps_time start_time end_time (df_tz (df (self st))) row.1 ∧
                     keeps_after b1 row.1)
             (df_rows (df (self st)))).
  { unfold apply_cutoff.
    destruct (cutoff_time_step start_time end_time st Hok) as (st1 & Hrun1 & Htr1 & Hrows1).
    rewrite (bind_Return _ _ _ _ _ Hrun1).
    assert (Htz1 : df_tz (df (self st1)) = df_tz (df (self st))) by apply Htr1.
    rewrite <- Htz1 in Hb1, Hb2.
    destruct (cutoff_start_step start_date st1 b1 Hb1) as (st2 & Hrun2 & Htr2 & Hrows2).
    rewrite (bind_Return _ _ _ _ _ Hrun2).
    assert (Htz2 : df_tz (df (self st2)) = df_tz (df (self st1))) by apply Htr2.
    rewrite <- Htz2 in Hb2. exists st2. split; [by rewrite (cutoff_end_fail end_date st2 Hb2)|].
    rewrite Hrows2, Hrows1, list_filter_filter.
    apply list_filter_iff. intros row. tauto. }
  destruct Hrun as (st2 & -> & Hrows). simpl. unfold query_error.
  split; [by intros ->|]. split; [by intros [ts ->]|]. split; [done|].
  intros s e sd ed Hn. unfold apply_cutoff.
  by rewrite (bind_Raise _ _ _ _ _ (cutoff_time_fail s e st Hn)).
Qed.

Lemma DataFrame_eq d d' :
  df_tz d = df_tz d' → df_columns d = df_columns d' → df_rows d = df_rows d' → d = d'.
Proof. destruct d, d'. simpl. by intros -> -> ->. Qed.

(** X10: a cutoff asked for a second time changes nothing: on the table
    that a call has left, the same call returns and leaves the same table. *)
Theorem apply_cutoff_idempotent start_time end_time start_date end_date st b1 b2 :
  times_usable start_time end_time →
  read_date (df_tz (df (self st))) start_date = Some b1 →
  read_date (df_tz (df (self st))) end_date = Some b2 →
  (apply_cutoff start_time end_time start_date end_date
     (apply_cutoff start_time end_time start_date end_date st).1).2 = Return tt ∧
  df (self (apply_cutoff start_time end_time start_date end_date
              (apply_cutoff start_time end_time start_date end_date st).1).1)
  = df (self (apply_cutoff start_time end_time start_date end_date st).1).
Proof.
  intros Hok Hb1 Hb2.
  destruct (apply_cutoff_run _ _ _ _ st b1 b2 Hok Hb1 Hb2) as (_ & Htr & Hrows).
  set (st' := (apply_cutoff start_time end_time start_date end_date st).1) in *.
  destruct Htr as (_ & _ & Hcols & Htz & _).
  rewrite <- Htz in Hb1, Hb2.
  destruct (apply_cutoff_run _ _ _ _ st' b1 b2 Hok Hb1 Hb2)
    as (Hret & (_ & _ & Hcols' & Htz' & _) & Hrows').
  split; [done|]. apply DataFrame_eq; [done|done|].
  rewrite Hrows', Htz, Hrows. apply list_filter_filter_l. tauto.
Qed.

End CutoffMore.

(** ** convert_tz and apply_precision, what they leave alone *)

Section IndexAndCells.
Context {V : Type} {NV : Numeric V} {ENV : Environment}.
Implicit Types (st : @State V) (d : @DataFrame V).

(** X11: [convert_tz] touches the index and the zone alone.  Failing or
    not, it leaves the columns and every cell of the table as they were, and
    the number of rows with them; and the zone the object records agrees
    with the zone of the index afterwards when it did before. *)
Theorem convert_tz_touches_index_only from_tz to_tz st :
  df_columns (df (self (convert_tz from_tz to_tz st).1)) = df_columns (df (self st)) ∧
  (df_rows (df (self (convert_tz from_tz to_tz st).1))).*2 = (df_rows (df (self st))).*2 ∧
  ohlc_dict (self (convert_tz from_tz to_tz st).1) = ohlc_dict (self st) ∧
  same_frame st (convert_tz from_tz to_tz st).1 ∧
  (tz_consistent (self st) → tz_consistent (self (convert_tz from_tz to_tz st).1)).
Proof.
  rewrite convert_tz_unfold.
  set (st0 := (log (LogConvertingTz from_tz to_tz) st).1).
  destruct (convert_tz_try_cases from_tz to_tz st0)
    as [(e & Hrun & _)|(ts & _ & _ & _ & Hts & Hrun)].
  - destruct (try_except_Raise _ _ _ _ Hrun) as (rec & _ & _ & _ & ->). simpl.
    unfold same_frame. simpl. done.
  - unfold try_except. rewrite Hrun. simpl. split; [done|]. split.
    + apply snd_zip. apply length_mapM in Hts. simpl in Hts.
      rewrite length_fmap in Hts. rewrite length_fmap. lia.
    + split; [done|]. unfold same_frame, tz_consistent. simpl. done.
Qed.

Lemma apply_precision_run precision st :
  - 2 ^ 31 ≤ precision < 2 ^ 31 →
  ∃ d', df_round precision (df (self st)) = inr d' ∧
    apply_precision precision st
    = ({| self := set_df d' (self st);
          world := add_log (LogApplyingPrecision precision) (world st) |}, Return tt) ∧
    df_tz d' = df_tz (df (self st)) ∧
    df_columns d' = df_columns (df (self st)) ∧
    (df_rows d').*1 = (df_rows (df (self st))).*1 ∧
    (∀ i t row, df_rows (df (self st)) !! i = Some (t, row) →
       ∃ row', df_rows d' !! i = Some (t, row') ∧
               ∀ c, is_Some (row' !! c) → is_Some (row !! c)).
Proof.
  intros Hp. unfold apply_precision, df_round. run.
  rewrite decide_True by done. eexists. split; [reflexivity|]. run.
  split; [reflexivity|]. split; [done|]. split; [done|]. split.
  - rewrite <- list_fmap_compose. apply list_fmap_ext. by intros i [t row] _.
  - intros i t row Hi. rewrite list_lookup_fmap, Hi. simpl. eexists. split; [done|].
    intros c [v Hv]. rewrite lookup_omap in Hv. destruct (row !! c); [by eexists|done].
Qed.

Lemma apply_precision_overflow precision st :
  ¬ (- 2 ^ 31 ≤ precision < 2 ^ 31) →
  apply_precision precision st
  = ({| self := self st; world := add_log (LogApplyingPrecision precision) (world st) |},
     Raise OverflowError).
Proof.
  intros Hp. unfold apply_precision, df_round. run. by rewrite decide_False by done.
Qed.

(** X12: [apply_precision] changes cells alone.  The number of places has
    to fit a C int: one that does not raises OverflowError, and the object is
    as it was.  Otherwise the call returns; the index, the columns and the
    zone are as they were, the rows are as many, and no cell is there that
    was missing before.  Either way one record is logged, and the
    aggregation spec, the fields set in [__init__], the lists and the disk
    stay as they were. *)
Theorem apply_precision_rounds_cells_only precision st :
  (- 2 ^ 31 ≤ precision < 2 ^ 31 →
     (apply_precision precision st).2 = Return tt ∧
     (df_rows (df (self (apply_precision precision st).1))).*1 = (df_rows (df (self st))).*1 ∧
     df_columns (df (self (apply_precision precision st).1)) = df_columns (df (self st)) ∧
     (∀ i t row, df_rows (df (self st)) !! i = Some (t, row) →
        ∃ row', df_rows (df (self (apply_precision precision st).1)) !! i = Some (t, row') ∧
                ∀ c, is_Some (row' !! c) → is_Some (row !! c))) ∧
  (¬ (- 2 ^ 31 ≤ precision < 2 ^ 31) →
     (apply_precision precision st).2 = Raise OverflowError ∧
     self (apply_precision precision st).1 = self st) ∧
  world (apply_precision precision st).1
    = add_log (LogApplyingPrecision precision) (world st) ∧
  keeps_tz st (apply_precision precision st).1 ∧
  ohlc_dict (self (apply_precision precision st).1) = ohlc_dict (self st) ∧
  same_frame st (apply_precision precision st).1.
Proof.
  destruct (decide (- 2 ^ 31 ≤ precision < 2 ^ 31)) as [Hp|Hp].
  - destruct (apply_precision_run precision st Hp) as (d' & _ & -> & Htz & Hcols & Hidx & Hrows).
    simpl. split; [done|]. split; [done|]. split; [done|].
    unfold keeps_tz, same_frame. simpl. done.
  - rewrite (apply_precision_overflow precision st Hp). simpl.
    split; [done|]. split; [done|]. split; [done|].
    unfold keeps_tz, same_frame. simpl. done.
Qed.

End IndexAndCells.

(** ** The object from __init__ through its methods *)

Section Pipeline.
Context {V : Type} {NV : Numeric V} {ENV : Environment}.
Implicit Types (st : @State V) (d : @DataFrame V) (w : @World V) (f : @CsvFile V).

Lemma run_eq {A} (m : M A) st a : (m st).2 = Return a → m st = ((m st).1, Return a).
Proof. destruct (m st) as [s r]. simpl. by intros ->. Qed.

Lemma read_table_index usecols (t : @DataFrame V) :
  (df_rows (read_table usecols t)).*1 = (df_rows t).*1.
Proof.
  unfold read_table. simpl. rewrite <- list_fmap_compose.
  apply list_fmap_ext. by intros i [ts row] _.
Qed.

Lemma init_found path datetimecols cs w f dts usecols :
  disk w !! path = Some f →
  heap w !! default (default_datetimecols w) datetimecols = Some dts →
  heap w !! default (default_cols w) cs = Some usecols →
  csv_header f = true →
  Forall (λ c, c ∈ csv_index f ++ df_columns (csv_table f)) usecols →
  Forall (λ c, c ∈ usecols) dts →
  dts = csv_index f →
  df_rows (csv_table f) ≠ [] →
  init path datetimecols cs w
  = (w, Return {| csv_file := path;
                  datetime_col := default (default_datetimecols w) datetimecols;
                  cols := default (default_cols w) cs;
                  df_orig := read_table usecols (csv_table f); output_header := true;
                  ohlc_dict := None; df := read_table usecols (csv_table f); tz := None |}).
Proof.
  intros Hf Hdt Hcs Hh Huse Hdts Hidx Hrows. unfold init, check_file, read_csv. cbv zeta.
  rewrite decide_True by (rewrite Hf; by eexists).
  rewrite Hdt, Hcs, Hf, Hh. simpl.
  rewrite decide_True by done. rewrite decide_True by done. by rewrite decide_False by done.
Qed.

(** X13: [__init__] reads or fails, and where it fails it has made no
    object.  On a path that is no file it logs one ERROR record and exits
    with status 1 before anything is read.  On a file with a header, a name
    of [cols] that the file has not is a ValueError, and a file without a
    row is not read either.  When [__init__] returns, the world is as it
    was; the object holds the path, the very list objects it was handed (the
    shared default lists when they are left out) and no aggregation spec; its
    table is its original, with the time stamps and the zone of the file and
    of the file's columns those that [cols] names.  It records no zone even
    where the index of the file has one. *)
Theorem init_reads_or_exits path datetimecols cs w :
  (disk w !! path = None →
     init path datetimecols cs w
     = (add_log (LogNotAFileExiting path) w, Raise (SystemExit 1)) ∧
     levelname (LogNotAFileExiting path) = ERROR) ∧
  (∀ f dts usecols,
     disk w !! path = Some f → csv_header f = true →
     heap w !! default (default_datetimecols w) datetimecols = Some dts →
     heap w !! default (default_cols w) cs = Some usecols →
     (¬ Forall (λ c, c ∈ csv_index f ++ df_columns (csv_table f)) usecols →
        init path datetimecols cs w = (w, Raise ValueError)) ∧
     (df_rows (csv_table f) = [] →
        ∀ o, (init path datetimecols cs w).2 ≠ Return o)) ∧
  (∀ w' o, init path datetimecols cs w = (w', Return o) →
     w' = w ∧
     (∃ f usecols, disk w !! path = Some f ∧
        heap w !! default (default_cols w) cs = Some usecols ∧
        df o = read_table usecols (csv_table f) ∧
        df_tz (df o) = df_tz (csv_table f) ∧
        (df_rows (df o)).*1 = (df_rows (csv_table f)).*1 ∧
        df_rows (csv_table f) ≠ []) ∧
     csv_file o = path ∧
     datetime_col o = default (default_datetimecols w) datetimecols ∧
     cols o = default (default_cols w) cs ∧
     df_orig o = df o ∧
     ohlc_dict o = None ∧ output_header o = true ∧
     tz o = None).
Proof.
  split; [|split].
  - intros Hf. unfold init, check_file.
    rewrite decide_False by (rewrite Hf; by intros [? ?]). done.
  - intros f dts usecols Hf Hh Hdt Hcs. unfold init, check_file, read_csv. cbv zeta.
    rewrite decide_True by (rewrite Hf; by eexists).
    rewrite Hdt, Hcs, Hf, Hh. simpl. split.
    + intros Hn. rewrite decide_False; [done|]. by intros [? _].
    + intros Hrows o.
      destruct (decide (_ ∧ _)); [|done].
      destruct (decide (dts = csv_index f)); [|done].
      by rewrite decide_True by done.
  - intros w' o. unfold init, check_file, read_csv. cbv zeta.
    destruct (decide (is_Some (disk w !! path))) as [[f Hf]|Hn]; [|done].
    destruct (heap w !! default (default_datetimecols w) datetimecols) as [dts|]; [|done].
    destruct (heap w !! default (default_cols w) cs) as [usecols|]; [|done].
    rewrite Hf. destruct (csv_header f); simpl; [|done].
    destruct (decide (_ ∧ _)); [|done].
    destruct (decide (dts = csv_index f)); [|done].
    destruct (decide (df_rows (csv_table f) = [])) as [|Hrows]; [done|].
    intros H. injection H as <- <-. simpl. split; [done|]. split; [|done].
    exists f, usecols. split; [done|]. split; [done|]. split; [done|]. split; [done|].
    split; [apply (read_table_index usecols (csv_table f))|done].
Qed.

Lemma resample_agg_dropna_no_missing rule p spec d out :
  resample_agg_dropna rule p spec d = inr out →
  df_columns out = spec.*1 ∧ df_tz out = df_tz d ∧ no_missing out.
Proof.
  intros Hrun. apply resample_agg_dropna_inv in Hrun as (g & _ & ->). simpl.
  split; [done|]. split; [done|].
  unfold no_missing. simpl. apply Forall_forall. intros row Hrow.
  by apply list_elem_of_filter in Hrow as [Hrow _].
Qed.

Lemma convert_tz_frame from_tz to_tz st :
  (convert_tz from_tz to_tz st).2 = Return tt ∧
  df_columns (df (self (convert_tz from_tz to_tz st).1)) = df_columns (df (self st)) ∧
  ohlc_dict (self (convert_tz from_tz to_tz st).1) = ohlc_dict (self st) ∧
  same_frame st (convert_tz from_tz to_tz st).1 ∧
  (tz_consistent (self st) → tz_consistent (self (convert_tz from_tz to_tz st).1)) ∧
  (convertible from_tz to_tz (df (self st)) →
     df_tz (df (self (convert_tz from_tz to_tz st).1)) = Some to_tz) ∧
  (¬ convertible from_tz to_tz (df (self st)) →
     self (convert_tz from_tz to_tz st).1 = self st).
Proof.
  rewrite convert_tz_unfold.
  set (st0 := (log (LogConvertingTz from_tz to_tz) st).1).
  destruct (convert_tz_try_cases from_tz to_tz st0)
    as [(e & Hrun & Hfrom & _)|(ts & Hfrom & Hto & Htz & Hts & Hrun)].
  - destruct (try_except_Raise _ _ _ _ Hrun) as (rec & _ & _ & _ & ->). simpl.
    unfold same_frame. simpl. do 5 (split; [done|]). split; [|done].
    intros (Hk1 & Hk2 & Hnone & [ts Hts]). exfalso.
    unfold convert_tz_try, pytz_timezone, tz_localize, tz_convert, set_index, index in Hrun.
    run in Hrun. rewrite Hk1 in Hrun. run in Hrun. rewrite Hnone in Hrun. run in Hrun.
    rewrite Hts in Hrun. run in Hrun. rewrite Hk2 in Hrun. run in Hrun.
    apply length_mapM in Hts. rewrite length_fmap in Hts.
    destruct (decide (length ts = length (df_rows (df (self st))))); [|done].
    discriminate Hrun.
  - unfold try_except. rewrite Hrun. simpl. unfold same_frame, tz_consistent. simpl.
    do 6 (split; [done|]). intros Hn. exfalso. apply Hn.
    split; [done|]. split; [done|]. split; [done|]. by eexists.
Qed.

Lemma apply_precision_frame precision st :
  self (apply_precision precision st).1
    = set_df (df (self (apply_precision precision st).1)) (self st) ∧
  df_tz (df (self (apply_precision precision st).1)) = df_tz (df (self st)) ∧
  world (apply_precision precision st).1
    = add_log (LogApplyingPrecision precision) (world st).
Proof.
  destruct (decide (- 2 ^ 31 ≤ precision < 2 ^ 31)) as [Hp|Hp].
  - by destruct (apply_precision_run precision st Hp) as (d' & _ & -> & Htz & _).
  - rewrite (apply_precision_overflow precision st Hp). simpl. by destruct st as [[] ?].
Qed.

Lemma apply_cutoff_trimmed start_time end_time start_date end_date st :
  trimmed st (apply_cutoff start_time end_time start_date end_date st).1.
Proof.
  unfold apply_cutoff. apply trimmed_bind; [apply cutoff_time_any|].
  intros _ s. apply trimmed_bind; [apply cutoff_start_any|].
  intros _ s'. apply cutoff_end_any.
Qed.

Lemma no_missing_sublist d d' :
  df_columns d' = df_columns d → df_rows d' `sublist_of` df_rows d →
  no_missing d → no_missing d'.
Proof.
  unfold no_missing. intros -> Hsub. rewrite !Forall_forall. intros Hall row Hrow.
  apply Hall. by eapply elem_of_sublist.
Qed.

Lemma no_missing_round precision d d' :
  (∀ v, is_Some (v_round precision v)) →
  df_round precision d = inr d' → no_missing d → no_missing d'.
Proof.
  intros Hv. unfold df_round. destruct (decide (_ ≤ _ < _)); [|done].
  intros H. injection H as <-.
  unfold no_missing, whole. simpl. rewrite !Forall_forall. intros Hall row Hrow.
  apply list_elem_of_fmap in Hrow as ([t row0] & -> & Hrow0). simpl.
  specialize (Hall _ Hrow0). simpl in Hall. rewrite Forall_forall in *.
  intros c Hc. rewrite lookup_omap. destruct (Hall c Hc) as [v ->]. simpl. apply Hv.
Qed.

Lemma getitem_whole l d :
  (∀ x, x ∈ l → x ∈ df_columns d) →
  ∃ d', getitem l d = inr d' ∧ df_columns d' = l ∧ df_tz d' = df_tz d ∧
        (df_rows d').*1 = (df_rows d).*1 ∧
        (no_missing d → no_missing d').
Proof.
  intros Hl. unfold getitem.
  destruct (list_find (λ c, c ∉ df_columns d) l) as [[i k]|] eqn:Hfind.
  { apply list_find_Some in Hfind as (Hik & Hk & _). exfalso. apply Hk, Hl.
    by eapply list_elem_of_lookup_2. }
  eexists. split; [reflexivity|]. simpl. split; [done|]. split; [done|]. split.
  - rewrite <- list_fmap_compose. apply list_fmap_ext. by intros i [t row] _.
  - unfold no_missing, whole. simpl. rewrite !Forall_forall. intros Hall row Hrow.
    apply list_elem_of_fmap in Hrow as ([t row0] & -> & Hrow0). simpl.
    specialize (Hall _ Hrow0). simpl in Hall. rewrite Forall_forall in *.
    intros c Hc. destruct (Hall c (Hl c Hc)) as [v Hv]. exists v.
    by apply map_lookup_filter_Some.
Qed.

(** X14: the zone the object records follows the zone of the index of its
    table.  Once the two agree, they agree after every method, whether it
    returns or raises: [convert_tz] is the one method that sets either, and
    it sets both. *)
Theorem tz_tag_follows_index st :
  tz_consistent (self st) →
  (∀ from_tz to_tz, tz_consistent (self (convert_tz from_tz to_tz st).1)) ∧
  (∀ interval ohlc p, tz_consistent (self (resample interval ohlc p st).1)) ∧
  (∀ start_time end_time start_date end_date,
     tz_consistent (self (apply_cutoff start_time end_time start_date end_date st).1)) ∧
  (∀ precision, tz_consistent (self (apply_precision precision st).1)) ∧
  (∀ outfile columns l0 dts,
     heap (world st) !! default (default_columns (world st)) columns = Some l0 →
     heap (world st) !! datetime_col (self st) = Some dts →
     tz_consistent (self (write_csv outfile columns st).1)).
Proof.
  unfold tz_consistent. intros Htz. split; [|split; [|split; [|split]]].
  - intros from_tz to_tz. by apply convert_tz_frame.
  - intros interval ohlc p. rewrite resample_unfold.
    set (rule := if decide (interval = "W"%string) then "W-FRI"%string else interval).
    destruct (resample_agg_dropna rule p ohlc (df (self st))) as [e|out] eqn:Hrun.
    + by rewrite (resample_with_Raise _ _ _ _ _ Hrun).
    + rewrite (resample_with_Return_state _ _ _ _ _ Hrun). simpl.
      apply resample_agg_dropna_no_missing in Hrun as (_ & -> & _). done.
  - intros t1 t2 d1 d2.
    destruct (apply_cutoff_trimmed t1 t2 d1 d2 st) as (Hs & _ & _ & Ht & _).
    rewrite Ht, Hs. done.
  - intros precision.
    destruct (apply_precision_frame precision st) as (Hs & Ht & _). rewrite Ht, Hs. done.
  - intros outfile columns l0 dts Hc Hdt.
    destruct (write_csv_effect outfile columns st l0 dts Hc Hdt)
      as (st2 & l2 & (Hself & _) & _ & ->).
    destruct (ohlc_dict (self st)); [|simpl; by rewrite Hself].
    destruct (getitem l2 (df (self st))) as [e|d'] eqn:Hget; [simpl; by rewrite Hself|].
    destruct (getitem_inr _ _ _ Hget) as (_ & Htz' & _).
    destruct (can_write outfile); simpl; by rewrite Hself, Htz'.
Qed.

(** X15: what [__init__] sets stays set.  No method, returning or raising,
    assigns [df_orig], the path, the header flag or the two fields of column
    names again; and the list objects behind these two fields hold after the
    call the names they held before it, with one exception: [write_csv]
    rewrites the list object it is handed, and when that is the object's own
    [cols] or [datetime_col] list, this list is rewritten like any other. *)
Theorem init_fields_survive st :
  (∀ from_tz to_tz,
     keeps_init_fields st (convert_tz from_tz to_tz st).1 ∧
     ∀ a, keeps_list a st (convert_tz from_tz to_tz st).1) ∧
  (∀ interval ohlc p,
     keeps_init_fields st (resample interval ohlc p st).1 ∧
     ∀ a, keeps_list a st (resample interval ohlc p st).1) ∧
  (∀ start_time end_time start_date end_date,
     keeps_init_fields st (apply_cutoff start_time end_time start_date end_date st).1 ∧
     ∀ a, keeps_list a st (apply_cutoff start_time end_time start_date end_date st).1) ∧
  (∀ precision,
     keeps_init_fields st (apply_precision precision st).1 ∧
     ∀ a, keeps_list a st (apply_precision precision st).1) ∧
  (∀ outfile columns l0 dts,
     heap (world st) !! default (default_columns (world st)) columns = Some l0 →
     heap (world st) !! datetime_col (self st) = Some dts →
     keeps_init_fields st (write_csv outfile columns st).1 ∧
     (∀ a, a ≠ default (default_columns (world st)) columns →
           keeps_list a st (write_csv outfile columns st).1) ∧
     ∃ l2, heap (world (write_csv outfile columns st).1)
             !! default (default_columns (world st)) columns = Some l2 ∧
           l2 `sublist_of` l0).
Proof.
  unfold keeps_init_fields, keeps_list. split; [|split; [|split; [|split]]].
  - intros from_tz to_tz.
    destruct (convert_tz_frame from_tz to_tz st) as (_ & _ & _ & (Hh & _ & _ & H) & _).
    split; [exact H|]. intros a. by rewrite Hh.
  - intros interval ohlc p. rewrite resample_unfold.
    set (rule := if decide (interval = "W"%string) then "W-FRI"%string else interval).
    destruct (resample_agg_dropna rule p ohlc (df (self st))) as [e|out] eqn:Hrun.
    + by rewrite (resample_with_Raise _ _ _ _ _ Hrun).
    + by rewrite (resample_with_Return_state _ _ _ _ _ Hrun).
  - intros t1 t2 d1 d2.
    destruct (apply_cutoff_trimmed t1 t2 d1 d2 st) as (Hs & _ & _ & _ & Hh & _).
    rewrite Hs, Hh. done.
  - intros precision.
    destruct (apply_precision_frame precision st) as (Hs & _ & Hw). rewrite Hs, Hw. done.
  - intros outfile columns l0 dts Hc Hdt.
    destruct (write_csv_effect outfile columns st l0 dts Hc Hdt)
      as (st2 & l2 & (Hself & _ & _ & Hheap) & Hsub & ->).
    assert (Hfields : ∀ s : @State V, self s = self st2 ∨ (∃ d', self s = set_df d' (self st2)) →
              heap (world s) = heap (world st2) →
              (csv_file (self s) = csv_file (self st) ∧
               datetime_col (self s) = datetime_col (self st) ∧
               cols (self s) = cols (self st) ∧
               df_orig (self s) = df_orig (self st) ∧
               output_header (self s) = output_header (self st)) ∧
              (∀ a, a ≠ default (default_columns (world st)) columns →
                    heap (world s) !! a = heap (world st) !! a) ∧
              ∃ l, heap (world s) !! default (default_columns (world st)) columns = Some l ∧
                   l `sublist_of` l0).
    { intros s Hs Hh. rewrite Hh, Hheap. split.
      - destruct Hs as [->|[d' ->]]; by rewrite <- Hself.
      - split; [intros a Ha; by rewrite lookup_insert_ne|].
        exists l2. by rewrite lookup_insert_eq. }
    destruct (ohlc_dict (self st)); [|apply Hfields; [by left|done]].
    destruct (getitem l2 (df (self st))) as [e|d']; [apply Hfields; [by left|done]|].
    destruct (can_write outfile); apply Hfields; try done; right; by exists d'.
Qed.

Lemma date_literal_naive date b : 
  parse_datetime date = Some (Naive b) →
  date_literal None date = Some b ∧ ∀ z, date_literal (Some z) date = None.
Proof. intros H. unfold date_literal. by rewrite H. Qed.

(** The script up to the cutoff: what [__init__], [convert_tz] and
    [resample] leave to [apply_cutoff]. *)
Lemma main_until_cutoff w f :
  defaults_intact w →
  disk w !! "input.csv"%string = Some f →
  script_input f →
  ∃ o s2 out2,
    init "input.csv" None None w = (w, Return o) ∧
    (convert_tz "US/Central" "US/Eastern";; resample "D" OHLC_DICT RESAMPLE)
      {| self := o; world := w |} = (s2, Return out2) ∧
    self s2 = set_df out2 (self s2) ∧
    df_columns out2 = OHLC_DICT.*1 ∧ no_missing out2 ∧
    (convertible "US/Central" "US/Eastern" (csv_table f) →
       df_tz out2 = Some "US/Eastern"%string) ∧
    (¬ convertible "US/Central" "US/Eastern" (csv_table f) →
       df_tz out2 = df_tz (csv_table f)) ∧
    heap (world s2) = heap w ∧ disk (world s2) = disk w ∧
    default_columns (world s2) = default_columns w ∧
    datetime_col (self s2) = default_datetimecols w ∧
    output_header (self s2) = true ∧
    ohlc_dict (self s2) = Some OHLC_DICT.
Proof.
  intros (Hdt & Hcs & Hcl) Hf (Hh & Hidx & Hrows & Hcols).
  set (usecols := ["Date"; "Time"; "Open"; "High"; "Low"; "Close"; "Up"; "Down"]%string) in *.
  assert (Huse : Forall (λ c, c ∈ csv_index f ++ df_columns (csv_table f)) usecols).
  { rewrite Hidx. unfold usecols. repeat apply Forall_cons_2; try apply Forall_nil_2;
      try (apply elem_of_app; left; apply (bool_decide_unpack _); vm_compute; exact I);
      (apply elem_of_app; right; apply Hcols; apply (bool_decide_unpack _); vm_compute;
       exact I). }
  assert (Hdts : Forall (λ c, c ∈ usecols) ["Date"; "Time"]%string)
    by (apply (bool_decide_unpack _); vm_compute; exact I).
  pose proof (init_found "input.csv" None None w f _ _ Hf Hdt Hcs Hh Huse Hdts
                (eq_sym Hidx) Hrows) as Hinit.
  set (t := read_table usecols (csv_table f)) in *.
  set (o := {| csv_file := "input.csv"; df_orig := t |}) in *.
  set (s0 := {| self := o; world := w |}).
  destruct (convert_tz_frame "US/Central" "US/Eastern" s0)
    as (Hr1 & Hc1 & _ & (Hh1 & Hd1 & (_ & _ & Hdc1) & (_ & Hdtc1 & _ & _ & Hoh1)) & _
        & Hconv & Hnconv).
  assert (Hconv_iff : convertible "US/Central" "US/Eastern" (df (self s0))
                      ↔ convertible "US/Central" "US/Eastern" (csv_table f)).
  { unfold convertible. change (df (self s0)) with (read_table usecols (csv_table f)).
    rewrite (read_table_index usecols (csv_table f)).
    change (df_tz (read_table usecols (csv_table f))) with (df_tz (csv_table f)). done. }
  set (s1 := (convert_tz "US/Central" "US/Eastern" s0).1) in *.
  assert (Hsub : OHLC_DICT.*1 ⊆ df_columns (df (self s1))).
  { intros c Hc. rewrite Hc1. simpl. apply list_elem_of_filter.
    split; [|by apply Hcols].
    assert (Hall : Forall (λ x, x ∈ usecols) OHLC_DICT.*1)
      by (apply (bool_decide_unpack _); vm_compute; exact I).
    rewrite Forall_forall in Hall. by apply Hall. }
  destruct (resample_agg_dropna_rows "D" RESAMPLE OHLC_DICT (df (self s1)) day_grid
              eq_refl ltac:(done) Hsub) as (out2 & Hrun2 & _).
  destruct (resample_agg_dropna_no_missing _ _ _ _ _ Hrun2) as (Hcols2 & Htz2 & Hnm2).
  pose proof (resample_with_Return_state "D" _ _ _ _ Hrun2) as Hr2.
  change (resample_with "D" OHLC_DICT RESAMPLE s1)
    with (resample "D" OHLC_DICT RESAMPLE s1) in Hr2.
  exists o, {| self := set_df out2 (set_ohlc_dict (Some OHLC_DICT) (self s1));
              world := add_log (LogCallingResample RESAMPLE OHLC_DICT) (world s1) |}, out2.
  split; [done|]. split.
  { by rewrite (bind_Return _ _ _ _ _ (run_eq _ _ _ Hr1)). }
  simpl. split; [done|]. split; [done|]. split; [done|]. split.
  { intros Hcv. rewrite Htz2. apply Hconv. by apply Hconv_iff. }
  split.
  { intros Hncv. rewrite Htz2, Hnconv; [done|]. intros Hcv. by apply Hncv, Hconv_iff. }
  rewrite Hh1, Hd1, Hdc1, Hdtc1, Hoh1. done.
Qed.

(** X16: the script, from the file to the cutoff and beyond.  On an input
    file that [__init__] can read and that has the six columns of the spec,
    with the default lists as the [def] statements made them and the two
    dates of the cutoff written without an offset: when the conversion of the
    zones succeeds, or the index of the file has a zone already, the script
    stops in [apply_cutoff] with the TypeError of a date without a zone
    compared with an index that has one, and writes nothing.  Only when the
    conversion has failed on a table without a zone does the script reach
    [write_csv]; it then writes out.csv, with a header, holding a table
    without a zone of exactly the six columns whose time stamps lie strictly
    between the two dates, or raises OSError where out.csv cannot be written.
    The default lists are as they were in each case. *)
Theorem main_stops_at_cutoff_once_converted w f b1 b2 :
  defaults_intact w →
  disk w !! "input.csv"%string = Some f →
  script_input f →
  parse_datetime "12/20/2018" = Some (Naive b1) →
  parse_datetime "1/08/2019" = Some (Naive b2) →
  (convertible "US/Central" "US/Eastern" (csv_table f) ∨ is_Some (df_tz (csv_table f)) →
     (main w).2 = Raise TypeError ∧ disk (main w).1 = disk w) ∧
  (¬ convertible "US/Central" "US/Eastern" (csv_table f) → df_tz (csv_table f) = None →
     (can_write "out.csv" = false →
        (main w).2 = Raise OSError ∧ disk (main w).1 = disk w) ∧
     (can_write "out.csv" = true →
        ∃ out,
          (main w).2 = Return tt ∧
          disk (main w).1
            = <["out.csv"%string := {| csv_header := true;
                                       csv_index := ["DateTime"%string];
                                       csv_table := out |}]> (disk w) ∧
          df_columns out = ["Open"; "High"; "Low"; "Close"; "Up"; "Down"]%string ∧
          df_tz out = None ∧
          Forall (λ t, b1 < t < b2) (df_rows out).*1 ∧
          ((∀ v, is_Some (v_round 2 v)) → no_missing out))) ∧
  heap (main w).1 = heap w.
Proof.
  intros Hdef Hf Hin Hp1 Hp2.
  destruct (main_until_cutoff w f Hdef Hf Hin)
    as (o & s2 & out2 & Hinit & Hrun2 & Hself2 & Hcols2 & Hnm2 & Hconv & Hnconv
        & Hh2 & Hd2 & Hdc2 & Hdtc2 & Hoh2 & Hspec2).
  destruct Hdef as (Hdt & Hcs & Hcl).
  destruct (date_literal_naive _ _ Hp1) as [Hn1 Hz1].
  destruct (date_literal_naive _ _ Hp2) as [Hn2 Hz2].
  assert (Hdf2 : df (self s2) = out2) by (by rewrite Hself2).
  unfold main. rewrite Hinit.
  assert (Hchain : ∀ k : M unit,
    (convert_tz "US/Central" "US/Eastern";; resample "D" OHLC_DICT RESAMPLE;; k)
      {| self := o; world := w |} = k s2).
  { intros k. unfold mbind, M_bind in *.
    destruct (convert_tz "US/Central" "US/Eastern" {| self := o; world := w |})
      as [s1 [[]|e|]]; [|done..].
    destruct (resample "D" OHLC_DICT RESAMPLE s1) as [s2' [out'|e|]]; [|done..].
    by injection Hrun2 as -> _. }
  rewrite Hchain. clear Hchain Hrun2 Hinit.
  destruct (df_tz out2) as [z|] eqn:Htz2.
  - (* the table has a zone: the first query raises *)
    assert (Hraise : (apply_cutoff None None (Some "12/20/2018"%string)
                        (Some "1/08/2019"%string);;
                      apply_precision 2;; write_csv "out.csv" None) s2
                     = ({| self := self s2;
                           world := add_log (LogCutoffStart "12/20/2018") (world s2) |},
                        Raise TypeError)).
    { assert (Hqs : cutoff_start (Some "12/20/2018"%string) s2
                    = ({| self := self s2;
                          world := add_log (LogCutoffStart "12/20/2018") (world s2) |},
                       Raise TypeError)).
      { rewrite (cutoff_start_fail "12/20/2018" s2).
        - unfold query_error. by rewrite Hp1.
        - simpl. by rewrite Hdf2, Htz2, Hz1. }
      assert (Hac : apply_cutoff None None (Some "12/20/2018"%string)
                      (Some "1/08/2019"%string) s2
                    = ({| self := self s2;
                          world := add_log (LogCutoffStart "12/20/2018") (world s2) |},
                       Raise TypeError)).
      { unfold apply_cutoff.
        rewrite (bind_Return (cutoff_time None None) _ s2 s2 tt eq_refl).
        by rewrite (bind_Raise _ _ _ _ _ Hqs). }
      by rewrite (bind_Raise _ _ _ _ _ Hac). }
    rewrite Hraise. simpl. split; [by rewrite Hd2|]. split; [|done].
    intros Hncv Hnone. specialize (Hnconv Hncv). congruence.
  - (* the table has no zone: the script reaches write_csv *)
    assert (Hnot : ¬ convertible "US/Central" "US/Eastern" (csv_table f)).
    { intros Hcv. specialize (Hconv Hcv). congruence. }
    assert (Hnone : df_tz (csv_table f) = None) by (symmetry; by apply Hnconv).
    destruct (apply_cutoff_run None None (Some "12/20/2018"%string) (Some "1/08/2019"%string)
                s2 (Some b1) (Some b2) I)
      as (Hr3 & (Hs3 & Hsub3 & Hc3 & Ht3 & Hh3 & Hd3 & _ & _ & Hdc3) & Hrows3).
    { simpl. by rewrite Hdf2, Htz2, Hn1. }
    { simpl. by rewrite Hdf2, Htz2, Hn2. }
    rewrite (bind_Return _ _ _ _ _ (run_eq _ _ _ Hr3)).
    set (s3 := (apply_cutoff None None (Some "12/20/2018"%string) (Some "1/08/2019"%string)
                  s2).1) in *.
    destruct (apply_precision_run 2 s3 ltac:(lia))
      as (d4 & Hround & Hr4 & Htz4 & Hcols4 & Hidx4 & _).
    rewrite (bind_Return _ _ _ _ _ Hr4).
    set (s4 := {| self := set_df d4 (self s3) |}).
    assert (Hh4 : heap (world s4) = heap w) by (simpl; by rewrite Hh3).
    assert (Hd4 : disk (world s4) = disk w) by (simpl; by rewrite Hd3).
    assert (Hdc4 : default_columns (world s4) = default_columns w)
      by (simpl; by rewrite Hdc3).
    assert (Hself4 : self s4 = set_df d4 (self s2)) by (simpl; by rewrite Hs3).
    assert (Hdtc4 : datetime_col (self s4) = default_datetimecols w)
      by (by rewrite Hself4).
    assert (Hoh4 : output_header (self s4) = true) by (by rewrite Hself4).
    assert (Hspec4 : ohlc_dict (self s4) = Some OHLC_DICT) by (by rewrite Hself4).
    assert (Hdf4 : df (self s4) = d4) by done.
    assert (Hcols4' : df_columns d4 = OHLC_DICT.*1)
      by (by rewrite Hcols4, Hc3, Hdf2).
    assert (Htz4' : df_tz d4 = None) by (by rewrite Htz4, Ht3, Hdf2).
    assert (Hnm4 : (∀ v, is_Some (v_round 2 v)) → no_missing d4).
    { intros Hv. eapply no_missing_round; [done|done|].
      eapply no_missing_sublist; [done|done|]. by rewrite Hdf2. }
    assert (Hne : default (default_columns (world s4)) None ≠ datetime_col (self s4)).
    { change (default (default_columns (world s4)) None) with (default_columns (world s4)).
      rewrite Hdc4, Hdtc4. intros Heq. rewrite Heq in Hcl. congruence. }
    assert (Hnd : NoDup ["Open"; "High"; "Low"; "Close"; "Up"; "Down"]%string)
      by (apply (bool_decide_unpack _); vm_compute; exact I).
    assert (Hc4 : heap (world s4) !! default (default_columns (world s4)) None
                  = Some ["Open"; "High"; "Low"; "Close"; "Up"; "Down"]%string)
      by (change (default (default_columns (world s4)) None)
            with (default_columns (world s4)); by rewrite Hh4, Hdc4).
    assert (Hdt4 : heap (world s4) !! datetime_col (self s4) = Some ["Date"; "Time"]%string)
      by (by rewrite Hh4, Hdtc4).
    rewrite (write_csv_run "out.csv" None s4 _ _ OHLC_DICT Hne Hc4 Hdt4 Hnd Hspec4).
    unfold write_csv_outcome.
    change (skip_unknown OHLC_DICT.*1
              (filter (λ x, x ∉ ["Date"; "Time"]%string)
                 ["Open"; "High"; "Low"; "Close"; "Up"; "Down"]%string))
      with ["Open"; "High"; "Low"; "Close"; "Up"; "Down"]%string.
    change (warned_unknown OHLC_DICT.*1
              (filter (λ x, x ∉ ["Date"; "Time"]%string)
                 ["Open"; "High"; "Low"; "Close"; "Up"; "Down"]%string))
      with (@nil string).
    rewrite Hdf4.
    destruct (getitem_whole ["Open"; "High"; "Low"; "Close"; "Up"; "Down"]%string d4)
      as (out & -> & Hcols5 & Htz5 & Hidx5 & Hnm5).
    { intros x Hx. by rewrite Hcols4'. }
    clearbody s4. split; [intros [Hcv|[z Hz]]; [by destruct Hnot|congruence]|].
    destruct (can_write "out.csv") eqn:Hw; simpl; rewrite ?Hoh4, Hd4, Hh4, Hdc4.
    + split; [|by apply insert_id]. intros _ _. split; [done|]. intros _.
      exists out. split; [done|]. split; [done|]. split; [done|].
      split; [by rewrite Htz5|]. split; [|by intros Hv; apply Hnm5, Hnm4].
      rewrite Hidx5, Hidx4, Hrows3. apply Forall_forall. intros ts Hts.
      apply list_elem_of_fmap in Hts as (row & -> & Hrow).
      apply list_elem_of_filter in Hrow as [(_ & H1 & H2) _]. simpl in H1, H2. lia.
    + split; [|by apply insert_id]. intros _ _. split; [done|]. done.
Qed.

End Pipeline.

(** ** The sample run, further *)

(** The caller's list ['Foo', 'Bar', 'Open'] on the resampled sample: 'Foo'
    goes with a warning, 'Bar' is stepped over and the projection raises. *)
Example write_csv_exact_witness :
  let st := with_list 4%positive ["Foo"; "Bar"; "Open"] resampled_state in
  write_csv "out.csv" (Some 4%positive) st
  = (put 4%positive ["Bar"; "Open"] ["Foo"] st, Raise (KeyError "Bar")).
Proof.
  cbv zeta.
  rewrite (write_csv_exact "out.csv" (Some 4%positive)
             (with_list 4%positive ["Foo"; "Bar"; "Open"] resampled_state)
             ["Foo"; "Bar"; "Open"] ["Date"; "Time"] OHLC_DICT);
    [reflexivity|done|reflexivity|reflexivity
    |apply (bool_decide_unpack _); vm_compute; exact I|reflexivity].
Defined.

(** The caller's list ['Date', 'Foo', 'Open', 'Bar', 'High'] on the
    resampled sample: the export keeps 'Open' and 'High'. *)
Example write_csv_discards_unknown_names_witness :
  let st := with_list 4%positive ["Date"; "Foo"; "Open"; "Bar"; "High"] resampled_state in
  (write_csv "out.csv" (Some 4%positive) st).2 = Return tt ∧
  heap (world (write_csv "out.csv" (Some 4%positive) st).1) !! 4%positive
    = Some ["Open"; "High"].
Proof.
  cbv zeta.
  destruct (write_csv_discards_unknown_names "out.csv" (Some 4%positive)
              (with_list 4%positive ["Date"; "Foo"; "Open"; "Bar"; "High"] resampled_state)
              ["Date"; "Foo"; "Open"; "Bar"; "High"] ["Date"; "Time"] OHLC_DICT)
    as (H1 & H2 & _);
    [done|reflexivity|reflexivity|apply (bool_decide_unpack _); vm_compute; exact I
    |reflexivity| |intros x _ Hx; exact Hx|reflexivity|].
  - change (no_adjacent_unknown OHLC_DICT.*1 ["Foo"; "Open"; "Bar"; "High"]).
    simpl. repeat split;
      solve [left; apply (bool_decide_unpack _); vm_compute; exact I
            |right; apply (bool_decide_unpack _); vm_compute; exact I].
  - split; [exact H1|exact H2].
Defined.

(** The default call on the resampled sample returns and writes out.csv, with
    a header; the call that is to write to the root directory raises and
    leaves the disk as it was, the table projected all the same. *)
Example write_csv_writes_when_it_returns_witness :
  csv_header <$> disk (world (write_csv "out.csv" None resampled_state).1) !! "out.csv"
    = Some true ∧
  disk (world (write_csv "/" None resampled_state).1) = disk (world resampled_state) ∧
  self (write_csv "/" None resampled_state).1
    = set_df (df (self (write_csv "/" None resampled_state).1)) (self resampled_state).
Proof.
  split.
  - destruct (write_csv_writes_when_it_returns "out.csv" None resampled_state
                ["Open"; "High"; "Low"; "Close"; "Up"; "Down"] ["Date"; "Time"])
      as (_ & H); [reflexivity|reflexivity|].
    destruct H as (_ & _ & H & _); [vm_compute; reflexivity|].
    rewrite H. rewrite lookup_insert_eq. reflexivity.
  - destruct (write_csv_writes_when_it_returns "/" None resampled_state
                ["Open"; "High"; "Low"; "Close"; "Up"; "Down"] ["Date"; "Time"])
      as (H & _); [reflexivity|reflexivity|].
    destruct H as (H1 & _ & H2).
    + intros Hx. vm_compute in Hx. discriminate Hx.
    + split; [exact H1|]. destruct H2 as (_ & H2 & _); [vm_compute; reflexivity|exact H2].
Defined.

(** The daily resampling of the sample has no missing cell. *)
Example resample_output_has_no_missing_cell_witness :
  no_missing (df (self resampled_state)).
Proof.
  destruct (resample_output_has_no_missing_cell "D" OHLC_DICT RESAMPLE sample_state
              (df (self resampled_state))) as (_ & _ & _ & H);
    [vm_compute; reflexivity|exact H].
Defined.

(** The daily resampling of the sample is in the order of time. *)
Example resample_index_increases_witness :
  StronglySorted Z.lt (df_rows (df (self resampled_state))).*1.
Proof.
  apply (resample_index_increases "D" OHLC_DICT RESAMPLE sample_state day_grid);
    [reflexivity|by left|reflexivity|vm_compute; reflexivity].
Defined.

(** The sample from 09:00 to 09:15 and after 1970-01-02: nothing is left. *)
Example apply_cutoff_intersects_witness :
  df_rows (df (self (apply_cutoff (Some (9 * hour)) (Some (9 * hour + hour / 4))
                       (Some "1970-01-02") None sample_state).1))
  = [].
Proof.
  destruct (apply_cutoff_intersects (Some (9 * hour)) (Some (9 * hour + hour / 4))
              (Some "1970-01-02"%string) None sample_state (Some day) None)
    as (_ & _ & H); [done|reflexivity|reflexivity|].
  rewrite H. vm_compute. reflexivity.
Defined.

(** An end date that cannot be parsed, after a start date that can: the
    rows up to the start date are gone when ValueError is raised.  And an end
    date without an offset, on the table that has a zone: TypeError. *)
Example apply_cutoff_fails_halfway_witness :
  (apply_cutoff None None (Some "1970-01-02") (Some "someday") sample_state).2
    = Raise ValueError ∧
  (df_rows (df (self (apply_cutoff None None (Some "1970-01-02") (Some "someday")
                        sample_state).1))).*1
    = [2 * day + 10 * hour] ∧
  (apply_cutoff None None None (Some "1970-01-03") localized_state).2 = Raise TypeError.
Proof.
  destruct (apply_cutoff_fails_halfway None None (Some "1970-01-02"%string) "someday"
              sample_state (Some day))
    as (H1 & _ & H2 & _); [done|reflexivity|reflexivity|].
  destruct (apply_cutoff_fails_halfway None None None "1970-01-03" localized_state None)
    as (_ & H3 & _); [done|reflexivity|reflexivity|].
  split; [apply H1; reflexivity|]. split; [rewrite H2; vm_compute; reflexivity|].
  apply H3. eexists. reflexivity.
Defined.

(** The cutoff of the sample between two dates, asked for twice. *)
Example apply_cutoff_idempotent_witness :
  df (self (apply_cutoff None None (Some "1970-01-02") (Some "1970-01-05")
              (apply_cutoff None None (Some "1970-01-02") (Some "1970-01-05")
                 sample_state).1).1)
  = df (self (apply_cutoff None None (Some "1970-01-02") (Some "1970-01-05")
                sample_state).1).
Proof.
  destruct (apply_cutoff_idempotent None None (Some "1970-01-02"%string)
              (Some "1970-01-05"%string) sample_state (Some day) (Some (4 * day)))
    as (_ & H); [done|reflexivity|reflexivity|exact H].
Defined.

(** The sample object records no zone and its table has none; so it is
    after a conversion and a resampling. *)
Example tz_tag_follows_index_witness :
  tz_consistent (self (convert_tz "US/Central" "US/Eastern" sample_state).1) ∧
  tz_consistent (self resampled_state).
Proof.
  destruct (tz_tag_follows_index sample_state) as (H1 & H2 & _); [reflexivity|].
  split; [apply H1|apply (H2 "D" OHLC_DICT RESAMPLE)].
Defined.

(** The script on a file with bars from 2018-12-19 to 2019-01-09, with the
    sample zones: the conversion succeeds, and the script stops at the
    cutoff. *)
Example main_stops_at_cutoff_once_converted_witness :
  (main script_world).2 = Raise TypeError ∧ disk (main script_world).1 = disk script_world.
Proof.
  destruct (main_stops_at_cutoff_once_converted script_world
              {| csv_header := true; csv_index := ["Date"; "Time"];
                 csv_table := script_table |} (17885 * day) (17904 * day))
    as (H & _).
  - repeat split; reflexivity.
  - reflexivity.
  - split; [reflexivity|]. split; [reflexivity|]. split; [done|].
    intros c Hc. exact Hc.
  - reflexivity.
  - reflexivity.
  - apply H. left. split; [reflexivity|]. split; [reflexivity|]. split; [reflexivity|].
    eexists. reflexivity.
Defined.
